(** * select_taxa: genome catalog parsing, identifier resolution and cached retrieval

    A shallow embedding of [select_taxa.py] (package [divergence]).
    Python dictionaries are finite maps ([gmap]), exceptions are an explicit
    result type, and everything the program reads from outside (the file
    system, the clock, the FTP server) is explicit state. *)

From Stdlib Require Import ZArith Ascii String List Lia.
From stdpp Require Import base option list gmap strings pretty.

Local Open Scope string_scope.

(** ** Exceptions and results *)

(** The exceptions that the modelled code raises or lets through. *)
Inductive exn : Type :=
  | AssertionError (msg : string)
  | KeyError (key : string)
  | TypeError (msg : string)
  | IndexError (msg : string)
  | error_perm (msg : string)      (* ftplib.error_perm, 5xx replies *)
  | error_temp (msg : string)      (* ftplib.error_temp, 4xx replies *)
  | socket_error (msg : string)
  | IOError (msg : string)
  | shutil_Error (msg : string).

Inductive result (A : Type) : Type :=
  | Ok (a : A)
  | Raise (e : exn).
Arguments Ok {A} a.
Arguments Raise {A} e.

(** Sequencing: an exception skips the rest ([x ← r; k]). *)
Global Instance result_bind : MBind result := λ A B k r,
  match r with
  | Ok a => k a
  | Raise e => Raise e
  end.

(** What a caller that only observes normal returns sees. *)
Definition returned {A} (r : result A) : option A :=
  match r with
  | Ok a => Some a
  | Raise _ => None
  end.

Definition is_ok {A} (r : result A) : bool :=
  match r with
  | Ok _ => true
  | Raise _ => false
  end.

(** The value of a result that is known to be a normal return. *)
Definition value_of {A} (d : A) (r : result A) : A :=
  match r with
  | Ok a => a
  | Raise _ => d
  end.

(** ** Python string primitives *)

Module Py.

Definition tab : ascii := "009"%char.
Definition newline : ascii := "010"%char.
Definition dquote : ascii := "034"%char.

(** [s.split(sep)] for a one-character separator: never empty. *)
Fixpoint split (sep : ascii) (s : string) : list string :=
  match s with
  | EmptyString => [EmptyString]
  | String c s' =>
      if Ascii.eqb c sep then EmptyString :: split sep s'
      else match split sep s' with
           | [] => [String c EmptyString]
           | w :: ws => String c w :: ws
           end
  end.

(** [sep.join(items)]. *)
Fixpoint join (sep : ascii) (items : list string) : string :=
  match items with
  | [] => EmptyString
  | x :: rest =>
      match rest with
      | [] => x
      | _ :: _ => x +:+ String sep (join sep rest)
      end
  end.

(** [c in s] for a character. *)
Fixpoint has_char (c : ascii) (s : string) : bool :=
  match s with
  | EmptyString => false
  | String d s' => Ascii.eqb d c || has_char c s'
  end.

(** [s.startswith(p)]. *)
Definition startswith (s p : string) : bool := String.prefix p s.

(** [s.endswith(p)]. *)
Definition endswith (s p : string) : bool :=
  (String.length p <=? String.length s)%nat
  && String.eqb (String.substring (String.length s - String.length p)
                                  (String.length p) s) p.

(** [x[1:-1]]. *)
Definition slice_1_m1 (x : string) : string :=
  String.substring 1 (String.length x - 2) x.

(** [x[:-k]] for [k > 0]. *)
Definition drop_last (k : nat) (x : string) : string :=
  String.substring 0 (String.length x - k) x.

(** [needle in s] for strings. *)
Fixpoint contains (s needle : string) : bool :=
  String.prefix needle s
  || match s with
     | EmptyString => false
     | String _ s' => contains s' needle
     end.

(** [dict(pairs)]: later pairs overwrite earlier ones. *)
Definition dict {V} (pairs : list (string * V)) : gmap string V :=
  foldl (fun m kv => <[kv.1 := kv.2]> m) ∅ pairs.

End Py.

(** ** The catalog parser: [_parse_genomes_table] *)

(** A cell of a genome dictionary: the raw text, or the list it was split into. *)
Inductive value : Type :=
  | VStr (s : string)
  | VList (l : list string).

Global Instance value_eq_dec : EqDecision value.
Proof. solve_decision. Defined.

(** Python truthiness of a cell. *)
Definition truthy (v : value) : bool :=
  match v with
  | VStr s => negb (String.eqb s "")
  | VList l => negb (bool_decide (l = []))
  end.

Abbreviation genome := (gmap string value).

Record pstate : Type := mk_pstate {
  columns : list string;
  splitable_columns : gmap string ascii;
  genomes : list genome
}.

Definition initial_pstate : pstate :=
  {| columns := []; splitable_columns := ∅; genomes := [] |}.

(** The literal [{' (comma separated)': ',', ' (pipe separated)': '|'}]. *)
Definition suffixes : list (string * ascii) :=
  [(" (comma separated)", ","%char); (" (pipe separated)", "|"%char)].

(** Inner loop over the suffix table for one column: [column] stays the
    header as read, [stored] is [columns[i]]. *)
Definition strip_suffix (column : string)
    (acc : string * gmap string ascii) (entry : string * ascii)
    : string * gmap string ascii :=
  if Py.endswith column entry.1
  then let stored := Py.drop_last (String.length entry.1) column in
       (stored, <[stored := entry.2]> acc.2)
  else acc.

Definition register_column (table : list (string * ascii))
    (column : string) (splitable : gmap string ascii)
    : string * gmap string ascii :=
  foldl (strip_suffix column) (column, splitable) table.

(** Outer loop [for i, column in enumerate(columns)]. *)
Fixpoint register_columns (cols : list string) (splitable : gmap string ascii)
    : list string * gmap string ascii :=
  match cols with
  | [] => ([], splitable)
  | c :: rest =>
      let (c', sp') := register_column suffixes c splitable in
      let (rest', sp'') := register_columns rest sp' in
      (c' :: rest', sp'')
  end.

(** The message of the column-count assertion. *)
Definition count_msg (ncolumns nvalues : nat) (line : string) : string :=
  "Expected number of columns " +:+ pretty ncolumns +:+ " and values "
    +:+ pretty nvalues +:+ " to match:" +:+ String Py.newline line.

(** Lines 88-93: zip, then split the registered columns. *)
Definition split_cell (splitable : gmap string ascii) (column v : string)
    : value :=
  match splitable !! column with
  | Some sep =>
      VList (if (String.length v <=? 1)%nat then [] else Py.split sep v)
  | None => VStr v
  end.

Definition make_genome (cols : list string) (splitable : gmap string ascii)
    (values : list string) : genome :=
  map_imap (fun c v => Some (split_cell splitable c v))
           (Py.dict (zip cols values)).

(** Line 98: [[genome for genome in genomes if genome['RefSeq project ID']]]. *)
Fixpoint filter_refseq (gs : list genome) : result (list genome) :=
  match gs with
  | [] => Ok []
  | g :: rest =>
      match g !! "RefSeq project ID" with
      | None => Raise (KeyError "RefSeq project ID")
      | Some v =>
          rest' ← filter_refseq rest;
          Ok (if truthy v then g :: rest' else rest')
      end
  end.

Definition is_comment (v0 : string) : bool :=
  Py.startswith v0 "#" || Py.startswith v0 (String Py.dquote "#").

(** One iteration of the loop over lines. *)
Definition parse_line (require_refseq : bool) (st : pstate) (line : string)
    : result pstate :=
  if (String.length line =? 0)%nat then Ok st
  else
    let values := Py.split Py.tab line in
    match values with
    | [] => Raise (IndexError "list index out of range")
    | v0 :: fields =>
        if is_comment v0 then
          if String.eqb v0 "## Columns:" then
            let (cols, sp) :=
              register_columns (map Py.slice_1_m1 fields) (splitable_columns st) in
            Ok {| columns := cols; splitable_columns := sp; genomes := genomes st |}
          else Ok st
        else if negb (length (columns st) =? length values)%nat then
          Raise (AssertionError
                   (count_msg (length (columns st)) (length values) line))
        else
          let g := make_genome (columns st) (splitable_columns st) values in
          let gs := (genomes st ++ [g])%list in
          gs' ← (if require_refseq then filter_refseq gs else Ok gs);
          Ok {| columns := columns st;
                splitable_columns := splitable_columns st;
                genomes := gs' |}
    end.

Fixpoint parse_lines (require_refseq : bool) (st : pstate) (lines : list string)
    : result pstate :=
  match lines with
  | [] => Ok st
  | l :: rest =>
      st' ← parse_line require_refseq st l;
      parse_lines require_refseq st' rest
  end.

Definition _parse_genomes_table (complete_genome_table : string)
    (require_refseq : bool) : result (list genome) :=
  st ← parse_lines require_refseq initial_pstate
          (Py.split Py.newline complete_genome_table);
  Ok (genomes st).

(** The reference of the specification, in its words: "parse all rows,
    then filter by non-empty RefSeq ID".  A record passes when it has a
    RefSeq project ID and that ID is not empty. *)
Definition has_refseq_id (g : genome) : bool :=
  match g !! "RefSeq project ID" with
  | Some v => truthy v
  | None => false
  end.

Definition parse_then_filter (complete_genome_table : string)
    : result (list genome) :=
  gs ← _parse_genomes_table complete_genome_table false;
  Ok (List.filter has_refseq_id gs).

(** A small catalog in the format of the NCBI dump, for examples. *)
Definition quoted (s : string) : string :=
  String Py.dquote (s +:+ String Py.dquote "").

Definition table_of (rows : list (list string)) : string :=
  Py.join Py.newline (map (Py.join Py.tab) rows).

Definition sample_table : string :=
  table_of
    [ ["## Columns:"; quoted "RefSeq project ID"; quoted "Project ID";
       quoted "Accs (comma separated)"];
      ["57779"; "225"; "NC_1,NC_2"];
      [""; "300"; "X"];
      ["58531"; "301"; ","] ].

(** A line that reaches the column-count assertion: not empty (line 64)
    and not a comment (line 69). *)
Definition is_data_line (line : string) : bool :=
  negb (String.length line =? 0)%nat
  && negb (is_comment (hd "" (Py.split Py.tab line))).

Definition short_row_table : string :=
  table_of
    [ ["## Columns:"; quoted "RefSeq project ID"; quoted "Project ID"];
      ["58531"];
      ["58533"; "303"] ].

(** ** The identifier resolver: [select_genomes_by_ids] *)

(** Records written through the [logging] module. *)
Inductive level : Type := INFO | WARNING | ERROR.

Global Instance level_eq_dec : EqDecision level.
Proof. solve_decision. Defined.

Abbreviation log_record := (level * string)%type.

(** [dict((genome[key], genome) for genome in genomes)]: a record without
    the column raises [KeyError], a cell that was split into a list cannot
    be a dictionary key, and a later record replaces an earlier one under
    the same key. *)
Fixpoint index_into (key : string) (acc : gmap string genome) (gs : list genome)
    : result (gmap string genome) :=
  match gs with
  | [] => Ok acc
  | g :: rest =>
      match g !! key with
      | None => Raise (KeyError key)
      | Some (VList _) => Raise (TypeError "unhashable type: 'list'")
      | Some (VStr k) => index_into key (<[k := g]> acc) rest
      end
  end.

Definition index_by (key : string) (gs : list genome) : result (gmap string genome) :=
  index_into key ∅ gs.

(** Lines 18 and 19; the catalog text is the default argument of the parser. *)
Definition refseq_genomes (complete_genome_table : string)
    : result (gmap string genome) :=
  gs ← _parse_genomes_table complete_genome_table false;
  index_by "RefSeq project ID" gs.

Definition genbank_genomes (complete_genome_table : string)
    : result (gmap string genome) :=
  gs ← _parse_genomes_table complete_genome_table false;
  index_by "Project ID" gs.

(** [dict((queryid, index[queryid]) for queryid in genome_ids if queryid in index)]. *)
Definition lookup_all (index : gmap string genome) (genome_ids : list string)
    : gmap string genome :=
  Py.dict (omap (λ queryid, (λ g, (queryid, g)) <$> index !! queryid) genome_ids).

(** Lines 25 and 26: the RefSeq matches, then [update] with the GenBank
    matches. *)
Definition match_ids (refseq genbank : gmap string genome)
    (genome_ids : list string) : gmap string genome :=
  lookup_all genbank genome_ids ∪ lookup_all refseq genome_ids.

Definition not_found_msg (queryid : string) : string :=
  "Could not find genome with Genbank Project ID " +:+ queryid
    +:+ " in complete genomes table".

(** Lines 29-31. *)
Definition unmatched_warnings (matches : gmap string genome)
    (genome_ids : list string) : list log_record :=
  omap (λ queryid, match matches !! queryid with
                   | None => Some (WARNING, not_found_msg queryid)
                   | Some _ => None
                   end) genome_ids.

Definition overlap_msg : string := "RefSeq & GenBank project IDs should not overlap".

(** The function returns the matches; the second component is what it
    has logged. *)
Definition select_genomes_by_ids (complete_genome_table : string)
    (genome_ids : list string) : result (gmap string genome * list log_record) :=
  refseq ← refseq_genomes complete_genome_table;
  genbank ← genbank_genomes complete_genome_table;
  if negb (bool_decide (dom refseq ##@{gset string} dom genbank))
  then Raise (AssertionError overlap_msg)
  else
    let matches := match_ids refseq genbank genome_ids in
    Ok (matches, unmatched_warnings matches genome_ids).

Definition id_header : list string :=
  ["## Columns:"; quoted "RefSeq project ID"; quoted "Project ID";
   quoted "Organism Name"].

Definition id_table : string :=
  table_of
    [ id_header;
      ["57779"; "225"; "Escherichia coli"];
      [""; "300"; "Bacillus one"];
      ["58531"; "301"; "Coxiella"];
      [""; "302"; "Bacillus two"] ].

Definition overlap_table : string :=
  table_of
    [ id_header;
      ["57779"; "225"; "Escherichia coli"];
      ["225"; "301"; "Coxiella"] ].

(** The two indexes of a catalog, for examples ([∅] if building one raises). *)
Definition refseq_index_of (table : string) : gmap string genome :=
  value_of ∅ (refseq_genomes table).

Definition genbank_index_of (table : string) : gmap string genome :=
  value_of ∅ (genbank_genomes table).

(** Two crafted one-entry mappings holding different records under one ID. *)
Definition crafted_refseq_record : genome :=
  {[ "Organism Name" := VStr "from RefSeq" ]}.

Definition crafted_genbank_record : genome :=
  {[ "Organism Name" := VStr "from GenBank" ]}.

(** ** The local file system and the recency checks *)

(** What [os.path] can tell about a path: a regular file with its bytes, or
    a directory with the size [stat] reports for it.  Times are seconds
    since the epoch. *)
Inductive node : Type :=
  | File (data : string) (mtime : Z)
  | Dir (st_size : Z) (mtime : Z).

Abbreviation filesystem := (gmap string node).

Definition getsize (n : node) : Z :=
  match n with
  | File data _ => Z.of_nat (String.length data)
  | Dir st_size _ => st_size
  end.

Definition getmtime (n : node) : Z :=
  match n with
  | File _ mtime => mtime
  | Dir _ mtime => mtime
  end.

Definition isfile (fs : filesystem) (path : string) : bool :=
  match fs !! path with
  | Some (File _ _) => true
  | _ => false
  end.

Definition isdir (fs : filesystem) (path : string) : bool :=
  match fs !! path with
  | Some (Dir _ _) => true
  | _ => false
  end.

Definition time_between_downloads : Z := 24 * 60 * 60.

(** Line 40, the condition under which [_download_genomes_table] downloads
    the catalog again instead of reading the saved copy:
    [not isfile(genome_table) or getmtime(genome_table) < time.time() - ...]. *)
Definition genomes_table_outdated (fs : filesystem) (now : Z)
    (genome_table : string) : bool :=
  match fs !! genome_table with
  | Some (File data mtime) => mtime <? now - time_between_downloads
  | _ => true
  end%Z.

(** Lines 263-264, the condition under which [_download_genome_file]
    transfers the file:
    [not exists(out_file) or 0 == getsize(out_file) or getmtime(out_file) < min_file_age]. *)
Definition genome_file_outdated (fs : filesystem) (now : Z) (out_file : string)
    : bool :=
  let min_file_age := (now - 30 * 24 * 60 * 60)%Z in
  match fs !! out_file with
  | None => true
  | Some n => (0 =? getsize n)%Z || (getmtime n <? min_file_age)%Z
  end.

(** The recency check as the specification words it: the path exists, has
    non-zero size and was modified more recently than [now - max_age]. *)
Definition is_fresh_spec (fs : filesystem) (now : Z) (path : string) (max_age : Z)
    : Prop :=
  ∃ n, fs !! path = Some n ∧ getsize n ≠ 0%Z ∧ (now - max_age < getmtime n)%Z.

(** ** Retrieval of genome files *)

(** Everything outside the program: the clock, [tempfile.mkstemp] and the
    FTP server.  An interaction answers and leaves the outside world in a
    new state.  [retrbinary] hands over the blocks the server sends, and
    then ends normally or with an exception. *)
Class Outside (E : Type) : Type := {
  time_time : E → Z * E;
  mkstemp : E → string → string * E;
  retrbinary : E → string → (list string * option exn) * E
}.

Record world (E : Type) : Type := mk_world {
  outside : E;
  files : filesystem;
  logged : list log_record
}.
Arguments mk_world {E} _ _ _.
Arguments outside {E} _.
Arguments files {E} _.
Arguments logged {E} _.

Definition ftp_host : string := "ftp.ncbi.nih.gov".

(** [os.path.join(a, b)] on POSIX. *)
Definition os_path_join (a b : string) : string :=
  if Py.startswith b "/" then b
  else if (String.length a =? 0)%nat || Py.endswith a "/" then a +:+ b
  else a +:+ "/" +:+ b.

(** [os.path.basename]. *)
Definition basename (path : string) : string :=
  default "" (last (Py.split "/"%char path)).

(** [os.path.dirname]: the path up to its last slash, without trailing
    slashes unless it is made of slashes only. *)
Fixpoint drop_to_slash (reversed : list ascii) : list ascii :=
  match reversed with
  | [] => []
  | c :: rest => if Ascii.eqb c "/" then reversed else drop_to_slash rest
  end.

Fixpoint strip_slashes (reversed : list ascii) : list ascii :=
  match reversed with
  | [] => []
  | c :: rest => if Ascii.eqb c "/" then strip_slashes rest else reversed
  end.

Definition os_path_dirname (path : string) : string :=
  let head := drop_to_slash (rev (list_ascii_of_string path)) in
  string_of_list_ascii
    (rev (if forallb (Ascii.eqb "/") head then head else strip_slashes head)).

(** Whether the directory that is to hold [path] is there; the current
    directory (for a bare name) and the root always are. *)
Definition parent_exists (fs : filesystem) (path : string) : bool :=
  let parent := os_path_dirname path in
  forallb (Ascii.eqb "/") (list_ascii_of_string parent) || isdir fs parent.

(** [shutil.move(src, dst)] for a regular file [src]: into [dst] when it is
    a directory, else onto [dst].  Without a directory to hold [dst],
    neither [os.rename] nor the copy can make it: the copy raises
    [IOError] and [src] stays. *)
Definition shutil_move (fs : filesystem) (src dst : string) : result filesystem :=
  match fs !! src with
  | None => Raise (IOError ("No such file or directory: " +:+ src))
  | Some n =>
      if isdir fs dst then
        let real_dst := os_path_join dst (basename src) in
        if bool_decide (is_Some (fs !! real_dst))
        then Raise (shutil_Error ("Destination path already exists: " +:+ real_dst))
        else Ok (<[real_dst := n]> (delete src fs))
      else if parent_exists fs dst then Ok (<[dst := n]> (delete src fs))
      else Raise (IOError ("No such file or directory: " +:+ dst))
  end.

Definition retrieving_msg (filename remote_dir target_dir : string) : string :=
  "Retrieving genome file " +:+ filename +:+ " from " +:+ ftp_host
    +:+ remote_dir +:+ " to " +:+ target_dir.

(** [_download_genome_file]: returns the world it leaves behind and either
    the path of the local file or the exception it raised. *)
Definition _download_genome_file {E} `{Outside E}
    (remote_dir filename target_dir : string) (w : world E)
    : world E * result string :=
  let out_file := os_path_join target_dir filename in
  let (now, e1) := time_time (outside w) in
  if genome_file_outdated (files w) now out_file then
    let (tmp_file, e2) := mkstemp e1 (filename +:+ "_") in
    (* mkstemp has created the file, empty *)
    let fs1 := <[tmp_file := File "" now]> (files w) in
    let log1 := (logged w ++ [(INFO, retrieving_msg filename remote_dir target_dir)])%list in
    (* open(tmp_file, 'wb'), then one write per block *)
    let '(blocks, outcome, e3) :=
      retrbinary e2 ("RETR " +:+ remote_dir +:+ "/" +:+ filename) in
    let written := File (foldr String.append "" blocks) (time_time e3).1 in
    let fs2 := <[tmp_file := written]> fs1 in
    match outcome with
    | Some err => (mk_world e3 fs2 log1, Raise err)
    | None =>
        if isfile fs2 tmp_file && (0 <? getsize written)%Z then
          match shutil_move fs2 tmp_file out_file with
          | Ok fs3 => (mk_world e3 fs3 log1, Ok out_file)
          | Raise err => (mk_world e3 fs2 log1, Raise err)
          end
        else (mk_world e3 fs2 log1,
              Raise (AssertionError ("File should have content now: " +:+ tmp_file)))
    end
  else (mk_world e1 (files w) (logged w), Ok out_file).

(** The [except error_perm] clause of lines 231-236: the errors after
    which the loop goes on without a feature table. *)
Definition tolerated (err : exn) : bool :=
  match err with
  | error_perm msg => Py.contains msg "No such file or directory"
  | _ => false
  end.

(** [str(err)] *)
Definition str (err : exn) : string :=
  match err with
  | AssertionError msg | KeyError msg | TypeError msg | IndexError msg
  | error_perm msg | error_temp msg | socket_error msg | IOError msg
  | shutil_Error msg => msg
  end.

Definition log_warn {E} (msg : string) (w : world E) : world E :=
  mk_world (outside w) (files w) (logged w ++ [(WARNING, msg)])%list.

Abbreviation genome_file := (string * string * option string)%type.

(** Lines 227-237 of [download_genome_files], the loop over the accession
    codes; [project_dir], [target_dir] and [projectid] are what the first
    part of the function has settled on. *)
Fixpoint download_accessions {E} `{Outside E}
    (project_dir target_dir projectid : string) (accessioncodes : list string)
    (genome_files : list genome_file) (w : world E)
    : world E * result (list genome_file) :=
  match accessioncodes with
  | [] => (w, Ok genome_files)
  | acc :: rest =>
      match _download_genome_file project_dir (acc +:+ ".gbk") target_dir w with
      | (w1, Raise err) => (w1, Raise err)
      | (w1, Ok gbk_file) =>
          match _download_genome_file project_dir (acc +:+ ".ptt") target_dir w1 with
          | (w2, Ok ptt_file) =>
              download_accessions project_dir target_dir projectid rest
                (genome_files ++ [(projectid, gbk_file, Some ptt_file)])%list w2
          | (w2, Raise err) =>
              if tolerated err then
                download_accessions project_dir target_dir projectid rest
                  (genome_files ++ [(projectid, gbk_file, None)])%list
                  (log_warn (str err) w2)
              else (w2, Raise err)
          end
      end
  end.

(** A server for the examples: it has every [.gbk] file, no [.ptt] file
    under [/genomes/Bacteria/none], and drops the connection half way
    through anything under [/genomes/Bacteria/flaky].  The state counts the
    interactions; the clock starts at 2,000,000,000 s. *)
Definition demo_retr (command : string) : list string * option exn :=
  if Py.contains command "flaky"
  then (["LOCUS  "], Some (socket_error "Connection reset by peer"))
  else if Py.endswith command ".ptt" && Py.contains command "none"
  then ([], Some (error_perm ("550 " +:+ command +:+ ": No such file or directory")))
  else if Py.endswith command ".ptt" && Py.contains command "locked"
  then ([], Some (error_perm "550 Permission denied"))
  else (["LOCUS  "; "NC_1"], None).

Global Instance demo_outside : Outside nat := {|
  time_time n := (2000000000 + Z.of_nat n, S n)%Z;
  mkstemp n prefix := ("/tmp/" +:+ prefix +:+ pretty n, S n);
  retrbinary n command := (demo_retr command, S n)
|}.

Definition demo_world : world nat :=
  mk_world 0 {[ "cache" := Dir 4096 1990000000;
                "cache/NC_9.gbk" := File "old contents" 1990000000 ]} [].

(** * More of the program *)

(** ** Lines the parser skips *)

(** A line that changes nothing: empty (line 64), or a comment other than
    the column header (lines 69-81). *)
Definition is_skipped_line (line : string) : bool :=
  (String.length line =? 0)%nat
  || (is_comment (hd "" (Py.split Py.tab line))
      && negb (String.eqb (hd "" (Py.split Py.tab line)) "## Columns:")).

(** A cell that can stand in a row of [table_of]: no tab, no newline. *)
Definition plain_cell (cell : string) : bool :=
  negb (Py.has_char Py.tab cell) && negb (Py.has_char Py.newline cell).

Definition commented_table : string :=
  table_of
    [ ["# Complete genomes"];
      ["## Columns:"; quoted "RefSeq project ID"; quoted "Project ID"];
      ["57779"; "225"];
      ["# second thoughts"];
      ["58531"; "301"] ].

Definition uncommented_table : string :=
  table_of
    [ ["# Complete genomes"];
      ["## Columns:"; quoted "RefSeq project ID"; quoted "Project ID"];
      ["57779"; "225"];
      ["58531"; "301"] ].

(** The rows of a table that [table_of] can carry and the parser reads as
    data: as many plain cells as there are columns, and a line that is
    neither empty nor a comment. *)
Definition data_row (ncolumns : nat) (row : list string) : Prop :=
  length row = ncolumns
  ∧ Forall (λ cell, plain_cell cell = true) row
  ∧ is_data_line (Py.join Py.tab row) = true.

(** The header line of a catalog with the given column headers. *)
Definition header_row (headers : list string) : list string :=
  "## Columns:" :: map quoted headers.

(** A catalog whose header is replaced half way: the second header names
    the accession column without its suffix. *)
Definition two_header_table : string :=
  table_of
    [ header_row ["Project ID"; "Accs (comma separated)"];
      ["225"; "NC_1,NC_2"];
      header_row ["Project ID"; "Accs"];
      ["301"; "NC_3,NC_4"] ].

(** A catalog without the RefSeq column. *)
Definition genbank_only_table : string :=
  table_of [ header_row ["Project ID"; "Organism Name"];
             ["225"; "Escherichia coli"] ].

(** ** The entry point: [main] up to the resolution *)

(** Line 299: [[val for val in genomes_line.split(',') if val]]. *)
Definition split_genome_ids (genomes_line : string) : list string :=
  filter (λ val, val ≠ "") (Py.split ","%char genomes_line).

Definition minimum : nat := 2.
Definition maximum : nat := 40.

Definition expected_msg : string :=
  "Expected no less than " +:+ pretty minimum +:+ " and no more than "
    +:+ pretty maximum +:+ " selected genomes".

(** How the first part of [main] ends: [sys.exit(status)] after what was
    logged, or the outcome of [select_genomes_by_ids]. *)
Inductive main_outcome : Type :=
  | SystemExit (status : Z) (logged : list log_record)
  | Resolved (r : result (gmap string genome * list log_record)).

(** Lines 298-309 of [main], with the two options already parsed. *)
Definition main_select (complete_genome_table genomes_line : string)
    : main_outcome :=
  let genome_ids := split_genome_ids genomes_line in
  if negb ((minimum <=? length genome_ids)%nat
           && (length genome_ids <=? maximum)%nat)
  then SystemExit 1 [(ERROR, expected_msg)]
  else Resolved (select_genomes_by_ids complete_genome_table genome_ids).

(** A catalog in which the ID column itself is declared multi-valued. *)
Definition split_id_table : string :=
  table_of [ header_row ["RefSeq project ID (comma separated)"; "Project ID"];
             ["57779,57780"; "225"] ].

(** ** Finding the project directory *)

(** The directory listing of the FTP connection: [ftp.nlst(path)]. *)
Class Listing (E : Type) : Type := {
  nlst : E → string → result (list string) * E
}.

(** [_find_project_dir]: the listing may raise; otherwise the first entry
    that ends in [_uid<projectid>], or [None]. *)
Definition _find_project_dir {E} `{Listing E} (base_dir projectid : string)
    (ftp : E) : result (option string) * E :=
  let (listing, ftp') := nlst ftp base_dir in
  (directory_listing ← listing;
   let dir_suffix := "_uid" +:+ projectid in
   Ok (find (λ ftp_file, Py.endswith ftp_file dir_suffix) directory_listing),
   ftp').

(** Project IDs as the catalog and the tests have them: digits and dots. *)
Definition is_numeric_id (projectid : string) : bool :=
  forallb (λ c, bool_decide (c ∈ list_ascii_of_string "0123456789."))
          (list_ascii_of_string projectid).

(** A server with a fixed listing, for examples. *)
Definition demo_listing : list string :=
  [ "/genomes/Bacteria/Escherichia_coli_536_uid58531";
    "/genomes/Bacteria/Escherichia_coli_K_12_uid225";
    "/genomes/Bacteria/Bacillus_subtilis_uid1225";
    "/genomes/Bacteria/Again_Escherichia_coli_uid225" ].

Global Instance demo_listing_server : Listing unit :=
  {| nlst _ _ := (Ok demo_listing, tt) |}.

(** ** Binning: [_bin_using_keyfunctions] *)

Global Instance exn_eq_dec : EqDecision exn.
Proof. solve_decision. Defined.

Global Instance result_eq_dec {A} `{EqDecision A} : EqDecision (result A).
Proof. solve_decision. Defined.

(** A key function as [get_complete_genomes] passes them: it maps a genome
    to a string that serves as dictionary key, or raises. *)
Abbreviation keyfunction := (genome → result string).

(** [operator.itemgetter(name)] as a key function: a cell that was split
    into a list cannot be a dictionary key ([bins.get] raises). *)
Definition itemgetter (name : string) : keyfunction := λ g,
  match g !! name with
  | None => Raise (KeyError name)
  | Some (VStr s) => Ok s
  | Some (VList _) => Raise (TypeError "unhashable type: 'list'")
  end.

(** A loop body that may raise, over a list and over the values of a
    dictionary (in the order of [map_to_list]). *)
Fixpoint mapM_list {A B} (f : A → result B) (l : list A) : result (list B) :=
  match l with
  | [] => Ok []
  | x :: rest => y ← f x; ys ← mapM_list f rest; Ok (y :: ys)
  end.

Definition mapM_map {A B} (f : A → result B) (m : gmap string A)
    : result (gmap string B) :=
  kvs ← mapM_list (λ kv, v ← f kv.2; Ok (kv.1, v)) (map_to_list m);
  Ok (list_to_map kvs).

(** Lines 108-116: [bins[key] = bins.get(key, [])], then [append]. *)
Fixpoint group_into (key_of : keyfunction) (bins : gmap string (list genome))
    (genomes : list genome) : result (gmap string (list genome)) :=
  match genomes with
  | [] => Ok bins
  | g :: rest =>
      key ← key_of g;
      group_into key_of (<[key := (default [] (bins !! key) ++ [g])%list]> bins) rest
  end.

(** [sorted(col, key = keyfunction)]: a stable sort on the keys, compared
    as Python compares strings. *)
Fixpoint insert_by_key (kx : string) (x : genome) (l : list (string * genome))
    : list (string * genome) :=
  match l with
  | [] => [(kx, x)]
  | (ky, y) :: rest =>
      if String.leb kx ky then (kx, x) :: (ky, y) :: rest
      else (ky, y) :: insert_by_key kx x rest
  end.

Definition sorted_by_key (key_of : keyfunction) (col : list genome)
    : result (list genome) :=
  keyed ← mapM_list (λ g, k ← key_of g; Ok (k, g)) col;
  Ok (map snd (foldr (λ kg acc, insert_by_key kg.1 kg.2 acc) [] keyed)).

Definition _bin_according_to_keyfunction (genomes : list genome)
    (key_of : keyfunction) : result (gmap string (list genome)) :=
  bins ← group_into key_of ∅ genomes;
  mapM_map (sorted_by_key key_of) bins.

(** The nested dictionaries: lists at the innermost level. *)
Local Unset Elimination Schemes.
Inductive bins : Type :=
  | Collection (col : list genome)
  | Bins (children : gmap string bins).
Local Set Elimination Schemes.

Fixpoint _bin_using_keyfunctions (genomes : list genome)
    (keyfunctions : list keyfunction) {struct keyfunctions}
    : result (gmap string bins) :=
  match keyfunctions with
  | [] => Raise (IndexError "list index out of range")
  | key_of :: furtherfunctions =>
      binned ← _bin_according_to_keyfunction genomes key_of;
      match furtherfunctions with
      | [] => Ok (Collection <$> binned)
      | _ :: _ =>
          mapM_map (λ subset,
                      sub ← _bin_using_keyfunctions subset furtherfunctions;
                      Ok (Bins sub)) binned
      end
  end.

(** Following keys down the nested dictionaries. *)
Fixpoint lookup_bins (b : bins) (path : list string) : option (list genome) :=
  match path, b with
  | [], Collection col => Some col
  | k :: rest, Bins children => children !! k ≫= λ child, lookup_bins child rest
  | _, _ => None
  end.

(** The keys of a genome under each of the key functions. *)
Definition key_path (keyfunctions : list keyfunction) (g : genome)
    : result (list string) :=
  mapM_list (λ key_of : keyfunction, key_of g) keyfunctions.

Definition kingdom_table : string :=
  table_of
    [ header_row ["Project ID"; "Super Kingdom"; "Group"];
      ["225"; "Bacteria"; "Gammaproteobacteria"];
      ["300"; "Archaea"; "Crenarchaeota"];
      ["301"; "Bacteria"; "Firmicutes"];
      ["302"; "Bacteria"; "Gammaproteobacteria"] ].

Definition kingdom_genomes : list genome :=
  value_of [] (_parse_genomes_table kingdom_table false).

Definition kingdom_bins : gmap string bins :=
  value_of ∅ (_bin_using_keyfunctions kingdom_genomes
                [itemgetter "Super Kingdom"; itemgetter "Group"]).

(** ** The cache directory: [create_directory] of the package

    [resource_filename] (of [pkg_resources]) resolves a path relative to
    the package.  [os.makedirs] is the system's: it ends normally or with
    an exception, and leaves the file system it leaves. *)

Definition BASE_OUTPUT_PATH : string := "../divergence-cache/".

Definition file_in_the_way_msg : string :=
  "Could not create directory {0}" +:+ String Py.newline
    "A file with that name already exists.".

Definition create_directory (resource_filename : string → string)
    (makedirs : filesystem → string → option exn * filesystem)
    (dirname inside_dir : string) (fs : filesystem)
    : result string * filesystem :=
  match os_path_join inside_dir dirname with
  | EmptyString => (Raise (IndexError "string index out of range"), fs)
  | String c _ as joined =>
      let filename :=
        if negb (Ascii.eqb c "/") then resource_filename joined else joined in
      match fs !! filename with
      | Some (Dir _ _) => (Ok filename, fs)
      | Some (File _ _) => (Raise (IOError file_in_the_way_msg), fs)
      | None =>
          match makedirs fs filename with
          | (None, fs') => (Ok filename, fs')
          | (Some err, fs') => (Raise err, fs')
          end
      end
  end.

(** A package installed under [/opt/divergence], and a system on which
    [os.makedirs] succeeds. *)
Definition demo_resource_filename (path : string) : string :=
  "/opt/divergence/" +:+ path.

Definition demo_makedirs (fs : filesystem) (path : string)
    : option exn * filesystem :=
  (None, <[path := Dir 4096 2000000000]> fs).

(** ** The catalog copy: [_download_genomes_table] *)

(** [HTTP_CACHE.request(url)[1]]: the body the request comes back with, or
    the exception it raises. *)
Class Web (E : Type) : Type := {
  http_request : E → string → result string * E
}.

(** The three codec calls of the function: [.decode('iso-8859-1')],
    [.encode('utf-8')] and [.decode('utf-8')], the last of which can
    raise. *)
Record codecs : Type := {
  decode_iso_8859_1 : string → string;
  encode_utf_8 : string → string;
  decode_utf_8 : string → result string
}.

Definition genomes_url : string :=
  "http://www.ncbi.nlm.nih.gov/genomes/lproks.cgi?dump=selected&view=1&p1=5:0".

(** The condition of line 40: [or] reads the clock only when the path is
    a file. *)
Definition table_needs_refresh {E} `{Outside E} (fs : filesystem)
    (genome_table : string) (e : E) : bool * E :=
  if negb (isfile fs genome_table) then (true, e)
  else let (now, e1) := time_time e in
       (genomes_table_outdated fs now genome_table, e1).

(** [_download_genomes_table]; [create_directory('.')] comes first. *)
Definition _download_genomes_table {E} `{Outside E} `{Web E}
    (codec : codecs) (resource_filename : string → string)
    (makedirs : filesystem → string → option exn * filesystem)
    (w : world E) : world E * result string :=
  match create_directory resource_filename makedirs "." BASE_OUTPUT_PATH
          (files w) with
  | (Raise err, fs) => (mk_world (outside w) fs (logged w), Raise err)
  | (Ok directory, fs) =>
      let genome_table := os_path_join directory "complete-genomes-table.tsv" in
      let (refresh, e1) := table_needs_refresh fs genome_table (outside w) in
      if refresh then
        let (response, e2) := http_request e1 genomes_url in
        match response with
        | Raise err => (mk_world e2 fs (logged w), Raise err)
        | Ok body =>
            let content := decode_iso_8859_1 codec body in
            (* open(genome_table, mode = 'w') *)
            if isdir fs genome_table
            then (mk_world e2 fs (logged w),
                  Raise (IOError ("Is a directory: " +:+ genome_table)))
            else
              let written := File (encode_utf_8 codec content) (time_time e2).1 in
              (mk_world e2 (<[genome_table := written]> fs) (logged w), Ok content)
        end
      else
        (* open(genome_table) *)
        match fs !! genome_table with
        | Some (File data _) => (mk_world e1 fs (logged w), decode_utf_8 codec data)
        | Some (Dir _ _) => (mk_world e1 fs (logged w),
                             Raise (IOError ("Is a directory: " +:+ genome_table)))
        | None => (mk_world e1 fs (logged w),
                   Raise (IOError ("No such file or directory: " +:+ genome_table)))
        end
  end.

(** Codecs for texts that are plain ASCII, on which all three change
    nothing, and a server that is gone after a hundred interactions. *)
Definition ascii_codecs : codecs :=
  {| decode_iso_8859_1 := id; encode_utf_8 := id; decode_utf_8 := Ok |}.

Global Instance demo_web : Web nat := {|
  http_request n url :=
    (if (n <? 100)%nat then Ok sample_table
     else Raise (socket_error "Connection refused"), S n)
|}.

(** ** Finding and fetching a genome: [download_genome_files] *)

(** The control connection: [FTP(host)], [ftp.login()], [ftp.close()]. *)
Class Session (E : Type) : Type := {
  ftp_connect : E → string → option exn * E;
  ftp_login : E → option exn * E;
  ftp_close : E → E
}.

(** [genome[key]] *)
Definition genome_item (g : genome) (key : string) : result value :=
  match g !! key with
  | Some v => Ok v
  | None => Raise (KeyError key)
  end.

(** A cell inside a formatted text: a string as it is, a list as what
    [repr] makes of it. *)
Definition format_value (repr : list string → string) (v : value) : string :=
  match v with
  | VStr s => s
  | VList l => repr l
  end.

(** [for acc in accessioncodes]: the items of a list, the characters of a
    string. *)
Definition iterate (v : value) : list string :=
  match v with
  | VList l => l
  | VStr s => (λ c, String c "") <$> list_ascii_of_string s
  end.

Definition not_found_under_msg (base_dir projectid : string) : string :=
  "Genome directory not found under " +:+ ftp_host +:+ base_dir
    +:+ " for " +:+ projectid.

Definition failed_to_find_msg (refseq_id organism : string) : string :=
  "Failed to find folder for genome " +:+ refseq_id +:+ ": " +:+ organism.

(** What lines 195-213 settle on. *)
Record project : Type := mk_project {
  projectid : string;
  project_dir : string;
  accessioncodes : value;
  target_dir : string
}.

Definition log_at {E} (lvl : level) (msg : string) (w : world E) : world E :=
  mk_world (outside w) (files w) (logged w ++ [(lvl, msg)])%list.

Section Download.

Context {E : Type} `{Outside E} `{Listing E} `{Session E}.
Variable repr : list string → string.
Variable resource_filename : string → string.
Variable makedirs : filesystem → string → option exn * filesystem.

(** Lines 197-200 for RefSeq and lines 208-211 for GenBank: the listing,
    and when it has the project, the accession codes and the target
    directory.  ['refseq/' + projectid] raises on a list. *)
Definition look_under (base_dir subdir accessions_key : string) (g : genome)
    (id : value) (w : world E) : world E * result (option project) :=
  let (found, e1) := _find_project_dir base_dir (format_value repr id) (outside w) in
  let w1 := mk_world e1 (files w) (logged w) in
  match found with
  | Raise err => (w1, Raise err)
  | Ok None => (w1, Ok None)
  | Ok (Some dir) =>
      if String.eqb dir "" then (w1, Ok None)
      else
        match genome_item g accessions_key with
        | Raise err => (w1, Raise err)
        | Ok codes =>
            match id with
            | VList _ =>
                (w1, Raise (TypeError "cannot concatenate 'str' and 'list' objects"))
            | VStr s =>
                match create_directory resource_filename makedirs (subdir +:+ s)
                        BASE_OUTPUT_PATH (files w) with
                | (Raise err, fs) => (mk_world e1 fs (logged w), Raise err)
                | (Ok dirname, fs) =>
                    (mk_world e1 fs (logged w),
                     Ok (Some (mk_project s dir codes dirname)))
                end
            end
        end
  end.

(** Lines 195-216: RefSeq first, GenBank second, and the assertion.  The
    message of the assertion is built only when it fails. *)
Definition locate_project (g : genome) (w : world E) : world E * result project :=
  match genome_item g "RefSeq project ID" with
  | Raise err => (w, Raise err)
  | Ok refseq_id =>
      match look_under "/genomes/Bacteria" "refseq/" "List of RefSeq accessions"
              g refseq_id w with
      | (w1, Raise err) => (w1, Raise err)
      | (w1, Ok (Some p)) => (w1, Ok p)
      | (w1, Ok None) =>
          let w2 :=
            if truthy refseq_id
            then log_at WARNING (not_found_under_msg "/genomes/Bacteria"
                                   (format_value repr refseq_id)) w1
            else w1 in
          match genome_item g "Project ID" with
          | Raise err => (w2, Raise err)
          | Ok genbank_id =>
              match look_under "/genbank/genomes/Bacteria" "genbank/"
                      "List of GenBank accessions" g genbank_id w2 with
              | (w3, Raise err) => (w3, Raise err)
              | (w3, Ok (Some p)) => (w3, Ok p)
              | (w3, Ok None) =>
                  (log_at ERROR (not_found_under_msg "/genbank/genomes/Bacteria"
                                   (format_value repr genbank_id)) w3,
                   organism ← genome_item g "Organism Name";
                   Raise (AssertionError
                            (failed_to_find_msg (format_value repr refseq_id)
                               (format_value repr organism))))
              end
          end
      end
  end.

(** Lines 220-223: the provenance line, appended when [download_log] is
    given and not empty.  [open(..., mode = 'a')] makes the file when it is
    not there, also when formatting the line then raises. *)
Definition write_provenance (download_log : option string) (g : genome)
    (p : project) (w : world E) : world E * result unit :=
  match download_log with
  | None => (w, Ok ())
  | Some path =>
      if String.eqb path "" then (w, Ok ())
      else
        match files w !! path with
        | Some (Dir _ _) => (w, Raise (IOError ("Is a directory: " +:+ path)))
        | existing =>
            let old := match existing with
                       | Some (File data _) => data
                       | _ => ""
                       end in
            let now := (time_time (outside w)).1 in
            match genome_item g "Organism Name" with
            | Raise err =>
                (match existing with
                 | None => mk_world (outside w) (<[path := File "" now]> (files w))
                             (logged w)
                 | _ => w
                 end, Raise err)
            | Ok organism =>
                let line :=
                  projectid p +:+ String Py.tab (format_value repr organism)
                    +:+ String Py.tab (ftp_host +:+ project_dir p)
                    +:+ String Py.newline "" in
                (mk_world (outside w) (<[path := File (old +:+ line) now]> (files w))
                   (logged w), Ok ())
            end
        end
  end.

(** [download_genome_files] *)
Definition download_genome_files (g : genome) (download_log : option string)
    (w : world E) : world E * result (list genome_file) :=
  let (refused, e1) := ftp_connect (outside w) ftp_host in
  match refused with
  | Some err => (mk_world e1 (files w) (logged w), Raise err)
  | None =>
      let (denied, e2) := ftp_login e1 in
      match denied with
      | Some err => (mk_world e2 (files w) (logged w), Raise err)
      | None =>
          match locate_project g (mk_world e2 (files w) (logged w)) with
          | (w1, Raise err) => (w1, Raise err)
          | (w1, Ok p) =>
              match write_provenance download_log g p w1 with
              | (w2, Raise err) => (w2, Raise err)
              | (w2, Ok _) =>
                  match download_accessions (project_dir p) (target_dir p)
                          (projectid p) (iterate (accessioncodes p)) [] w2 with
                  | (w3, Raise err) => (w3, Raise err)
                  | (w3, Ok genome_files) =>
                      (mk_world (ftp_close (outside w3)) (files w3) (logged w3),
                       Ok genome_files)
                  end
              end
          end
      end
  end.

End Download.

(** An FTP server for the examples: it accepts every connection, and has
    the listing of [demo_listing] under RefSeq and one project under
    GenBank. *)
Global Instance demo_session : Session nat := {|
  ftp_connect n host := (None, S n);
  ftp_login n := (None, S n);
  ftp_close n := S n
|}.

Global Instance demo_listing_nat : Listing nat := {|
  nlst n path :=
    (Ok (if String.eqb path "/genomes/Bacteria" then demo_listing
         else ["/genbank/genomes/Bacteria/Sulfolobus_islandicus_M_14_25_uid18871"]),
     S n)
|}.

(** [repr] of a list of ASCII texts without quotes or backslashes. *)
Definition demo_repr (l : list string) : string :=
  "[" +:+ String.concat ", " ((λ s, "u'" +:+ s +:+ "'") <$> l) +:+ "]".

Definition demo_genome (refseq_id genbank_id : string) : genome :=
  {[ "RefSeq project ID" := VStr refseq_id;
     "Project ID" := VStr genbank_id;
     "Organism Name" := VStr "Escherichia coli";
     "List of RefSeq accessions" := VList ["NC_1"];
     "List of GenBank accessions" := VList ["CP001400"] ]}.

(** * Verification *)

(** Closed facts about the example catalogs and worlds are settled by
    running the definitions.  A decidable proposition is run through
    [bool_decide], so that no large finite map shows up in a proof term. *)
Ltac by_evaluation := vm_compute; reflexivity.

Ltac decide_by_evaluation :=
  match goal with
  | |- ?P => apply (bool_decide_unpack P); vm_compute; exact I
  end.

(** ** The definitions on the example data *)

Example sample_table_accessions :
  map (.!! "Accs") <$> returned (_parse_genomes_table sample_table false)
  = Some [Some (VList ["NC_1"; "NC_2"]); Some (VList []); Some (VList [])].
Proof. by_evaluation. Qed.

Example sample_table_with_refseq_only :
  map (.!! "Project ID") <$> returned (_parse_genomes_table sample_table true)
  = Some [Some (VStr "225"); Some (VStr "301")].
Proof. by_evaluation. Qed.

Example id_table_resolution :
  (λ r, (r.1 !! "300" ≫= (.!! "Organism Name"), r.1 !! "9", r.2))
    <$> returned (select_genomes_by_ids id_table ["300"; "9"])
  = Some (Some (VStr "Bacillus one"), None, [(WARNING, not_found_msg "9")]).
Proof. by_evaluation. Qed.

Example fetch_into_cache :
  let after := _download_genome_file "/genomes/Bacteria/x" "NC_1.gbk" "cache"
                 demo_world in
  after.2 = Ok "cache/NC_1.gbk"
  ∧ files after.1 !! "cache/NC_1.gbk" = Some (File "LOCUS  NC_1" 2000000003)
  ∧ files after.1 !! "/tmp/NC_1.gbk_1" = None.
Proof. repeat split; by_evaluation. Qed.

(** ** Basic facts about results *)

Lemma bind_Ok {A B} (a : A) (k : A → result B) : (Ok a ≫= k) = k a.
Proof. reflexivity. Qed.

Lemma bind_Raise {A B} (e : exn) (k : A → result B) : (Raise e ≫= k) = Raise e.
Proof. reflexivity. Qed.

Lemma bind_Ok_inv {A B} (r : result A) (k : A → result B) (b : B) :
  (r ≫= k) = Ok b → ∃ a, r = Ok a ∧ k a = Ok b.
Proof. destruct r as [a|e]; [eauto | discriminate]. Qed.

Lemma is_ok_value_of {A} (d : A) (r : result A) :
  is_ok r = true → r = Ok (value_of d r).
Proof. by destruct r. Qed.

Lemma is_Some_default {A} (d : A) (o : option A) :
  bool_decide (is_Some o) = true → o = Some (default d o).
Proof. intros [a ->]%bool_decide_eq_true. done. Qed.

Lemma returned_Some {A} (r : result A) (a : A) : returned r = Some a ↔ r = Ok a.
Proof. destruct r; simpl; split; congruence. Qed.

Lemma returned_None {A} (r : result A) : returned r = None ↔ ∃ e, r = Raise e.
Proof.
  destruct r; simpl; split; try congruence; eauto.
  intros [? ?]; discriminate.
Qed.

(** ** Facts about the string primitives *)

Lemma append_cons (c : ascii) (s t : string) : String c s +:+ t = String c (s +:+ t).
Proof. reflexivity. Qed.

Lemma append_empty_l (t : string) : "" +:+ t = t.
Proof. reflexivity. Qed.

Lemma length_append (s t : string) :
  String.length (s +:+ t) = String.length s + String.length t.
Proof. induction s as [|c s IH]; [done|]. rewrite append_cons. simpl. by rewrite IH. Qed.

Lemma split_nonempty (sep : ascii) (s : string) : Py.split sep s ≠ [].
Proof.
  induction s as [|c s IH]; simpl; [done|].
  destruct (Ascii.eqb c sep); [done|]. by destruct (Py.split sep s).
Qed.

Lemma split_no_sep (sep : ascii) (s : string) :
  Py.has_char sep s = false → Py.split sep s = [s].
Proof.
  induction s as [|c s IH]; simpl; [done|].
  intros [Hc Hs]%orb_false_iff. rewrite Hc, (IH Hs). done.
Qed.

Lemma split_app_sep (sep : ascii) (x rest : string) :
  Py.has_char sep x = false →
  Py.split sep (x +:+ String sep rest) = x :: Py.split sep rest.
Proof.
  induction x as [|c x IH]; intros Hx.
  - rewrite append_empty_l. simpl. by rewrite Ascii.eqb_refl.
  - simpl in Hx. apply orb_false_iff in Hx as [Hc Hx].
    rewrite append_cons. simpl. rewrite Hc, (IH Hx). done.
Qed.

(** Splitting undoes joining, as long as no item holds the separator. *)
Lemma split_join (sep : ascii) (items : list string) :
  items ≠ [] →
  Forall (λ it, Py.has_char sep it = false) items →
  Py.split sep (Py.join sep items) = items.
Proof.
  induction items as [|x rest IH]; [done|]. intros _ Hall.
  apply Forall_cons in Hall as [Hx Hrest].
  destruct rest as [|y rest]; [by apply split_no_sep|].
  change (Py.join sep (x :: y :: rest))
    with (x +:+ String sep (Py.join sep (y :: rest))).
  rewrite split_app_sep by done. f_equal. by apply IH.
Qed.

Lemma length_join_ge (sep : ascii) (items : list string) :
  (length items - 1 ≤ String.length (Py.join sep items))%nat.
Proof.
  induction items as [|x rest IH]; [simpl; lia|].
  destruct rest as [|y rest]; [simpl; lia|].
  change (Py.join sep (x :: y :: rest))
    with (x +:+ String sep (Py.join sep (y :: rest))).
  rewrite length_append. simpl in *. lia.
Qed.

Lemma substring_0_length (s : string) : String.substring 0 (String.length s) s = s.
Proof. induction s as [|c s IH]; simpl; [done|]. by rewrite IH. Qed.

Lemma substring_0_append (a b : string) :
  String.substring 0 (String.length a) (a +:+ b) = a.
Proof.
  induction a as [|c a IH]; [by destruct b|].
  rewrite append_cons. simpl. by rewrite IH.
Qed.

Lemma substring_skip_append (a b : string) (m : nat) :
  String.substring (String.length a) m (a +:+ b) = String.substring 0 m b.
Proof. induction a as [|c a IH]; [done|]. rewrite append_cons. simpl. apply IH. Qed.

Lemma substring_split (n : nat) (s : string) :
  (n ≤ String.length s)%nat →
  s = String.substring 0 n s +:+ String.substring n (String.length s - n) s.
Proof.
  revert s. induction n as [|n IH]; intros s Hn.
  - rewrite Nat.sub_0_r, substring_0_length. by destruct s.
  - destruct s as [|c s]; simpl in Hn; [lia|].
    simpl. rewrite append_cons. f_equal. apply IH. lia.
Qed.

(** [endswith] is what it says: the string is some prefix followed by [p]. *)
Lemma endswith_spec (s p : string) :
  Py.endswith s p = true ↔ ∃ pre, s = pre +:+ p.
Proof.
  unfold Py.endswith. rewrite andb_true_iff, Nat.leb_le, String.eqb_eq. split.
  - intros [Hle Hsub].
    exists (String.substring 0 (String.length s - String.length p) s).
    pose proof (substring_split (String.length s - String.length p) s) as E.
    replace (String.length s - (String.length s - String.length p))%nat
      with (String.length p) in E by lia.
    rewrite Hsub in E. apply E. lia.
  - intros [pre ->]. rewrite length_append. split; [lia|].
    replace (String.length pre + String.length p - String.length p)%nat
      with (String.length pre) by lia.
    rewrite substring_skip_append. apply substring_0_length.
Qed.

Lemma drop_last_append (a b : string) : Py.drop_last (String.length b) (a +:+ b) = a.
Proof.
  unfold Py.drop_last. rewrite length_append.
  replace (String.length a + String.length b - String.length b)%nat
    with (String.length a) by lia.
  apply substring_0_append.
Qed.

Lemma append_as_list (a b : string) :
  list_ascii_of_string (a +:+ b)
  = (list_ascii_of_string a ++ list_ascii_of_string b)%list.
Proof. induction a as [|c a IH]; [done|]. rewrite append_cons. simpl. by rewrite IH. Qed.

(** A header cannot carry both suffixes, so the order in which the loop
    visits the suffix table (a Python 2 dictionary) does not matter. *)
Lemma suffixes_exclusive (column : string) :
  Py.endswith column " (comma separated)" = true →
  Py.endswith column " (pipe separated)" = false.
Proof.
  intros [p1 H1]%endswith_spec.
  destruct (Py.endswith column " (pipe separated)") eqn:H2; [|done].
  apply endswith_spec in H2 as [p2 H2]. exfalso.
  rewrite H1 in H2. apply (f_equal list_ascii_of_string) in H2.
  rewrite !append_as_list in H2.
  change (list_ascii_of_string " (comma separated)")
    with ([" "%char] ++ list_ascii_of_string "(comma separated)")%list in H2.
  rewrite (assoc_L (++)%list) in H2.
  apply app_inj_2 in H2 as [_ H2]; [|done].
  discriminate H2.
Qed.

Lemma register_column_order (column : string) (sp : gmap string ascii) :
  register_column (reverse suffixes) column sp = register_column suffixes column sp.
Proof.
  unfold register_column, suffixes, strip_suffix. simpl.
  destruct (Py.endswith column " (comma separated)") eqn:Hc.
  - by rewrite (suffixes_exclusive _ Hc).
  - done.
Qed.

Lemma register_column_comma (name : string) (sp : gmap string ascii) :
  register_column suffixes (name +:+ " (comma separated)") sp
  = (name, <[name := ","%char]> sp).
Proof.
  assert (Hc : Py.endswith (name +:+ " (comma separated)") " (comma separated)" = true)
    by (apply endswith_spec; eauto).
  unfold register_column, suffixes, strip_suffix. cbn [foldl fst snd].
  rewrite Hc, (suffixes_exclusive _ Hc).
  by rewrite (drop_last_append name " (comma separated)").
Qed.

Lemma register_column_pipe (name : string) (sp : gmap string ascii) :
  register_column suffixes (name +:+ " (pipe separated)") sp
  = (name, <[name := "|"%char]> sp).
Proof.
  assert (Hp : Py.endswith (name +:+ " (pipe separated)") " (pipe separated)" = true)
    by (apply endswith_spec; eauto).
  unfold register_column, suffixes, strip_suffix. cbn [foldl fst snd].
  destruct (Py.endswith (name +:+ " (pipe separated)") " (comma separated)") eqn:Hc.
  - apply suffixes_exclusive in Hc. congruence.
  - rewrite Hp. by rewrite (drop_last_append name " (pipe separated)").
Qed.

Lemma lookup_make_genome cols sp values (col : string) :
  make_genome cols sp values !! col
  = split_cell sp col <$> Py.dict (zip cols values) !! col.
Proof.
  unfold make_genome. rewrite map_lookup_imap.
  by destruct (Py.dict (zip cols values) !! col).
Qed.

(** ** Multi-valued columns *)

(** C6. Under a header registered as multi-valued with separator [sep], a
    cell of at most one character becomes the empty list, and a longer cell
    made of N >= 2 items joined by [sep] becomes exactly those items, in
    order.  (The only join of two or more items that is not longer than one
    character is the lone separator, which falls under the first case.) *)
Theorem multi_valued_cell
    (cols : list string) (sp : gmap string ascii) (values : list string)
    (col : string) (sep : ascii) (v : string) :
  Py.dict (zip cols values) !! col = Some v →
  sp !! col = Some sep →
  ((String.length v ≤ 1)%nat →
     make_genome cols sp values !! col = Some (VList []))
  ∧ (∀ items : list string,
       (2 ≤ length items)%nat →
       Forall (λ it, Py.has_char sep it = false) items →
       v = Py.join sep items →
       (2 ≤ String.length v)%nat →
       make_genome cols sp values !! col = Some (VList items)).
Proof.
  intros Hv Hsep. rewrite lookup_make_genome, Hv. simpl.
  unfold split_cell. rewrite Hsep. split.
  - intros Hlen. by apply Nat.leb_le in Hlen as ->.
  - intros items Hn Hitems -> Hlen.
    apply Nat.leb_gt in Hlen as ->.
    rewrite split_join; [done| |done]. intros ->. simpl in Hn. lia.
Qed.

Lemma multi_valued_cell_witness :
  make_genome ["Project ID"; "Accs"] {["Accs" := ","%char]} ["225"; "NC_1,NC_2"]
    !! "Accs" = Some (VList ["NC_1"; "NC_2"])
  ∧ make_genome ["Project ID"; "Accs"] {["Accs" := ","%char]} ["225"; "X"]
    !! "Accs" = Some (VList []).
Proof.
  split.
  - destruct (multi_valued_cell ["Project ID"; "Accs"] {["Accs" := ","%char]}
                ["225"; "NC_1,NC_2"] "Accs" ","%char "NC_1,NC_2") as [_ H];
      [by_evaluation | by_evaluation |].
    apply (H ["NC_1"; "NC_2"]).
    + simpl; lia.
    + repeat constructor.
    + reflexivity.
    + simpl; lia.
  - destruct (multi_valued_cell ["Project ID"; "Accs"] {["Accs" := ","%char]}
                ["225"; "X"] "Accs" ","%char "X") as [H _];
      [by_evaluation | by_evaluation |].
    apply H. simpl; lia.
Defined.

(** ** The column-count assertion *)

Lemma parse_lines_app rr st (a b : list string) :
  parse_lines rr st (a ++ b) = st' ← parse_lines rr st a; parse_lines rr st' b.
Proof.
  revert st. induction a as [|l a IH]; intros st; simpl; [done|].
  destruct (parse_line rr st l) as [st'|e]; simpl; [apply IH | done].
Qed.

Lemma parse_line_mismatch rr st (line : string) :
  is_data_line line = true →
  length (Py.split Py.tab line) ≠ length (columns st) →
  parse_line rr st line
  = Raise (AssertionError (count_msg (length (columns st))
                                     (length (Py.split Py.tab line)) line)).
Proof.
  unfold is_data_line, parse_line.
  intros [Hlen Hcom]%andb_true_iff Hne.
  apply negb_true_iff in Hlen, Hcom. rewrite Hlen.
  destruct (Py.split Py.tab line) as [|v0 fields] eqn:Hsplit.
  { by apply split_nonempty in Hsplit. }
  simpl in Hcom. rewrite Hcom.
  assert ((length (columns st) =? length (v0 :: fields))%nat = false) as ->; [|done].
  apply Nat.eqb_neq. congruence.
Qed.

(** C5. A data line is accepted only with as many tab-separated fields as
    there are declared columns: when the lines before it have been read
    (leaving the declared columns in [st]) and the counts differ, reading
    the line raises the assertion whose message carries the expected count,
    the actual count and the line, so that the whole parse raises it and
    returns no record at all; conversely a parse that returns found the
    counts equal. *)
Theorem column_count_enforced
    (require_refseq : bool) (text : string)
    (before : list string) (line : string) (after : list string) (st : pstate) :
  Py.split Py.newline text = (before ++ line :: after)%list →
  parse_lines require_refseq initial_pstate before = Ok st →
  is_data_line line = true →
  (length (Py.split Py.tab line) ≠ length (columns st) →
     parse_line require_refseq st line
       = Raise (AssertionError (count_msg (length (columns st))
                                  (length (Py.split Py.tab line)) line))
     ∧ _parse_genomes_table text require_refseq
       = Raise (AssertionError (count_msg (length (columns st))
                                  (length (Py.split Py.tab line)) line)))
  ∧ (∀ gs, _parse_genomes_table text require_refseq = Ok gs →
       length (Py.split Py.tab line) = length (columns st)).
Proof.
  intros Htext Hbefore Hdata.
  assert (Hfail : length (Py.split Py.tab line) ≠ length (columns st) →
     _parse_genomes_table text require_refseq
       = Raise (AssertionError (count_msg (length (columns st))
                                  (length (Py.split Py.tab line)) line))).
  { intros Hne. unfold _parse_genomes_table.
    rewrite Htext, parse_lines_app, Hbefore. simpl.
    by rewrite (parse_line_mismatch _ _ _ Hdata Hne). }
  split.
  - intros Hne. split; [by apply parse_line_mismatch | by apply Hfail].
  - intros gs Hok.
    destruct (decide (length (Py.split Py.tab line) = length (columns st)))
      as [|Hne]; [done|].
    rewrite (Hfail Hne) in Hok. discriminate.
Qed.

Lemma column_count_enforced_witness :
  _parse_genomes_table short_row_table false
  = Raise (AssertionError (count_msg 2 1 "58531")).
Proof.
  destruct (column_count_enforced false short_row_table
              [ Py.join Py.tab
                  ["## Columns:"; quoted "RefSeq project ID"; quoted "Project ID"] ]
              "58531"
              [ Py.join Py.tab ["58533"; "303"] ]
              {| columns := ["RefSeq project ID"; "Project ID"];
                 splitable_columns := ∅;
                 genomes := [] |})
    as [H _]; [by_evaluation | by_evaluation | reflexivity |].
  apply H. simpl. lia.
Defined.

(** ** Filtering inside the pass against filtering afterwards *)

Lemma filter_refseq_app (a b : list genome) :
  filter_refseq (a ++ b)
  = ra ← filter_refseq a; rb ← filter_refseq b; Ok (ra ++ rb)%list.
Proof.
  induction a as [|g a IH]; simpl.
  - by destruct (filter_refseq b).
  - destruct (g !! "RefSeq project ID") as [v|]; [|done].
    rewrite IH. destruct (filter_refseq a) as [ra|]; simpl; [|done].
    destruct (filter_refseq b) as [rb|]; simpl; [|done].
    by destruct (truthy v).
Qed.

Lemma filter_refseq_idem (gs kept : list genome) :
  filter_refseq gs = Ok kept → filter_refseq kept = Ok kept.
Proof.
  revert kept. induction gs as [|g gs IH]; simpl; intros kept Hk.
  - by inversion Hk.
  - destruct (g !! "RefSeq project ID") as [v|] eqn:Hg; [|done].
    destruct (filter_refseq gs) as [r|]; simpl in Hk; [|done].
    inversion Hk; subst; clear Hk.
    destruct (truthy v) eqn:Hv; [|by apply IH].
    simpl. by rewrite Hg, (IH r eq_refl), Hv.
Qed.

(** Without the flag the list of records only ever grows at its end. *)
Lemma parse_lines_grows (lines : list string) (st st' : pstate) :
  parse_lines false st lines = Ok st' →
  ∃ more, genomes st' = (genomes st ++ more)%list.
Proof.
  revert st. induction lines as [|l lines IH]; simpl; intros st H.
  - inversion H; subst. exists []. by rewrite app_nil_r.
  - apply bind_Ok_inv in H as (st1 & Hl & Hrest).
    apply IH in Hrest as [more Hmore].
    assert (∃ more1, genomes st1 = (genomes st ++ more1)%list) as [more1 H1].
    { unfold parse_line in Hl.
      destruct (String.length l =? 0)%nat.
      { inversion Hl; subst. exists []. by rewrite app_nil_r. }
      destruct (Py.split Py.tab l) as [|v0 fields]; [done|].
      destruct (is_comment v0).
      - destruct (String.eqb v0 "## Columns:").
        + destruct (register_columns _ _). inversion Hl; subst. simpl.
          exists []. by rewrite app_nil_r.
        + inversion Hl; subst. exists []. by rewrite app_nil_r.
      - destruct (negb _); [done|]. simpl in Hl. inversion Hl; subst. simpl. eauto. }
    exists (more1 ++ more)%list. by rewrite Hmore, H1, (assoc_L (++)%list).
Qed.

(** Once a record without the key is in the list, the final filter raises,
    whatever is read afterwards. *)
Lemma filter_raise_persists (lines : list string) (st : pstate) (e : exn) :
  filter_refseq (genomes st) = Raise e →
  returned (st' ← parse_lines false st lines; filter_refseq (genomes st')) = None.
Proof.
  intros He. destruct (parse_lines false st lines) as [st'|] eqn:Hp; [|done].
  rewrite bind_Ok. apply parse_lines_grows in Hp as [more ->].
  by rewrite filter_refseq_app, He.
Qed.

Lemma progressive_filter_simulation (lines : list string) (st_t st_f : pstate) :
  columns st_t = columns st_f →
  splitable_columns st_t = splitable_columns st_f →
  filter_refseq (genomes st_f) = Ok (genomes st_t) →
  returned (st ← parse_lines true st_t lines; Ok (genomes st))
  = returned (st ← parse_lines false st_f lines; filter_refseq (genomes st)).
Proof.
  revert st_t st_f. induction lines as [|l lines IH]; intros st_t st_f Hc Hs Hf.
  { simpl. by rewrite Hf. }
  destruct st_t as [cols sp gt], st_f as [cols' sp' gf]. simpl in Hc, Hs, Hf. subst.
  cbn [parse_lines]. unfold parse_line. cbn [columns splitable_columns genomes].
  destruct (String.length l =? 0)%nat.
  { rewrite !bind_Ok. by apply IH. }
  destruct (Py.split Py.tab l) as [|v0 fields]; [done|].
  destruct (is_comment v0).
  { destruct (String.eqb v0 "## Columns:").
    - destruct (register_columns _ _) as [c s]. rewrite !bind_Ok. by apply IH.
    - rewrite !bind_Ok. by apply IH. }
  destruct (negb _); [done|].
  set (g := make_genome cols' sp' (v0 :: fields)).
  rewrite filter_refseq_app, (filter_refseq_idem _ _ Hf). rewrite !bind_Ok.
  destruct (filter_refseq [g]) as [rb|e] eqn:Hg.
  - rewrite !bind_Ok. apply IH; [done..|]. simpl.
    by rewrite filter_refseq_app, Hf, Hg.
  - rewrite !bind_Raise. simpl. symmetry.
    apply (filter_raise_persists _ _ e). simpl.
    by rewrite filter_refseq_app, Hf, Hg.
Qed.

(** The filter of line 98 against the filter of the specification: it
    raises [KeyError] on a record without the column, and otherwise keeps
    the records whose RefSeq project ID is not empty. *)
Lemma filter_refseq_spec (gs : list genome) :
  filter_refseq gs
  = if forallb (λ g, bool_decide (is_Some (g !! "RefSeq project ID"))) gs
    then Ok (List.filter has_refseq_id gs)
    else Raise (KeyError "RefSeq project ID").
Proof.
  induction gs as [|g gs IH]; [done|].
  cbn [filter_refseq forallb List.filter]. unfold has_refseq_id at 1.
  destruct (g !! "RefSeq project ID") as [v|]; [|done].
  rewrite IH, (bool_decide_eq_true_2 (is_Some (Some v))) by eauto. cbn [andb].
  by destruct (forallb _ gs).
Qed.

Lemma filter_refseq_singleton (g : genome) (e : exn) :
  filter_refseq [g] = Raise e → e = KeyError "RefSeq project ID".
Proof.
  rewrite filter_refseq_spec. by destruct (forallb _ [g]); intros [= <-].
Qed.

(** With the flag, the parse stops at the first row whose record lacks the
    column, which is a row that makes the filter raise at the end of the
    parse without the flag. *)
Lemma progressive_filter_raises (lines : list string) (st_t st_f st' : pstate)
    (e : exn) :
  columns st_t = columns st_f →
  splitable_columns st_t = splitable_columns st_f →
  filter_refseq (genomes st_f) = Ok (genomes st_t) →
  parse_lines false st_f lines = Ok st' →
  filter_refseq (genomes st') = Raise e →
  parse_lines true st_t lines = Raise (KeyError "RefSeq project ID").
Proof.
  revert st_t st_f. induction lines as [|l lines IH];
    intros st_t st_f Hc Hs Hf Hparse Hraise.
  { simpl in Hparse. inversion Hparse; subst. congruence. }
  destruct st_t as [cols sp gt], st_f as [cols' sp' gf]. simpl in Hc, Hs, Hf. subst.
  revert Hparse. cbn [parse_lines]. unfold parse_line.
  cbn [columns splitable_columns genomes].
  destruct (String.length l =? 0)%nat.
  { rewrite !bind_Ok. intros Hparse.
    exact (IH (mk_pstate cols' sp' gt) (mk_pstate cols' sp' gf) eq_refl eq_refl
             Hf Hparse Hraise). }
  destruct (Py.split Py.tab l) as [|v0 fields]; [done|].
  destruct (is_comment v0).
  { destruct (String.eqb v0 "## Columns:").
    - destruct (register_columns _ _) as [c s]. rewrite !bind_Ok.
      intros Hparse.
      exact (IH (mk_pstate c s gt) (mk_pstate c s gf) eq_refl eq_refl
               Hf Hparse Hraise).
    - rewrite !bind_Ok. intros Hparse.
      exact (IH (mk_pstate cols' sp' gt) (mk_pstate cols' sp' gf) eq_refl eq_refl
             Hf Hparse Hraise). }
  destruct (negb _); [done|].
  set (g := make_genome cols' sp' (v0 :: fields)).
  rewrite filter_refseq_app, (filter_refseq_idem _ _ Hf). rewrite !bind_Ok.
  destruct (filter_refseq [g]) as [rb|e'] eqn:Hg.
  - rewrite !bind_Ok. intros Hparse.
    refine (IH (mk_pstate cols' sp' (gt ++ rb)%list)
              (mk_pstate cols' sp' (gf ++ [g])%list) eq_refl eq_refl _
              Hparse Hraise).
    simpl. by rewrite filter_refseq_app, Hf, Hg.
  - intros _. apply filter_refseq_singleton in Hg as ->. by rewrite !bind_Raise.
Qed.

(** C7. Parsing with the require-RefSeq flag, which filters after every
    row inside the one pass, against the reference "parse all rows, then
    filter by non-empty RefSeq ID".  Whenever the parse with the flag
    returns, it returns exactly the records of the reference, in the same
    order.  It returns if and only if the parse without the flag returns
    and every record has a RefSeq project ID cell, and it raises when the
    parse without the flag raises.  When the parse without the flag returns
    a record that has no such cell, the parse with the flag raises
    [KeyError] where the reference returns. *)
Theorem progressive_filter_is_final_filter (text : string) :
  (∀ gs, _parse_genomes_table text true = Ok gs → parse_then_filter text = Ok gs)
  ∧ (∀ all, _parse_genomes_table text false = Ok all →
       if forallb (λ g, bool_decide (is_Some (g !! "RefSeq project ID"))) all
       then _parse_genomes_table text true = Ok (List.filter has_refseq_id all)
       else _parse_genomes_table text true = Raise (KeyError "RefSeq project ID"))
  ∧ (returned (_parse_genomes_table text false) = None →
     returned (_parse_genomes_table text true) = None).
Proof.
  pose proof (progressive_filter_simulation (Py.split Py.newline text)
                initial_pstate initial_pstate eq_refl eq_refl eq_refl) as Hsim.
  assert (Hall : ∀ all, _parse_genomes_table text false = Ok all →
            if forallb (λ g, bool_decide (is_Some (g !! "RefSeq project ID"))) all
            then _parse_genomes_table text true = Ok (List.filter has_refseq_id all)
            else _parse_genomes_table text true
                 = Raise (KeyError "RefSeq project ID")).
  { intros all. unfold _parse_genomes_table.
    intros (st' & Hparse & [= <-])%bind_Ok_inv.
    rewrite Hparse, bind_Ok in Hsim.
    pose proof (filter_refseq_spec (genomes st')) as Hspec.
    destruct (forallb _ (genomes st')).
    - rewrite Hspec in Hsim. cbn [returned] in Hsim.
      apply returned_Some in Hsim.
      destruct (parse_lines true initial_pstate (Py.split Py.newline text));
        [by rewrite bind_Ok in * | by rewrite bind_Raise in *].
    - by rewrite (progressive_filter_raises _ initial_pstate initial_pstate st'
                    (KeyError "RefSeq project ID")). }
  split; [|split; [exact Hall|]].
  - intros gs Hgs. unfold parse_then_filter.
    destruct (_parse_genomes_table text false) as [all|e] eqn:Hfalse.
    + specialize (Hall all eq_refl). rewrite bind_Ok.
      destruct (forallb _ all); congruence.
    + exfalso. revert Hgs Hfalse. unfold _parse_genomes_table.
      intros (st & Hparse & [= <-])%bind_Ok_inv. rewrite Hparse, bind_Ok in Hsim.
      destruct (parse_lines false initial_pstate (Py.split Py.newline text));
        [by rewrite bind_Ok | by rewrite bind_Raise in Hsim].
  - unfold _parse_genomes_table. intros Hnone.
    destruct (parse_lines false initial_pstate (Py.split Py.newline text))
      as [st|e]; [by rewrite bind_Ok in Hnone|].
    rewrite bind_Raise in Hsim. cbn [returned] in Hsim.
    by destruct (parse_lines true initial_pstate (Py.split Py.newline text)).
Qed.

Lemma progressive_filter_is_final_filter_witness :
  parse_then_filter sample_table
  = Ok (value_of [] (_parse_genomes_table sample_table true)).
Proof.
  apply (proj1 (progressive_filter_is_final_filter sample_table)).
  apply is_ok_value_of. by_evaluation.
Defined.

(** C7 as stated fails: on a catalog without the RefSeq column the parse
    with the flag raises at the first row, where parsing all rows and then
    filtering by non-empty RefSeq ID returns the empty sequence. *)
Lemma progressive_filter_needs_the_column :
  _parse_genomes_table genbank_only_table true
    = Raise (KeyError "RefSeq project ID")
  ∧ parse_then_filter genbank_only_table = Ok []
  ∧ _parse_genomes_table genbank_only_table true
    ≠ parse_then_filter genbank_only_table.
Proof.
  assert (Hflag : _parse_genomes_table genbank_only_table true
                  = Raise (KeyError "RefSeq project ID")) by by_evaluation.
  assert (Href : parse_then_filter genbank_only_table = Ok []) by by_evaluation.
  split; [done|]. split; [done|]. by rewrite Hflag, Href.
Qed.

(** ** The two indexes and the matching step *)

Lemma dict_snoc {V} (l : list (string * V)) (k : string) (v : V) :
  Py.dict (l ++ [(k, v)]) = <[k := v]> (Py.dict l).
Proof. unfold Py.dict. by rewrite foldl_app. Qed.

Lemma lookup_lookup_all (index : gmap string genome) (ids : list string) (q : string) :
  lookup_all index ids !! q = if decide (q ∈ ids) then index !! q else None.
Proof.
  unfold lookup_all. induction ids as [|x ids IH] using rev_ind.
  - unfold Py.dict. simpl. by rewrite lookup_empty.
  - rewrite omap_app. simpl. destruct (decide (x = q)) as [->|Hne].
    + assert (Hin : q ∈ (ids ++ [q])%list).
      { apply elem_of_app. right. by apply list_elem_of_singleton. }
      rewrite (decide_True _ _ Hin).
      destruct (index !! q) as [g|] eqn:Hq; simpl.
      * by rewrite dict_snoc, lookup_insert_eq.
      * rewrite app_nil_r, IH. by destruct (decide (q ∈ ids)).
    + assert (Hin : q ∈ (ids ++ [x])%list ↔ q ∈ ids)
        by (rewrite elem_of_app, list_elem_of_singleton; intuition congruence).
      rewrite (decide_ext _ _ _ _ Hin).
      destruct (index !! x) as [g|]; simpl.
      * by rewrite dict_snoc, lookup_insert_ne.
      * by rewrite app_nil_r.
Qed.

(** What the matching step associates with an identifier: the GenBank
    record if there is one, else the RefSeq record, and nothing for an
    identifier that was not requested. *)
Lemma lookup_match_ids (refseq genbank : gmap string genome)
    (ids : list string) (q : string) :
  match_ids refseq genbank ids !! q
  = if decide (q ∈ ids)
    then match genbank !! q with Some g => Some g | None => refseq !! q end
    else None.
Proof.
  unfold match_ids. rewrite lookup_union, !lookup_lookup_all.
  case_decide; [|done].
  destruct (genbank !! q), (refseq !! q); done.
Qed.

Lemma index_into_lookup (key : string) (gs : list genome)
    (acc index : gmap string genome) (k : string) :
  index_into key acc gs = Ok index →
  index !! k
  = match last (filter (λ g, g !! key = Some (VStr k)) gs) with
    | Some g => Some g
    | None => acc !! k
    end.
Proof.
  revert acc. induction gs as [|g gs IH]; simpl; intros acc H.
  - by inversion H.
  - destruct (g !! key) as [[k'|]|] eqn:Hg; [|done..].
    rewrite (IH _ H). rewrite filter_cons. case_decide as Hk.
    + rewrite Hg in Hk. inversion Hk; subst k'.
      destruct (filter _ gs) as [|g' l] eqn:Hf; simpl.
      * by rewrite lookup_insert_eq.
      * destruct (last (g' :: l)) eqn:E; [done|]. by apply last_None in E.
    + destruct (last _); [done|].
      rewrite lookup_insert_ne; [done|]. congruence.
Qed.

(** A key of an index is the cell of one of the records. *)
Lemma index_by_lookup (key : string) (gs : list genome)
    (index : gmap string genome) (k : string) :
  index_by key gs = Ok index →
  index !! k = last (filter (λ g, g !! key = Some (VStr k)) gs).
Proof.
  intros H. rewrite (index_into_lookup _ _ _ _ k H), lookup_empty.
  by destruct (last _).
Qed.

Lemma select_genomes_by_ids_disjoint (table : string)
    (refseq genbank : gmap string genome) (ids : list string) :
  refseq_genomes table = Ok refseq →
  genbank_genomes table = Ok genbank →
  dom refseq ##@{gset string} dom genbank →
  select_genomes_by_ids table ids
  = Ok (match_ids refseq genbank ids,
        unmatched_warnings (match_ids refseq genbank ids) ids).
Proof.
  intros Hr Hg Hd. unfold select_genomes_by_ids. rewrite Hr, Hg. simpl.
  by rewrite bool_decide_eq_true_2.
Qed.

Lemma select_genomes_by_ids_overlap (table : string)
    (refseq genbank : gmap string genome) (ids : list string) (id : string) :
  refseq_genomes table = Ok refseq →
  genbank_genomes table = Ok genbank →
  is_Some (refseq !! id) → is_Some (genbank !! id) →
  select_genomes_by_ids table ids = Raise (AssertionError overlap_msg).
Proof.
  intros Hr Hg Hir Hig. unfold select_genomes_by_ids. rewrite Hr, Hg. simpl.
  rewrite bool_decide_eq_false_2; [done|].
  intros Hd. apply (Hd id); by apply elem_of_dom.
Qed.

(** C4. The key sets of the two indexes are checked for disjointness: with
    both indexes built, resolution raises the overlap assertion, whatever
    the request, exactly when some ID is a key of both. *)
Theorem overlapping_ids_abort (table : string)
    (refseq genbank : gmap string genome) (ids : list string) :
  refseq_genomes table = Ok refseq →
  genbank_genomes table = Ok genbank →
  (∃ id, id ∈@{gset string} dom refseq ∧ id ∈@{gset string} dom genbank)
  ↔ select_genomes_by_ids table ids = Raise (AssertionError overlap_msg).
Proof.
  intros Hr Hg. split.
  - intros (id & Hir%elem_of_dom & Hig%elem_of_dom).
    by apply (select_genomes_by_ids_overlap _ refseq genbank _ id).
  - intros Hraise.
    destruct (decide (dom refseq ##@{gset string} dom genbank)) as [Hd|Hn].
    + rewrite (select_genomes_by_ids_disjoint _ _ _ _ Hr Hg Hd) in Hraise.
      discriminate.
    + rewrite disjoint_intersection_L in Hn.
      apply set_choose_L in Hn as [id Hid]. apply elem_of_intersection in Hid.
      by exists id.
Qed.

Lemma overlapping_ids_abort_witness :
  select_genomes_by_ids overlap_table ["57779"; "301"]
  = Raise (AssertionError overlap_msg).
Proof.
  apply (overlapping_ids_abort overlap_table
           (refseq_index_of overlap_table) (genbank_index_of overlap_table)).
  - apply is_ok_value_of. by_evaluation.
  - apply is_ok_value_of. by_evaluation.
  - exists "225". split; apply elem_of_dom.
    + decide_by_evaluation.
    + decide_by_evaluation.
Defined.

(** ** Which record a requested identifier gets *)

(** C1, as amended. In the matching step a requested ID that is a key of
    the GenBank mapping gets the GenBank record, also when it is a key of
    the RefSeq mapping as well (the GenBank matches are written last); a
    requested ID that is a key of the RefSeq mapping only gets its RefSeq
    record.  The resolver itself returns no mapping for a catalog in which
    some ID is a key of both: the overlap assertion raises first. *)
Theorem genbank_match_is_written_last
    (refseq genbank : gmap string genome) (ids : list string) (q : string) :
  q ∈ ids →
  (∀ g, genbank !! q = Some g → match_ids refseq genbank ids !! q = Some g)
  ∧ (genbank !! q = None → match_ids refseq genbank ids !! q = refseq !! q)
  ∧ (∀ table, refseq_genomes table = Ok refseq →
       genbank_genomes table = Ok genbank →
       is_Some (refseq !! q) → is_Some (genbank !! q) →
       select_genomes_by_ids table ids = Raise (AssertionError overlap_msg)).
Proof.
  intros Hq. repeat split.
  - intros g Hg. by rewrite lookup_match_ids, (decide_True _ _ Hq), Hg.
  - intros Hg. by rewrite lookup_match_ids, (decide_True _ _ Hq), Hg.
  - intros table Hr Hg Hir Hig.
    by apply (select_genomes_by_ids_overlap _ refseq genbank _ q).
Qed.

Lemma genbank_match_is_written_last_witness :
  match_ids {["7" := crafted_refseq_record]} {["8" := crafted_genbank_record]}
            ["7"; "8"] !! "7" = Some crafted_refseq_record.
Proof.
  destruct (genbank_match_is_written_last
              {["7" := crafted_refseq_record]} {["8" := crafted_genbank_record]}
              ["7"; "8"] "7") as (_ & H & _).
  - apply elem_of_cons. by left.
  - rewrite H; by_evaluation.
Defined.

(** C1 as stated fails: with an ID that is a key of both crafted mappings,
    the matching step returns the GenBank record, not the RefSeq one. *)
Lemma refseq_precedence_fails :
  ({["7" := crafted_refseq_record]} : gmap string genome) !! "7"
    = Some crafted_refseq_record
  ∧ ({["7" := crafted_genbank_record]} : gmap string genome) !! "7"
    = Some crafted_genbank_record
  ∧ match_ids {["7" := crafted_refseq_record]} {["7" := crafted_genbank_record]}
              ["7"] !! "7" = Some crafted_genbank_record
  ∧ match_ids {["7" := crafted_refseq_record]} {["7" := crafted_genbank_record]}
              ["7"] !! "7" ≠ Some crafted_refseq_record.
Proof.
  repeat split; try (by_evaluation).
  intros H.
  assert (Hname : match_ids {["7" := crafted_refseq_record]}
                    {["7" := crafted_genbank_record]} ["7"] !! "7"
                  ≫= (.!! "Organism Name") = Some (VStr "from RefSeq"))
    by (rewrite H; by_evaluation).
  vm_compute in Hname. discriminate Hname.
Qed.

(** ** Unmatched identifiers *)

Lemma unmatched_warnings_cons (m : gmap string genome) (q : string) (ids : list string) :
  unmatched_warnings m (q :: ids)
  = match m !! q with
    | None => (WARNING, not_found_msg q) :: unmatched_warnings m ids
    | Some _ => unmatched_warnings m ids
    end.
Proof. unfold unmatched_warnings. simpl. by destruct (m !! q). Qed.

Lemma unmatched_warnings_filter (m : gmap string genome) (ids : list string) :
  unmatched_warnings m ids
  = map (λ q, (WARNING, not_found_msg q)) (filter (λ q, m !! q = None) ids).
Proof.
  induction ids as [|q ids IH]; [done|].
  rewrite filter_cons, (unmatched_warnings_cons m q ids). destruct (m !! q) eqn:Hq.
  - rewrite decide_False by done. done.
  - rewrite decide_True by done. simpl. by rewrite IH.
Qed.

Lemma match_ids_None (refseq genbank : gmap string genome)
    (ids : list string) (q : string) :
  q ∈ ids →
  match_ids refseq genbank ids !! q = None
  ↔ refseq !! q = None ∧ genbank !! q = None.
Proof.
  intros Hq. rewrite lookup_match_ids, (decide_True _ _ Hq).
  destruct (genbank !! q), (refseq !! q); intuition congruence.
Qed.

Lemma filter_ext_in {A} (P Q : A → Prop) `{!∀ x, Decision (P x)}
    `{!∀ x, Decision (Q x)} (l : list A) :
  (∀ x, x ∈ l → P x ↔ Q x) → filter P l = filter Q l.
Proof.
  induction l as [|x l IH]; intros Hext; [done|].
  rewrite !filter_cons.
  rewrite IH by (intros y Hy; apply Hext, elem_of_cons; by right).
  assert (Hx : P x ↔ Q x) by (apply Hext, elem_of_cons; by left).
  by rewrite (decide_ext _ _ _ _ Hx).
Qed.

(** C9. Unmatched identifiers never make resolution fail: once the two
    indexes are built and disjoint, every request returns; the keys of the
    returned mapping are exactly the requested IDs found in one of the
    indexes, one warning is logged for each requested ID found in neither
    (and such an ID is not a key of the result), and a request of one RefSeq
    ID and one unknown ID returns a mapping with exactly one entry. *)
Theorem unmatched_ids_only_warn (table : string)
    (refseq genbank : gmap string genome) (ids : list string) :
  refseq_genomes table = Ok refseq →
  genbank_genomes table = Ok genbank →
  dom refseq ##@{gset string} dom genbank →
  ∃ matches warnings,
    select_genomes_by_ids table ids = Ok (matches, warnings)
    ∧ (∀ q, q ∈@{gset string} dom matches
            ↔ q ∈ ids ∧ (q ∈@{gset string} dom refseq
                          ∨ q ∈@{gset string} dom genbank))
    ∧ warnings
      = map (λ q, (WARNING, not_found_msg q))
            (filter (λ q, refseq !! q = None ∧ genbank !! q = None) ids)
    ∧ (∀ q, q ∈ ids → refseq !! q = None → genbank !! q = None →
            matches !! q = None ∧ (WARNING, not_found_msg q) ∈ warnings)
    ∧ (∀ known unknown, ids = [known; unknown] →
            is_Some (refseq !! known) →
            refseq !! unknown = None → genbank !! unknown = None →
            size matches = 1
            ∧ warnings = [(WARNING, not_found_msg unknown)]).
Proof.
  intros Hr Hg Hd.
  exists (match_ids refseq genbank ids),
         (unmatched_warnings (match_ids refseq genbank ids) ids).
  assert (Hw : unmatched_warnings (match_ids refseq genbank ids) ids
      = map (λ q, (WARNING, not_found_msg q))
            (filter (λ q, refseq !! q = None ∧ genbank !! q = None) ids)).
  { rewrite unmatched_warnings_filter. f_equal.
    apply filter_ext_in. intros q Hq. by apply match_ids_None. }
  split; [by apply select_genomes_by_ids_disjoint|].
  split; [|split; [done|split]].
  - intros q. rewrite !elem_of_dom, lookup_match_ids.
    destruct (decide (q ∈ ids)) as [Hq|Hq].
    + destruct (genbank !! q), (refseq !! q); rewrite !is_Some_alt; tauto.
    + rewrite !is_Some_alt. tauto.
  - intros q Hq Hrq Hgq. split.
    + by apply match_ids_None.
    + rewrite Hw. apply list_elem_of_fmap. exists q. split; [done|].
      by apply list_elem_of_filter.
  - intros known unknown -> [rec Hk] Hur Hug.
    assert (Hgk : genbank !! known = None).
    { destruct (genbank !! known) eqn:E; [|done]. exfalso.
      apply (Hd known); apply elem_of_dom; eauto. }
    assert (Hne : known ≠ unknown) by congruence.
    split.
    + assert (match_ids refseq genbank [known; unknown] = {[known := rec]}) as ->.
      { apply map_eq. intros q. rewrite lookup_match_ids.
        destruct (decide (q = known)) as [->|Hqk].
        - rewrite lookup_singleton_eq, decide_True, Hgk, Hk; [done|].
          apply elem_of_cons. by left.
        - rewrite lookup_singleton_ne by done.
          destruct (decide (q ∈ [known; unknown])) as [Hin|]; [|done].
          apply elem_of_cons in Hin as [?|Hin]; [done|].
          apply list_elem_of_singleton in Hin as ->. by rewrite Hug, Hur. }
      apply map_size_singleton.
    + rewrite Hw. rewrite filter_cons, decide_False by (intros [? _]; congruence).
      rewrite filter_cons, decide_True by done. done.
Qed.

Lemma unmatched_ids_only_warn_witness :
  ∃ matches,
    select_genomes_by_ids id_table ["57779"; "9"]
    = Ok (matches, [(WARNING, not_found_msg "9")])
    ∧ size matches = 1.
Proof.
  destruct (unmatched_ids_only_warn id_table
              (refseq_index_of id_table) (genbank_index_of id_table)
              ["57779"; "9"])
    as (matches & warnings & Hsel & _ & _ & _ & Htwo).
  - apply is_ok_value_of. by_evaluation.
  - apply is_ok_value_of. by_evaluation.
  - decide_by_evaluation.
  - destruct (Htwo "57779" "9") as [Hsize Hw].
    + reflexivity.
    + decide_by_evaluation.
    + by_evaluation.
    + by_evaluation.
    + exists matches. rewrite Hsel, Hw. by split.
Defined.

(** ** Records without a RefSeq project ID *)

Lemma append_inj_r (a b suffix : string) : a +:+ suffix = b +:+ suffix → a = b.
Proof.
  intros H. apply (f_equal list_ascii_of_string) in H.
  rewrite !append_as_list in H. apply app_inv_tail in H.
  rewrite <- (string_of_list_ascii_of_string a),
          <- (string_of_list_ascii_of_string b). by rewrite H.
Qed.

Lemma not_found_msg_inj (q1 q2 : string) :
  not_found_msg q1 = not_found_msg q2 → q1 = q2.
Proof.
  unfold not_found_msg. intros H.
  apply (inj (String.app _)) in H. by apply append_inj_r in H.
Qed.

(** C10. When some parsed record has an empty RefSeq project ID, the RefSeq
    index has the empty string as a key, bound to the last such record in
    catalog order; a requested identifier equal to the empty string is then
    resolved to that record and no warning is logged for it. *)
Theorem empty_refseq_id_is_a_key (table : string) (gs : list genome)
    (refseq : gmap string genome) (rec : genome) :
  _parse_genomes_table table false = Ok gs →
  refseq_genomes table = Ok refseq →
  last (filter (λ g, g !! "RefSeq project ID" = Some (VStr "")) gs) = Some rec →
  refseq !! "" = Some rec
  ∧ (∀ genbank ids,
       genbank_genomes table = Ok genbank →
       dom refseq ##@{gset string} dom genbank →
       "" ∈ ids →
       ∃ matches warnings,
         select_genomes_by_ids table ids = Ok (matches, warnings)
         ∧ matches !! "" = Some rec
         ∧ (WARNING, not_found_msg "") ∉ warnings).
Proof.
  intros Hgs Hr Hlast.
  assert (Hkey : refseq !! "" = Some rec).
  { unfold refseq_genomes in Hr. rewrite Hgs in Hr. simpl in Hr.
    by rewrite (index_by_lookup _ _ _ "" Hr). }
  split; [done|]. intros genbank ids Hg Hd Hin.
  assert (Hgb : genbank !! "" = None).
  { destruct (genbank !! "") eqn:E; [|done]. exfalso.
    apply (Hd ""); apply elem_of_dom; eauto. }
  assert (Hm : match_ids refseq genbank ids !! "" = Some rec).
  { by rewrite lookup_match_ids, (decide_True _ _ Hin), Hgb. }
  eexists _, _. split; [by apply select_genomes_by_ids_disjoint|].
  split; [done|].
  rewrite unmatched_warnings_filter. intros Hw.
  apply list_elem_of_fmap in Hw as (q & Heq & Hq).
  apply list_elem_of_filter in Hq as [Hnone _].
  pose proof (f_equal snd Heq) as Hmsg. cbn [snd] in Hmsg.
  apply not_found_msg_inj in Hmsg. subst q.
  congruence.
Qed.

Lemma empty_refseq_id_is_a_key_witness :
  ∃ matches warnings,
    select_genomes_by_ids id_table ["57779"; ""] = Ok (matches, warnings)
    ∧ matches !! "" ≫= (.!! "Organism Name") = Some (VStr "Bacillus two")
    ∧ (WARNING, not_found_msg "") ∉ warnings.
Proof.
  destruct (empty_refseq_id_is_a_key id_table
              (value_of [] (_parse_genomes_table id_table false))
              (refseq_index_of id_table)
              (default ∅
                 (last (filter (λ g, g !! "RefSeq project ID" = Some (VStr ""))
                          (value_of [] (_parse_genomes_table id_table false))))))
    as [_ H].
  - apply is_ok_value_of. by_evaluation.
  - apply is_ok_value_of. by_evaluation.
  - apply is_Some_default. by_evaluation.
  - destruct (H (genbank_index_of id_table) ["57779"; ""])
      as (matches & warnings & Hsel & Hm & Hw).
    + apply is_ok_value_of. by_evaluation.
    + decide_by_evaluation.
    + apply elem_of_cons. right. apply elem_of_cons. by left.
    + exists matches, warnings. split; [exact Hsel|]. split; [|exact Hw].
      rewrite Hm. by_evaluation.
Defined.

(** ** The recency checks *)

Lemma genome_file_outdated_false (fs : filesystem) (now : Z) (out_file : string) :
  genome_file_outdated fs now out_file = false
  ↔ ∃ n, fs !! out_file = Some n ∧ getsize n ≠ 0%Z
         ∧ (now - 30 * 24 * 60 * 60 ≤ getmtime n)%Z.
Proof.
  unfold genome_file_outdated. destruct (fs !! out_file) as [n|]; split.
  - intros [Hs Hm]%orb_false_iff. exists n.
    apply Z.eqb_neq in Hs. apply Z.ltb_ge in Hm. auto.
  - intros (n' & [= <-] & Hs & Hm). apply orb_false_iff. split.
    + apply Z.eqb_neq. congruence.
    + by apply Z.ltb_ge.
  - done.
  - by intros (n' & ? & _).
Qed.

(** C2, as amended. Before a genome-file download the cached file is
    reused exactly when the path exists, has non-zero size and is not older
    than now minus 30 days (a file modified exactly then is still reused);
    before the catalog download a non-empty saved copy is reused exactly
    when it is a regular file that is not older than now minus 24 hours, and
    a path that is not a regular file is never reused. *)
Theorem recency_checks (fs : filesystem) (now : Z) (path : string) :
  (genome_file_outdated fs now path = false
   ↔ ∃ n, fs !! path = Some n ∧ getsize n ≠ 0%Z
          ∧ (now - 30 * 24 * 60 * 60 ≤ getmtime n)%Z)
  ∧ (∀ n, fs !! path = Some n → getsize n ≠ 0%Z →
       (genomes_table_outdated fs now path = false
        ↔ isfile fs path = true ∧ (now - 24 * 60 * 60 ≤ getmtime n)%Z))
  ∧ (isfile fs path = false → genomes_table_outdated fs now path = true).
Proof.
  split; [apply genome_file_outdated_false|]. split.
  - intros n Hn _. unfold genomes_table_outdated, isfile. rewrite Hn.
    destruct n as [data mtime|sz mtime]; simpl.
    + rewrite Z.ltb_ge. unfold time_between_downloads. intuition.
    + intuition discriminate.
  - unfold genomes_table_outdated, isfile.
    by destruct (fs !! path) as [[]|].
Qed.

Lemma recency_checks_witness :
  genomes_table_outdated
    {[ "complete-genomes-table.tsv" := File "## Columns:" 1999990000 ]}
    2000000000 "complete-genomes-table.tsv" = false.
Proof.
  destruct (recency_checks
              {[ "complete-genomes-table.tsv" := File "## Columns:" 1999990000 ]}
              2000000000 "complete-genomes-table.tsv") as (_ & H & _).
  apply (H (File "## Columns:" 1999990000)).
  - by_evaluation.
  - vm_compute; discriminate.
  - split; [by_evaluation | vm_compute; discriminate].
Defined.

(** C2 as stated fails twice.  A genome file modified exactly 30 days ago
    is not more recent than now minus the window, yet it is reused; and an
    empty catalog copy saved a second ago is reused although its size is
    zero. *)
Lemma recency_check_is_not_the_stated_one :
  (genome_file_outdated {[ "cache/NC_1.gbk" := File "LOCUS" 1997408000 ]}
     2000000000 "cache/NC_1.gbk" = false
   ∧ ¬ is_fresh_spec {[ "cache/NC_1.gbk" := File "LOCUS" 1997408000 ]}
         2000000000 "cache/NC_1.gbk" (30 * 24 * 60 * 60))
  ∧ (genomes_table_outdated {[ "complete-genomes-table.tsv" := File "" 1999999999 ]}
       2000000000 "complete-genomes-table.tsv" = false
     ∧ ¬ is_fresh_spec {[ "complete-genomes-table.tsv" := File "" 1999999999 ]}
           2000000000 "complete-genomes-table.tsv" time_between_downloads).
Proof.
  split; split; try (by_evaluation).
  - intros (n & Hn & _ & Hm). rewrite lookup_singleton_eq in Hn.
    inversion Hn; subst n. simpl in Hm. lia.
  - intros (n & Hn & Hs & _). rewrite lookup_singleton_eq in Hn.
    inversion Hn; subst n. by apply Hs.
Qed.

(** ** Transfers go through a temporary file *)

Lemma isfile_insert_File (fs : filesystem) (path data : string) (mtime : Z) :
  isfile (<[path := File data mtime]> fs) path = true.
Proof. unfold isfile. by rewrite lookup_insert_eq. Qed.

Lemma shutil_move_onto (fs : filesystem) (src dst : string) (n : node) :
  fs !! src = Some n → isdir fs dst = false → parent_exists fs dst = true →
  shutil_move fs src dst = Ok (<[dst := n]> (delete src fs)).
Proof.
  intros Hsrc Hdir Hparent. unfold shutil_move. by rewrite Hsrc, Hdir, Hparent.
Qed.

Lemma shutil_move_nowhere (fs : filesystem) (src dst : string) (n : node) :
  fs !! src = Some n → isdir fs dst = false → parent_exists fs dst = false →
  shutil_move fs src dst = Raise (IOError ("No such file or directory: " +:+ dst)).
Proof.
  intros Hsrc Hdir Hparent. unfold shutil_move. by rewrite Hsrc, Hdir, Hparent.
Qed.

(** A regular file that appears does not change which directories are
    there. *)
Lemma isdir_insert_File (fs : filesystem) (path other data : string) (mtime : Z) :
  isdir (<[other := File data mtime]> fs) path
  = if decide (other = path) then false else isdir fs path.
Proof.
  unfold isdir. destruct (decide (other = path)) as [->|Hne].
  - by rewrite lookup_insert_eq.
  - by rewrite lookup_insert_ne.
Qed.

Lemma parent_exists_insert_File (fs : filesystem) (path other data : string)
    (mtime : Z) :
  other ≠ os_path_dirname path →
  parent_exists (<[other := File data mtime]> fs) path = parent_exists fs path.
Proof.
  intros Hne. unfold parent_exists. rewrite isdir_insert_File.
  by destruct (decide (other = os_path_dirname path)).
Qed.

Lemma parent_missing_insert_File (fs : filesystem) (path other data : string)
    (mtime : Z) :
  parent_exists fs path = false →
  parent_exists (<[other := File data mtime]> fs) path = false.
Proof.
  unfold parent_exists. rewrite isdir_insert_File.
  destruct (forallb _ _); [done|]. cbn [orb].
  by destruct (decide (other = os_path_dirname path)).
Qed.

Section Retrieval.

Context {E : Type} `{Outside E}.

(** C8. When [_download_genome_file] transfers a file, the bytes go to the
    temporary file that [mkstemp] named; only a transfer that ended
    normally and left that file non-empty is followed by the move onto the
    target.  If the transfer raises or delivers nothing, the call raises,
    the target path is exactly as it was before, and what was received sits
    in the temporary file.  After a transfer that ended normally with
    content, the target holds the whole content and the temporary file is
    gone when the directory that is to hold the target is there; when it
    is not, the move raises, the target path is as it was before and the
    content stays in the temporary file. *)
Theorem transfer_goes_through_temporary_file
    (remote_dir filename target_dir : string) (w : world E)
    (now : Z) (e1 e2 e3 : E) (tmp_file : string)
    (blocks : list string) (outcome : option exn) :
  let out_file := os_path_join target_dir filename in
  let content := foldr String.append "" blocks in
  let after := _download_genome_file remote_dir filename target_dir w in
  time_time (outside w) = (now, e1) →
  mkstemp e1 (filename +:+ "_") = (tmp_file, e2) →
  retrbinary e2 ("RETR " +:+ remote_dir +:+ "/" +:+ filename)
    = (blocks, outcome, e3) →
  genome_file_outdated (files w) now out_file = true →
  tmp_file ≠ out_file →
  (is_Some outcome ∨ content = "" →
     is_ok after.2 = false
     ∧ files after.1 !! out_file = files w !! out_file
     ∧ files after.1 !! tmp_file = Some (File content (time_time e3).1)
     ∧ (∀ err, outcome = Some err → after.2 = Raise err))
  ∧ (outcome = None → content ≠ "" → isdir (files w) out_file = false →
     parent_exists (files w) out_file = true →
     tmp_file ≠ os_path_dirname out_file →
     after.2 = Ok out_file
     ∧ files after.1 !! out_file = Some (File content (time_time e3).1)
     ∧ files after.1 !! tmp_file = None)
  ∧ (outcome = None → content ≠ "" → isdir (files w) out_file = false →
     parent_exists (files w) out_file = false →
     after.2 = Raise (IOError ("No such file or directory: " +:+ out_file))
     ∧ files after.1 !! out_file = files w !! out_file
     ∧ files after.1 !! tmp_file = Some (File content (time_time e3).1)).
Proof.
  intros out_file content after Htime Htmp Hretr Hold Hne.
  subst after. unfold _download_genome_file.
  rewrite Htime. fold out_file. rewrite Hold, Htmp, Hretr. fold content.
  rewrite isfile_insert_File. cbn [andb].
  assert (Hsize : (0 <? getsize (File content (time_time e3).1))%Z
                  = negb (String.eqb content "")).
  { destruct content; simpl; [done|]. apply Z.ltb_lt. lia. }
  rewrite Hsize.
  assert (Htarget : (<[tmp_file := File content (time_time e3).1]>
                       (<[tmp_file := File "" now]> (files w)))
                    !! out_file = files w !! out_file)
    by (by rewrite !lookup_insert_ne).
  assert (Htmp_file : (<[tmp_file := File content (time_time e3).1]>
                       (<[tmp_file := File "" now]> (files w)))
                    !! tmp_file = Some (File content (time_time e3).1))
    by (by rewrite lookup_insert_eq).
  assert (Hisdir : ∀ path,
            isdir (<[tmp_file := File content (time_time e3).1]>
                     (<[tmp_file := File "" now]> (files w))) path
            = if decide (tmp_file = path) then false else isdir (files w) path).
  { intros path. rewrite !isdir_insert_File.
    by destruct (decide (tmp_file = path)). }
  split; [|split].
  - intros Hfail. destruct outcome as [err|].
    + cbn [fst snd files is_ok]. repeat split; [done.. |]. by intros ? [= ->].
    + assert (Hempty : String.eqb content "" = true).
      { apply String.eqb_eq. by destruct Hfail as [[? [=]]|]. }
      rewrite Hempty. cbn [negb fst snd files is_ok]. repeat split; done.
  - intros -> Hcontent Hdir Hparent Hne'.
    apply String.eqb_neq in Hcontent. rewrite Hcontent. cbn [negb].
    rewrite (shutil_move_onto _ _ _ (File content (time_time e3).1)).
    + simpl. split; [done|]. rewrite lookup_insert_eq. split; [done|].
      rewrite lookup_insert_ne by done. by rewrite lookup_delete_eq.
    + done.
    + rewrite Hisdir. by destruct (decide (tmp_file = out_file)).
    + by rewrite !parent_exists_insert_File.
  - intros -> Hcontent Hdir Hparent.
    apply String.eqb_neq in Hcontent. rewrite Hcontent. cbn [negb].
    rewrite (shutil_move_nowhere _ _ _ (File content (time_time e3).1)).
    + done.
    + done.
    + rewrite Hisdir. by destruct (decide (tmp_file = out_file)).
    + by do 2 apply parent_missing_insert_File.
Qed.

(** ** The optional feature table *)



End Retrieval.

(** The two results on the example server. *)

Lemma transfer_goes_through_temporary_file_witness :
  (is_ok (_download_genome_file "/genomes/Bacteria/flaky" "NC_9.gbk" "cache"
            demo_world).2 = false
   ∧ files (_download_genome_file "/genomes/Bacteria/flaky" "NC_9.gbk" "cache"
              demo_world).1 !! "cache/NC_9.gbk"
     = files demo_world !! "cache/NC_9.gbk")
  ∧ ((_download_genome_file "/genomes/Bacteria/x" "NC_1.gbk" "cache"
        demo_world).2 = Ok "cache/NC_1.gbk"
     ∧ files (_download_genome_file "/genomes/Bacteria/x" "NC_1.gbk" "cache"
                demo_world).1 !! "/tmp/NC_1.gbk_1" = None)
  ∧ ((_download_genome_file "/genomes/Bacteria/x" "NC_1.gbk" "nowhere"
        demo_world).2
     = Raise (IOError "No such file or directory: nowhere/NC_1.gbk")
     ∧ files (_download_genome_file "/genomes/Bacteria/x" "NC_1.gbk" "nowhere"
                demo_world).1 !! "nowhere/NC_1.gbk" = None).
Proof.
  split; [|split].
  - destruct (transfer_goes_through_temporary_file
                "/genomes/Bacteria/flaky" "NC_9.gbk" "cache" demo_world
                2000000000 1 2 3 "/tmp/NC_9.gbk_1" ["LOCUS  "]
                (Some (socket_error "Connection reset by peer")))
      as [Hfail _]; try (by_evaluation).
    + vm_compute. discriminate.
    + destruct Hfail as (Hraised & Htarget & _); [left; eauto|].
      split; [exact Hraised | exact Htarget].
  - destruct (transfer_goes_through_temporary_file
                "/genomes/Bacteria/x" "NC_1.gbk" "cache" demo_world
                2000000000 1 2 3 "/tmp/NC_1.gbk_1" ["LOCUS  "; "NC_1"] None)
      as (_ & Hmoved & _); try (by_evaluation).
    + vm_compute. discriminate.
    + destruct Hmoved as (Hreturned & _ & Hgone);
        [reflexivity | vm_compute; discriminate | by_evaluation | by_evaluation
        | vm_compute; discriminate |].
      split; [exact Hreturned | exact Hgone].
  - destruct (transfer_goes_through_temporary_file
                "/genomes/Bacteria/x" "NC_1.gbk" "nowhere" demo_world
                2000000000 1 2 3 "/tmp/NC_1.gbk_1" ["LOCUS  "; "NC_1"] None)
      as (_ & _ & Hstays); try (by_evaluation).
    + vm_compute. discriminate.
    + destruct Hstays as (Hraised & Htarget & _);
        [reflexivity | vm_compute; discriminate | by_evaluation | by_evaluation |].
      split; [exact Hraised|]. etrans; [exact Htarget | by_evaluation].
Defined.


(** * More of the program: verification *)

(** ** Lines the parser skips *)

Lemma parse_line_skipped rr st (line : string) :
  is_skipped_line line = true → parse_line rr st line = Ok st.
Proof.
  unfold is_skipped_line, parse_line. intros Hskip.
  destruct (String.length line =? 0)%nat; [done|]. simpl in Hskip.
  destruct (Py.split Py.tab line) as [|v0 fields] eqn:Hsplit.
  { by apply split_nonempty in Hsplit. }
  simpl in Hskip. apply andb_true_iff in Hskip as [-> Hcols].
  apply negb_true_iff in Hcols. by rewrite Hcols.
Qed.

(** X1. Empty lines and comment lines other than the column header are
    ignored wherever they stand: a text and the same text without such a
    line parse to the same result, records or exception. *)
Theorem skipped_lines_are_ignored (require_refseq : bool) (text text' : string)
    (before : list string) (line : string) (after : list string) :
  Py.split Py.newline text = (before ++ line :: after)%list →
  Py.split Py.newline text' = (before ++ after)%list →
  is_skipped_line line = true →
  _parse_genomes_table text require_refseq
  = _parse_genomes_table text' require_refseq.
Proof.
  intros Htext Htext' Hskip. unfold _parse_genomes_table.
  rewrite Htext, Htext', !parse_lines_app.
  destruct (parse_lines require_refseq initial_pstate before) as [st|e]; [|done].
  rewrite !bind_Ok. cbn [parse_lines]. by rewrite (parse_line_skipped _ _ _ Hskip).
Qed.

Lemma skipped_lines_are_ignored_witness :
  _parse_genomes_table commented_table false
  = _parse_genomes_table uncommented_table false.
Proof.
  apply (skipped_lines_are_ignored false commented_table uncommented_table
           [ "# Complete genomes";
             Py.join Py.tab
               ["## Columns:"; quoted "RefSeq project ID"; quoted "Project ID"];
             Py.join Py.tab ["57779"; "225"] ]
           "# second thoughts"
           [ Py.join Py.tab ["58531"; "301"] ]); by_evaluation.
Defined.

(** ** Writing a table and reading it back *)

Lemma has_char_append (c : ascii) (a b : string) :
  Py.has_char c (a +:+ b) = Py.has_char c a || Py.has_char c b.
Proof.
  induction a as [|d a IH]; [done|].
  rewrite append_cons. simpl. by rewrite IH, orb_assoc.
Qed.

Lemma has_char_join (c sep : ascii) (items : list string) :
  c ≠ sep →
  Forall (λ it, Py.has_char c it = false) items →
  Py.has_char c (Py.join sep items) = false.
Proof.
  intros Hne. induction items as [|x rest IH]; intros Hall; [done|].
  apply Forall_cons in Hall as [Hx Hrest].
  destruct rest as [|y rest]; [done|].
  change (Py.join sep (x :: y :: rest))
    with (x +:+ String sep (Py.join sep (y :: rest))).
  rewrite has_char_append, Hx. cbn [Py.has_char orb].
  rewrite (IH Hrest), orb_false_r. apply Ascii.eqb_neq. congruence.
Qed.

Lemma plain_cell_spec (cell : string) :
  plain_cell cell = true
  ↔ Py.has_char Py.tab cell = false ∧ Py.has_char Py.newline cell = false.
Proof. unfold plain_cell. rewrite andb_true_iff, !negb_true_iff. done. Qed.

Lemma plain_cell_quoted (cell : string) :
  plain_cell cell = true → plain_cell (quoted cell) = true.
Proof.
  rewrite !plain_cell_spec. intros [Ht Hn]. unfold quoted. simpl.
  by rewrite !has_char_append, Ht, Hn.
Qed.

Lemma slice_quoted (cell : string) : Py.slice_1_m1 (quoted cell) = cell.
Proof.
  unfold Py.slice_1_m1, quoted. simpl. rewrite length_append. simpl.
  replace (String.length cell + 1 - 1)%nat with (String.length cell) by lia.
  apply substring_0_append.
Qed.

Lemma slice_quoted_all (cells : list string) :
  map Py.slice_1_m1 (map quoted cells) = cells.
Proof.
  induction cells as [|c cells IH]; [done|].
  cbn [map]. by rewrite slice_quoted, IH.
Qed.

Lemma split_tab_join (row : list string) :
  row ≠ [] → Forall (λ cell, plain_cell cell = true) row →
  Py.split Py.tab (Py.join Py.tab row) = row.
Proof.
  intros Hne Hrow. apply split_join; [done|].
  eapply Forall_impl; [exact Hrow|]. by intros cell [? _]%plain_cell_spec.
Qed.

Lemma no_newline_join (row : list string) :
  Forall (λ cell, plain_cell cell = true) row →
  Py.has_char Py.newline (Py.join Py.tab row) = false.
Proof.
  intros Hrow. apply has_char_join; [done|].
  eapply Forall_impl; [exact Hrow|]. by intros cell [_ ?]%plain_cell_spec.
Qed.

Lemma length_register_columns (cols : list string) (sp : gmap string ascii) :
  length (register_columns cols sp).1 = length cols.
Proof.
  revert sp. induction cols as [|c cols IH]; intros sp; [done|].
  simpl. destruct (register_column suffixes c sp) as [c' sp'].
  specialize (IH sp'). destruct (register_columns cols sp') as [rest sp''].
  simpl in *. by rewrite IH.
Qed.

Lemma data_row_nonempty (n : nat) (row : list string) : data_row n row → row ≠ [].
Proof. intros (_ & _ & Hdata) ->. discriminate Hdata. Qed.

Lemma parse_line_data_row (st : pstate) (row : list string) :
  data_row (length (columns st)) row →
  parse_line false st (Py.join Py.tab row)
  = Ok {| columns := columns st;
          splitable_columns := splitable_columns st;
          genomes := genomes st
                     ++ [make_genome (columns st) (splitable_columns st) row] |}.
Proof.
  intros Hrow. pose proof (data_row_nonempty _ _ Hrow) as Hne.
  destruct Hrow as (Hlen & Hcells & Hdata).
  unfold is_data_line in Hdata. apply andb_true_iff in Hdata as [Hl Hc].
  apply negb_true_iff in Hl, Hc.
  unfold parse_line. rewrite Hl, (split_tab_join _ Hne Hcells) in *.
  destruct row as [|v0 fields]; [done|]. simpl in Hc. rewrite Hc.
  by rewrite Hlen, Nat.eqb_refl.
Qed.

Lemma parse_lines_data_rows (st : pstate) (rows : list (list string)) :
  Forall (data_row (length (columns st))) rows →
  parse_lines false st (map (Py.join Py.tab) rows)
  = Ok {| columns := columns st;
          splitable_columns := splitable_columns st;
          genomes := genomes st
                     ++ map (make_genome (columns st) (splitable_columns st)) rows |}.
Proof.
  revert st. induction rows as [|row rows IH]; intros st Hrows.
  - simpl. rewrite app_nil_r. by destruct st.
  - apply Forall_cons in Hrows as [Hrow Hrows]. cbn [map parse_lines].
    rewrite (parse_line_data_row _ _ Hrow), bind_Ok, IH by done.
    cbn [columns splitable_columns genomes]. by rewrite <- (assoc_L (++)%list).
Qed.

Lemma parse_line_header (rr : bool) (st : pstate) (headers : list string) :
  Forall (λ h, plain_cell h = true) headers →
  parse_line rr st (Py.join Py.tab (header_row headers))
  = Ok {| columns := (register_columns headers (splitable_columns st)).1;
          splitable_columns := (register_columns headers (splitable_columns st)).2;
          genomes := genomes st |}.
Proof.
  intros Hheaders. unfold parse_line.
  assert (Hcells : Forall (λ cell, plain_cell cell = true) (header_row headers)).
  { apply Forall_cons. split; [done|]. apply Forall_fmap.
    eapply Forall_impl; [exact Hheaders|]. apply plain_cell_quoted. }
  assert (Hne : header_row headers ≠ []) by (unfold header_row; discriminate).
  rewrite (split_tab_join _ Hne Hcells).
  assert ((String.length (Py.join Py.tab (header_row headers)) =? 0)%nat = false)
    as ->.
  { unfold header_row. destruct (map quoted headers); [done|].
    change (Py.join Py.tab ("## Columns:" :: s :: l))
      with ("## Columns:" +:+ String Py.tab (Py.join Py.tab (s :: l))).
    rewrite length_append. done. }
  unfold header_row. change (is_comment "## Columns:") with true.
  change ("## Columns:" =? "## Columns:")%string with true. cbn iota.
  rewrite slice_quoted_all.
  by destruct (register_columns headers (splitable_columns st)).
Qed.

Lemma parse_header_and_rows (headers : list string) (rows : list (list string)) :
  Forall (λ h, plain_cell h = true) headers →
  Forall (data_row (length headers)) rows →
  _parse_genomes_table (table_of (header_row headers :: rows)) false
  = Ok (map (make_genome (register_columns headers ∅).1
                         (register_columns headers ∅).2) rows).
Proof.
  intros Hheaders Hrows. unfold _parse_genomes_table, table_of.
  rewrite split_join; [|done|].
  - cbn [map parse_lines]. rewrite (parse_line_header _ _ _ Hheaders), bind_Ok.
    rewrite parse_lines_data_rows.
    + by rewrite bind_Ok.
    + cbn [columns]. by rewrite length_register_columns.
  - apply Forall_fmap, Forall_cons. split.
    + apply no_newline_join, Forall_cons. split; [done|].
      apply Forall_fmap. eapply Forall_impl; [exact Hheaders|].
      apply plain_cell_quoted.
    + eapply Forall_impl; [exact Hrows|]. intros row (_ & Hcells & _).
      by apply no_newline_join.
Qed.

(** X2. Reading back what [table_of] lays out: a header line for plain
    column headers followed by data rows of as many plain cells parses,
    without the flag, into one record per row, in order, each the
    dictionary of the stored column names and that row's cells. *)
Theorem parse_table_of (headers : list string) (rows : list (list string)) :
  Forall (λ h, plain_cell h = true) headers →
  Forall (data_row (length headers)) rows →
  _parse_genomes_table (table_of (header_row headers :: rows)) false
  = Ok (map (make_genome (register_columns headers ∅).1
                         (register_columns headers ∅).2) rows).
Proof. apply parse_header_and_rows. Qed.

Lemma parse_table_of_witness :
  _parse_genomes_table sample_table false
  = Ok (map (make_genome ["RefSeq project ID"; "Project ID"; "Accs"]
                         {["Accs" := ","%char]})
            [ ["57779"; "225"; "NC_1,NC_2"]; [""; "300"; "X"];
              ["58531"; "301"; ","] ]).
Proof.
  assert (Hreg : register_columns
                   ["RefSeq project ID"; "Project ID"; "Accs (comma separated)"] ∅
                 = (["RefSeq project ID"; "Project ID"; "Accs"],
                    {["Accs" := ","%char]})) by by_evaluation.
  pose proof (parse_table_of
                ["RefSeq project ID"; "Project ID"; "Accs (comma separated)"]
                [ ["57779"; "225"; "NC_1,NC_2"]; [""; "300"; "X"];
                  ["58531"; "301"; ","] ]) as H.
  rewrite Hreg in H. apply H.
  - repeat constructor.
  - repeat constructor.
Defined.

(** ** How many records, and what is in them *)

Lemma parse_line_count (st st' : pstate) (line : string) :
  parse_line false st line = Ok st' →
  length (genomes st')
  = (length (genomes st) + if is_data_line line then 1 else 0)%nat.
Proof.
  unfold parse_line, is_data_line.
  destruct (String.length line =? 0)%nat; simpl.
  { intros [= <-]. lia. }
  destruct (Py.split Py.tab line) as [|v0 fields]; [done|]. simpl.
  destruct (is_comment v0); simpl.
  - destruct (String.eqb v0 "## Columns:").
    + destruct (register_columns _ _). intros [= <-]. simpl. lia.
    + intros [= <-]. lia.
  - destruct (negb _); [done|]. simpl. intros [= <-]. simpl.
    rewrite length_app. simpl. lia.
Qed.

Lemma parse_lines_count (lines : list string) (st st' : pstate) :
  parse_lines false st lines = Ok st' →
  length (genomes st')
  = (length (genomes st)
     + length (filter (λ l, is_data_line l = true) lines))%nat.
Proof.
  revert st. induction lines as [|l lines IH]; simpl; intros st Hp.
  - inversion Hp; subst. lia.
  - apply bind_Ok_inv in Hp as (st1 & Hl & Hrest).
    rewrite (IH _ Hrest), (parse_line_count _ _ _ Hl), filter_cons.
    destruct (is_data_line l); simpl; lia.
Qed.

(** X3. Without the flag a parse that returns has made one record for
    every line that is neither empty nor a comment, no more and no less. *)
Theorem one_record_per_data_line (text : string) (gs : list genome) :
  _parse_genomes_table text false = Ok gs →
  length gs
  = length (filter (λ l, is_data_line l = true) (Py.split Py.newline text)).
Proof.
  unfold _parse_genomes_table. intros H.
  apply bind_Ok_inv in H as (st & Hp & [= <-]).
  by rewrite (parse_lines_count _ _ _ Hp).
Qed.

Lemma one_record_per_data_line_witness :
  length (value_of [] (_parse_genomes_table commented_table false)) = 2.
Proof.
  rewrite (one_record_per_data_line commented_table).
  - by_evaluation.
  - apply is_ok_value_of. by_evaluation.
Defined.

Lemma filter_none {A} (P : A → Prop) `{!∀ x, Decision (P x)} (l : list A) :
  (∀ x, x ∈ l → ¬ P x) → filter P l = [].
Proof.
  induction l as [|x l IH]; intros Hnone; [done|].
  rewrite filter_cons_False by (apply Hnone, elem_of_cons; by left).
  apply IH. intros y Hy. apply Hnone, elem_of_cons. by right.
Qed.

Lemma dict_lookup_last {V} (pairs : list (string * V)) (k : string) :
  Py.dict pairs !! k = snd <$> last (filter (λ kv, kv.1 = k) pairs).
Proof.
  induction pairs as [|[k' v] pairs IH] using rev_ind.
  - unfold Py.dict. simpl. by rewrite lookup_empty.
  - rewrite dict_snoc, filter_app, filter_cons, filter_nil. simpl.
    destruct (decide (k' = k)) as [->|Hne].
    + by rewrite lookup_insert_eq, last_snoc.
    + by rewrite lookup_insert_ne, app_nil_r.
Qed.

Lemma dom_dict {V} (pairs : list (string * V)) :
  dom (Py.dict pairs) =@{gset string} list_to_set pairs.*1.
Proof.
  induction pairs as [|[k v] pairs IH] using rev_ind.
  - unfold Py.dict. simpl. by rewrite dom_empty_L.
  - rewrite dict_snoc, dom_insert_L, IH, fmap_app, list_to_set_app_L. simpl.
    rewrite (right_id_L ∅ (∪)). apply (comm_L (∪)).
Qed.

(** X4. The record made from a row has exactly the declared column names
    as keys, and under each name the cell of the last column declared with
    that name, split if the name is registered as multi-valued. *)
Theorem record_of_row (cols : list string) (sp : gmap string ascii)
    (values : list string) :
  length cols = length values →
  dom (make_genome cols sp values) =@{gset string} list_to_set cols
  ∧ (∀ i c v, cols !! i = Some c → values !! i = Some v →
       c ∉ drop (S i) cols →
       make_genome cols sp values !! c = Some (split_cell sp c v)).
Proof.
  intros Hlen. split.
  - assert (Hdom : dom (make_genome cols sp values)
                   =@{gset string} dom (Py.dict (zip cols values))).
    { apply set_eq. intros c. rewrite !elem_of_dom. unfold make_genome.
      rewrite map_lookup_imap.
      destruct (Py.dict (zip cols values) !! c); simpl; by rewrite !is_Some_alt. }
    rewrite Hdom, dom_dict, fst_zip by lia. done.
  - intros i c v Hc Hv Hlast.
    rewrite lookup_make_genome, dict_lookup_last.
    rewrite <- (take_drop_middle cols i c Hc) at 1.
    rewrite <- (take_drop_middle values i v Hv) at 1.
    rewrite zip_with_app by (rewrite !length_take; lia). simpl.
    rewrite filter_app, filter_cons, decide_True by done.
    assert (filter (λ kv : string * string, kv.1 = c)
              (zip (drop (S i) cols) (drop (S i) values)) = []) as ->.
    { apply filter_none. intros [k w] Hin Hk. simpl in Hk. subst k.
      apply Hlast. by apply elem_of_zip_l in Hin. }
    by rewrite last_snoc.
Qed.

Lemma record_of_row_witness :
  make_genome ["Accs"; "Project ID"; "Accs"] ∅ ["NC_1"; "225"; "NC_2"] !! "Accs"
  = Some (VStr "NC_2").
Proof.
  destruct (record_of_row ["Accs"; "Project ID"; "Accs"] ∅ ["NC_1"; "225"; "NC_2"])
    as [_ Hcell]; [reflexivity|].
  apply (Hcell 2 "Accs" "NC_2"); [reflexivity | reflexivity |].
  simpl. apply not_elem_of_nil.
Defined.

(** ** Column headers *)

Lemma register_column_plain (column : string) (sp : gmap string ascii) :
  Py.endswith column " (comma separated)" = false →
  Py.endswith column " (pipe separated)" = false →
  register_column suffixes column sp = (column, sp).
Proof.
  intros Hc Hp. unfold register_column, suffixes, strip_suffix.
  cbn [foldl fst snd]. by rewrite Hc, Hp.
Qed.

(** X5. A column header ending in " (comma separated)" or
    " (pipe separated)" is stored without that suffix and registered with
    [,] or [|]; any other header is stored as read and registers nothing;
    and the outcome does not depend on the order in which the two suffixes
    are tried. *)
Theorem header_suffix_registration (name column : string) (sp : gmap string ascii) :
  register_column suffixes (name +:+ " (comma separated)") sp
    = (name, <[name := ","%char]> sp)
  ∧ register_column suffixes (name +:+ " (pipe separated)") sp
    = (name, <[name := "|"%char]> sp)
  ∧ (Py.endswith column " (comma separated)" = false →
     Py.endswith column " (pipe separated)" = false →
     register_column suffixes column sp = (column, sp))
  ∧ register_column (reverse suffixes) column sp
    = register_column suffixes column sp.
Proof.
  split; [apply register_column_comma|].
  split; [apply register_column_pipe|].
  split; [apply register_column_plain | apply register_column_order].
Qed.

Lemma header_suffix_registration_witness :
  register_column suffixes "Organism Name" ∅ = ("Organism Name", ∅).
Proof.
  destruct (header_suffix_registration "" "Organism Name" ∅) as (_ & _ & H & _).
  apply H; reflexivity.
Defined.

Lemma register_column_keeps (column : string) (sp : gmap string ascii) (k : string) :
  is_Some (sp !! k) → is_Some ((register_column suffixes column sp).2 !! k).
Proof.
  intros Hk. unfold register_column, suffixes, strip_suffix. cbn [foldl fst snd].
  destruct (Py.endswith column " (comma separated)"),
           (Py.endswith column " (pipe separated)"); cbn [fst snd];
    rewrite ?lookup_insert; repeat case_decide; eauto.
Qed.

Lemma register_columns_keeps (cols : list string) (sp : gmap string ascii)
    (k : string) :
  is_Some (sp !! k) → is_Some ((register_columns cols sp).2 !! k).
Proof.
  revert sp. induction cols as [|c cols IH]; intros sp Hk; [done|].
  simpl. pose proof (register_column_keeps c sp k Hk) as Hc.
  destruct (register_column suffixes c sp) as [c' sp']. simpl in Hc.
  specialize (IH sp' Hc). by destruct (register_columns cols sp').
Qed.

Lemma parse_line_keeps_separators rr (st st' : pstate) (line k : string) :
  parse_line rr st line = Ok st' →
  is_Some (splitable_columns st !! k) → is_Some (splitable_columns st' !! k).
Proof.
  unfold parse_line. intros Hp Hk.
  destruct (String.length line =? 0)%nat; [by inversion Hp; subst|].
  destruct (Py.split Py.tab line) as [|v0 fields]; [done|].
  destruct (is_comment v0).
  - destruct (String.eqb v0 "## Columns:"); [|by inversion Hp; subst].
    pose proof (register_columns_keeps (map Py.slice_1_m1 fields) _ k Hk) as Hr.
    destruct (register_columns _ _). inversion Hp; subst. exact Hr.
  - destruct (negb _); [done|].
    apply bind_Ok_inv in Hp as (gs & _ & [= <-]). exact Hk.
Qed.

(** X6. The separators registered by one column header line stay
    registered for the rest of the parse: a later header line replaces the
    columns but never forgets a registered name, so a column that a later
    header names without its suffix is still split. *)
Theorem separators_outlive_headers rr (lines : list string) (st st' : pstate)
    (k : string) :
  parse_lines rr st lines = Ok st' →
  is_Some (splitable_columns st !! k) → is_Some (splitable_columns st' !! k).
Proof.
  revert st. induction lines as [|l lines IH]; simpl; intros st Hp Hk.
  - by inversion Hp; subst.
  - apply bind_Ok_inv in Hp as (st1 & Hl & Hrest).
    eapply IH; [exact Hrest|]. by eapply parse_line_keeps_separators.
Qed.

Lemma separators_outlive_headers_witness :
  map (.!! "Accs") <$> returned (_parse_genomes_table two_header_table false)
  = Some [Some (VList ["NC_1"; "NC_2"]); Some (VList ["NC_3"; "NC_4"])]
  ∧ is_Some (splitable_columns
               (value_of initial_pstate
                  (parse_lines false
                     {| columns := ["Project ID"; "Accs"];
                        splitable_columns := {["Accs" := ","%char]};
                        genomes := [] |}
                     [Py.join Py.tab (header_row ["Project ID"; "Accs"])]))
             !! "Accs").
Proof.
  split; [by_evaluation|].
  eapply (separators_outlive_headers false
            [Py.join Py.tab (header_row ["Project ID"; "Accs"])]
            {| columns := ["Project ID"; "Accs"];
               splitable_columns := {["Accs" := ","%char]};
               genomes := [] |}).
  - apply is_ok_value_of. by_evaluation.
  - eexists. by_evaluation.
Defined.

(** ** The flag, once more *)

Lemma filter_refseq_all_truthy (gs kept : list genome) :
  filter_refseq gs = Ok kept →
  Forall (λ g, ∃ v, g !! "RefSeq project ID" = Some v ∧ truthy v = true) kept.
Proof.
  revert kept. induction gs as [|g gs IH]; simpl; intros kept Hk.
  - inversion Hk. constructor.
  - destruct (g !! "RefSeq project ID") as [v|] eqn:Hg; [|done].
    destruct (filter_refseq gs) as [r|]; simpl in Hk; [|done].
    inversion Hk; subst; clear Hk.
    destruct (truthy v) eqn:Hv; [|by apply IH].
    constructor; [eauto | by apply IH].
Qed.

(** X7. Every record returned under the require-RefSeq flag has a RefSeq
    project ID cell that is not empty. *)
Theorem refseq_flag_keeps_only_refseq_records (text : string) (gs : list genome) :
  _parse_genomes_table text true = Ok gs →
  Forall (λ g, ∃ v, g !! "RefSeq project ID" = Some v ∧ truthy v = true) gs.
Proof.
  unfold _parse_genomes_table. intros H.
  apply bind_Ok_inv in H as (st & Hp & [= <-]).
  pose proof (progressive_filter_simulation (Py.split Py.newline text)
                initial_pstate initial_pstate eq_refl eq_refl eq_refl) as Hsim.
  rewrite Hp in Hsim. simpl in Hsim.
  destruct (parse_lines false initial_pstate (Py.split Py.newline text))
    as [st'|]; [|done].
  simpl in Hsim. symmetry in Hsim. apply returned_Some in Hsim.
  by apply (filter_refseq_all_truthy (genomes st')).
Qed.

Lemma refseq_flag_keeps_only_refseq_records_witness :
  Forall (λ g, ∃ v, g !! "RefSeq project ID" = Some v ∧ truthy v = true)
         (value_of [] (_parse_genomes_table id_table true)).
Proof.
  apply (refseq_flag_keeps_only_refseq_records id_table).
  apply is_ok_value_of. by_evaluation.
Defined.

Lemma make_genome_lacks (cols : list string) (sp : gmap string ascii)
    (values : list string) (key : string) :
  key ∉ cols → make_genome cols sp values !! key = None.
Proof.
  intros Hkey. rewrite lookup_make_genome, dict_lookup_last.
  rewrite filter_none; [done|].
  intros [k w] Hin Hk. simpl in Hk. subst k. apply Hkey.
  by apply elem_of_zip_l in Hin.
Qed.

Lemma parse_line_filtered (st st' : pstate) (line : string) :
  parse_line true st line = Ok st' →
  filter_refseq (genomes st) = Ok (genomes st) →
  filter_refseq (genomes st') = Ok (genomes st').
Proof.
  unfold parse_line. intros Hp Hf.
  destruct (String.length line =? 0)%nat; [by inversion Hp; subst|].
  destruct (Py.split Py.tab line) as [|v0 fields]; [done|].
  destruct (is_comment v0).
  - destruct (String.eqb v0 "## Columns:"); [|by inversion Hp; subst].
    destruct (register_columns _ _). by inversion Hp; subst.
  - destruct (negb _); [done|].
    apply bind_Ok_inv in Hp as (gs & Hgs & [= <-]). simpl.
    by apply filter_refseq_idem in Hgs.
Qed.

Lemma parse_lines_filtered (lines : list string) (st st' : pstate) :
  parse_lines true st lines = Ok st' →
  filter_refseq (genomes st) = Ok (genomes st) →
  filter_refseq (genomes st') = Ok (genomes st').
Proof.
  revert st. induction lines as [|l lines IH]; simpl; intros st Hp Hf.
  - by inversion Hp; subst.
  - apply bind_Ok_inv in Hp as (st1 & Hl & Hrest).
    eapply IH; [exact Hrest|]. by eapply parse_line_filtered.
Qed.

(** X8. Under the require-RefSeq flag the column must be declared: the
    first data row read while no column is called "RefSeq project ID"
    makes the parse raise [KeyError], although the row has the right number
    of cells. *)
Theorem refseq_flag_needs_the_column (text : string)
    (before : list string) (line : string) (after : list string) (st : pstate) :
  Py.split Py.newline text = (before ++ line :: after)%list →
  parse_lines true initial_pstate before = Ok st →
  is_data_line line = true →
  length (Py.split Py.tab line) = length (columns st) →
  "RefSeq project ID" ∉ columns st →
  _parse_genomes_table text true = Raise (KeyError "RefSeq project ID").
Proof.
  intros Htext Hbefore Hdata Hlen Hcol. unfold _parse_genomes_table.
  rewrite Htext, parse_lines_app, Hbefore, bind_Ok. cbn [parse_lines].
  assert (Hline : parse_line true st line = Raise (KeyError "RefSeq project ID")).
  { unfold is_data_line in Hdata. apply andb_true_iff in Hdata as [Hl Hc].
    apply negb_true_iff in Hl, Hc. unfold parse_line. rewrite Hl.
    destruct (Py.split Py.tab line) as [|v0 fields] eqn:Hsplit.
    { by apply split_nonempty in Hsplit. }
    simpl in Hc. rewrite Hc, Hlen, Nat.eqb_refl. cbn [negb].
    rewrite filter_refseq_app.
    rewrite (parse_lines_filtered _ _ _ Hbefore eq_refl), bind_Ok.
    cbn [filter_refseq]. by rewrite (make_genome_lacks _ _ _ _ Hcol). }
  by rewrite Hline.
Qed.

Lemma refseq_flag_needs_the_column_witness :
  _parse_genomes_table genbank_only_table true
  = Raise (KeyError "RefSeq project ID").
Proof.
  apply (refseq_flag_needs_the_column genbank_only_table
           [Py.join Py.tab (header_row ["Project ID"; "Organism Name"])]
           (Py.join Py.tab ["225"; "Escherichia coli"]) []
           {| columns := ["Project ID"; "Organism Name"];
              splitable_columns := ∅; genomes := [] |});
    try by_evaluation.
  intros Hin. repeat (apply elem_of_cons in Hin as [Hin|Hin]; [discriminate|]).
  by apply elem_of_nil in Hin.
Defined.

(** ** What resolution returns *)

Lemma select_genomes_by_ids_Ok (table : string) (ids : list string)
    (matches : gmap string genome) (warnings : list log_record) :
  select_genomes_by_ids table ids = Ok (matches, warnings) →
  ∃ refseq genbank,
    refseq_genomes table = Ok refseq
    ∧ genbank_genomes table = Ok genbank
    ∧ dom refseq ##@{gset string} dom genbank
    ∧ matches = match_ids refseq genbank ids
    ∧ warnings = unmatched_warnings matches ids.
Proof.
  unfold select_genomes_by_ids. intros H.
  apply bind_Ok_inv in H as (refseq & Hr & H).
  apply bind_Ok_inv in H as (genbank & Hg & H).
  destruct (bool_decide (dom refseq ##@{gset string} dom genbank)) eqn:Hd;
    [|done].
  apply bool_decide_eq_true in Hd. simpl in H. inversion H; subst.
  by exists refseq, genbank.
Qed.

Lemma index_by_Some (key : string) (gs : list genome)
    (index : gmap string genome) (k : string) (g : genome) :
  index_by key gs = Ok index → index !! k = Some g →
  g ∈ gs ∧ g !! key = Some (VStr k).
Proof.
  intros Hi Hk. rewrite (index_by_lookup _ _ _ k Hi) in Hk.
  apply last_Some_elem_of in Hk. by apply list_elem_of_filter in Hk as [? ?].
Qed.

Lemma size_list_to_set_le (l : list string) :
  (size (list_to_set l : gset string) ≤ length l)%nat.
Proof.
  induction l as [|x l IH]; simpl; [done|].
  rewrite size_union_alt, size_singleton.
  assert (Hs : (size ((list_to_set l : gset string) ∖ {[x]})
                ≤ size (list_to_set l : gset string))%nat).
  { apply subseteq_size, subseteq_difference_l. done. }
  lia.
Qed.

(** X9. Resolution only hands out what the catalog holds: every entry of
    the returned mapping has a requested ID as key and, as value, a parsed
    record whose RefSeq project ID or Project ID cell is that ID; and there
    are never more entries than requested IDs. *)
Theorem resolved_records_come_from_the_catalog (table : string)
    (ids : list string) (gs : list genome)
    (matches : gmap string genome) (warnings : list log_record) :
  _parse_genomes_table table false = Ok gs →
  select_genomes_by_ids table ids = Ok (matches, warnings) →
  (∀ q g, matches !! q = Some g →
     q ∈ ids ∧ g ∈ gs
     ∧ (g !! "RefSeq project ID" = Some (VStr q)
        ∨ g !! "Project ID" = Some (VStr q)))
  ∧ (size matches ≤ length ids)%nat.
Proof.
  intros Hgs Hsel.
  apply select_genomes_by_ids_Ok in Hsel
    as (refseq & genbank & Hr & Hg & _ & -> & _).
  unfold refseq_genomes in Hr. unfold genbank_genomes in Hg.
  rewrite Hgs in Hr, Hg. rewrite bind_Ok in Hr, Hg.
  assert (Hentry : ∀ q g, match_ids refseq genbank ids !! q = Some g →
     q ∈ ids ∧ g ∈ gs
     ∧ (g !! "RefSeq project ID" = Some (VStr q)
        ∨ g !! "Project ID" = Some (VStr q))).
  { intros q g. rewrite lookup_match_ids.
    destruct (decide (q ∈ ids)) as [Hq|]; [|done].
    destruct (genbank !! q) as [g'|] eqn:Hgq.
    - intros [= ->]. destruct (index_by_Some _ _ _ _ _ Hg Hgq). auto.
    - intros Hrq. destruct (index_by_Some _ _ _ _ _ Hr Hrq). auto. }
  split; [done|].
  rewrite <- size_dom. etrans; [|apply size_list_to_set_le].
  apply subseteq_size. intros q [g Hq]%elem_of_dom.
  apply elem_of_list_to_set. by destruct (Hentry q g Hq).
Qed.

Lemma resolved_records_come_from_the_catalog_witness :
  (size (value_of (∅, []) (select_genomes_by_ids id_table ["57779"; "9"])).1 ≤ 2)%nat.
Proof.
  destruct (resolved_records_come_from_the_catalog id_table ["57779"; "9"]
              (value_of [] (_parse_genomes_table id_table false))
              (value_of (∅, []) (select_genomes_by_ids id_table ["57779"; "9"])).1
              (value_of (∅, []) (select_genomes_by_ids id_table ["57779"; "9"])).2)
    as [_ Hsize].
  - apply is_ok_value_of. by_evaluation.
  - rewrite <- surjective_pairing. apply is_ok_value_of. by_evaluation.
  - exact Hsize.
Defined.

(** X10. Only the set of requested IDs matters to the returned mapping:
    requests listing the same IDs in another order, or some of them more
    than once, get the same mapping (or fail alike). *)
Theorem request_order_is_irrelevant (table : string) (ids1 ids2 : list string) :
  (∀ q, q ∈ ids1 ↔ q ∈ ids2) →
  fst <$> returned (select_genomes_by_ids table ids1)
  = fst <$> returned (select_genomes_by_ids table ids2).
Proof.
  intros Hsame. unfold select_genomes_by_ids.
  destruct (refseq_genomes table) as [refseq|]; [|done].
  destruct (genbank_genomes table) as [genbank|]; [|done].
  rewrite !bind_Ok. destruct (negb _); [done|]. simpl. f_equal.
  apply map_eq. intros q. rewrite !lookup_match_ids.
  by rewrite (decide_ext _ _ _ _ (Hsame q)).
Qed.

Lemma request_order_is_irrelevant_witness :
  fst <$> returned (select_genomes_by_ids id_table ["300"; "57779"; "300"])
  = fst <$> returned (select_genomes_by_ids id_table ["57779"; "300"]).
Proof.
  apply request_order_is_irrelevant. intros q.
  rewrite !elem_of_cons, !elem_of_nil. tauto.
Defined.

Lemma index_into_raises (key : string) (pre : list genome) (g : genome)
    (post : list genome) (acc : gmap string genome) :
  Forall (λ g', ∃ k, g' !! key = Some (VStr k)) pre →
  index_into key acc (pre ++ g :: post)
  = match g !! key with
    | None => Raise (KeyError key)
    | Some (VList _) => Raise (TypeError "unhashable type: 'list'")
    | Some (VStr k) =>
        index_into key acc (pre ++ g :: post)
    end.
Proof.
  revert acc. induction pre as [|g' pre IH]; intros acc Hpre.
  - simpl. by destruct (g !! key) as [[]|].
  - apply Forall_cons in Hpre as [[k Hk] Hpre]. simpl. rewrite Hk.
    rewrite (IH _ Hpre). by destruct (g !! key) as [[]|].
Qed.

(** X11. The two ID columns must be there, as plain text: if the first
    record that has no plain RefSeq project ID cell lacks the cell, every
    resolution raises [KeyError]; if the cell was split into a list
    (the column is declared multi-valued), every resolution raises
    [TypeError]; and likewise for the Project ID column once the RefSeq
    index is built. *)
Theorem id_columns_must_be_plain (table : string) (ids : list string)
    (pre : list genome) (g : genome) (post : list genome) :
  _parse_genomes_table table false = Ok (pre ++ g :: post)%list →
  (Forall (λ g', ∃ k, g' !! "RefSeq project ID" = Some (VStr k)) pre →
     (g !! "RefSeq project ID" = None →
        select_genomes_by_ids table ids = Raise (KeyError "RefSeq project ID"))
     ∧ (∀ l, g !! "RefSeq project ID" = Some (VList l) →
        select_genomes_by_ids table ids
        = Raise (TypeError "unhashable type: 'list'")))
  ∧ (Forall (λ g', ∃ k, g' !! "Project ID" = Some (VStr k)) pre →
     is_ok (refseq_genomes table) = true →
     (g !! "Project ID" = None →
        select_genomes_by_ids table ids = Raise (KeyError "Project ID"))
     ∧ (∀ l, g !! "Project ID" = Some (VList l) →
        select_genomes_by_ids table ids
        = Raise (TypeError "unhashable type: 'list'"))).
Proof.
  intros Hgs. split.
  - intros Hpre. unfold select_genomes_by_ids, refseq_genomes, index_by.
    rewrite Hgs, bind_Ok, (index_into_raises _ _ _ _ _ Hpre).
    split; [by intros -> | by intros l ->].
  - intros Hpre Hok. unfold select_genomes_by_ids.
    destruct (refseq_genomes table) as [refseq|]; [|done].
    unfold genbank_genomes, index_by.
    rewrite bind_Ok, Hgs, bind_Ok, (index_into_raises _ _ _ _ _ Hpre).
    split; [by intros -> | by intros l ->].
Qed.

Lemma id_columns_must_be_plain_witness :
  select_genomes_by_ids genbank_only_table ["225"; "300"]
    = Raise (KeyError "RefSeq project ID")
  ∧ select_genomes_by_ids split_id_table ["225"; "300"]
    = Raise (TypeError "unhashable type: 'list'").
Proof.
  split.
  - destruct (id_columns_must_be_plain genbank_only_table ["225"; "300"] []
                (make_genome
                   (register_columns ["Project ID"; "Organism Name"] ∅).1
                   (register_columns ["Project ID"; "Organism Name"] ∅).2
                   ["225"; "Escherichia coli"]) [])
      as [[Hkey _] _].
    + apply (parse_header_and_rows ["Project ID"; "Organism Name"]
               [["225"; "Escherichia coli"]]); repeat constructor.
    + constructor.
    + apply Hkey. by_evaluation.
  - destruct (id_columns_must_be_plain split_id_table ["225"; "300"] []
                (make_genome
                   (register_columns
                      ["RefSeq project ID (comma separated)"; "Project ID"] ∅).1
                   (register_columns
                      ["RefSeq project ID (comma separated)"; "Project ID"] ∅).2
                   ["57779,57780"; "225"]) [])
      as [[_ Hlist] _].
    + apply (parse_header_and_rows
               ["RefSeq project ID (comma separated)"; "Project ID"]
               [["57779,57780"; "225"]]); repeat constructor.
    + constructor.
    + apply (Hlist ["57779"; "57780"]). by_evaluation.
Defined.

(** ** The identifiers [main] asks for *)

Lemma split_genome_ids_nonempty (genomes_line : string) :
  "" ∉ split_genome_ids genomes_line.
Proof. unfold split_genome_ids. by intros [? _]%list_elem_of_filter. Qed.

(** X12. [main] drops the empty fields of the comma-separated option
    before counting; it exits with status 1, after logging an error, when
    fewer than 2 or more than 40 identifiers are left, and otherwise
    resolves exactly those; so an empty identifier is never resolved and a
    returned mapping has at most 40 entries. *)
Theorem main_selects_two_to_forty (table genomes_line : string) :
  ("" ∉ split_genome_ids genomes_line)
  ∧ ((2 ≤ length (split_genome_ids genomes_line) ≤ 40)%nat →
     main_select table genomes_line
     = Resolved (select_genomes_by_ids table (split_genome_ids genomes_line)))
  ∧ (¬ (2 ≤ length (split_genome_ids genomes_line) ≤ 40)%nat →
     main_select table genomes_line = SystemExit 1 [(ERROR, expected_msg)])
  ∧ (∀ matches warnings,
       main_select table genomes_line = Resolved (Ok (matches, warnings)) →
       matches !! "" = None ∧ (size matches ≤ 40)%nat).
Proof.
  split; [apply split_genome_ids_nonempty|].
  unfold main_select, minimum, maximum.
  destruct (decide (2 ≤ length (split_genome_ids genomes_line) ≤ 40)%nat)
    as [Hin|Hout].
  - assert (negb ((2 <=? length (split_genome_ids genomes_line))%nat
                  && (length (split_genome_ids genomes_line) <=? 40)%nat)
            = false) as ->.
    { apply negb_false_iff, andb_true_iff. rewrite !Nat.leb_le. lia. }
    split; [done|]. split; [done|]. intros matches warnings [= Hsel].
    apply select_genomes_by_ids_Ok in Hsel
      as (refseq & genbank & _ & _ & _ & -> & _).
    split.
    + rewrite lookup_match_ids, decide_False; [done|].
      apply split_genome_ids_nonempty.
    + etrans; [|exact (proj2 Hin)]. rewrite <- size_dom.
      etrans; [|apply size_list_to_set_le]. apply subseteq_size.
      intros q [g Hq]%elem_of_dom. apply elem_of_list_to_set.
      rewrite lookup_match_ids in Hq. by destruct (decide (q ∈ _)).
  - assert (negb ((2 <=? length (split_genome_ids genomes_line))%nat
                  && (length (split_genome_ids genomes_line) <=? 40)%nat)
            = true) as ->.
    { apply negb_true_iff, andb_false_iff. rewrite !Nat.leb_gt. lia. }
    split; [done|]. split; [done|]. by intros matches warnings.
Qed.

Lemma main_selects_two_to_forty_witness :
  main_select id_table "57779,,300,"
    = Resolved (select_genomes_by_ids id_table ["57779"; "300"])
  ∧ main_select id_table ",57779," = SystemExit 1 [(ERROR, expected_msg)].
Proof.
  destruct (main_selects_two_to_forty id_table "57779,,300,") as (_ & Hin & _ & _).
  destruct (main_selects_two_to_forty id_table ",57779,") as (_ & _ & Hout & _).
  split.
  - apply Hin. simpl. lia.
  - apply Hout. simpl. lia.
Defined.

(** X13. The comma-separated option is read back as its non-empty fields,
    in order: for fields that hold no comma, splitting their join gives the
    fields that are not empty. *)
Theorem split_genome_ids_of_join (fields : list string) :
  fields ≠ [] →
  Forall (λ f, Py.has_char ","%char f = false) fields →
  split_genome_ids (Py.join ","%char fields) = filter (λ val, val ≠ "") fields.
Proof.
  intros Hne Hfields. unfold split_genome_ids. by rewrite split_join.
Qed.

Lemma split_genome_ids_of_join_witness :
  split_genome_ids (Py.join ","%char ["13305.1"; ""; "93125.2"])
  = ["13305.1"; "93125.2"].
Proof.
  rewrite split_genome_ids_of_join; [reflexivity|done|repeat constructor].
Defined.

(** ** The loop over the accession codes *)

Section Retrieval_more.

Context {E : Type} `{Outside E}.

Lemma _download_genome_file_Ok (remote_dir filename target_dir : string)
    (w : world E) (path : string) :
  (_download_genome_file remote_dir filename target_dir w).2 = Ok path →
  path = os_path_join target_dir filename.
Proof.
  unfold _download_genome_file.
  destruct (time_time (outside w)) as [now e1].
  destruct (genome_file_outdated _ _ _); [|by intros [= <-]].
  destruct (mkstemp e1 _) as [tmp_file e2].
  destruct (retrbinary e2 _) as [[blocks outcome] e3].
  destruct outcome; [done|]. destruct (_ && _); [|done].
  destruct (shutil_move _ _ _); [by intros [= <-] | done].
Qed.


(** X14. When the loop returns, it returns one triple per accession code,
    in the order of the codes, after the triples it started with: each has
    the project ID, the local path of the [.gbk] file, and either the local
    path of the [.ptt] file or nothing. *)
Theorem one_triple_per_accession (project_dir target_dir projectid : string)
    (accessioncodes : list string) (genome_files result : list genome_file)
    (w w' : world E) :
  download_accessions project_dir target_dir projectid accessioncodes
    genome_files w = (w', Ok result) →
  ∃ ptts : list (option string),
    length ptts = length accessioncodes
    ∧ result
      = (genome_files
         ++ zip_with (λ acc ptt,
                        (projectid, os_path_join target_dir (acc +:+ ".gbk"), ptt))
                     accessioncodes ptts)%list
    ∧ Forall2 (λ acc ptt,
                 ptt = None
                 ∨ ptt = Some (os_path_join target_dir (acc +:+ ".ptt")))
              accessioncodes ptts.
Proof.
  revert genome_files w. induction accessioncodes as [|acc accs IH];
    intros genome_files w Hloop.
  - inversion Hloop; subst. exists []. by rewrite app_nil_r.
  - cbn [download_accessions] in Hloop.
    pose proof (_download_genome_file_Ok project_dir (acc +:+ ".gbk")
                  target_dir w) as Hgbk.
    destruct (_download_genome_file project_dir (acc +:+ ".gbk") target_dir w)
      as [w1 [gbk|err]]; [|done].
    rewrite (Hgbk gbk eq_refl) in Hloop. clear Hgbk.
    pose proof (_download_genome_file_Ok project_dir (acc +:+ ".ptt")
                  target_dir w1) as Hptt.
    destruct (_download_genome_file project_dir (acc +:+ ".ptt") target_dir w1)
      as [w2 [ptt|err]].
    + rewrite (Hptt ptt eq_refl) in Hloop.
      apply IH in Hloop as (ptts & Hlen & -> & Hall).
      exists (Some (os_path_join target_dir (acc +:+ ".ptt")) :: ptts).
      simpl. rewrite Hlen, <- (assoc_L (++)%list).
      split; [done|]. split; [done|]. constructor; [by right | done].
    + destruct (tolerated err); [|done].
      apply IH in Hloop as (ptts & Hlen & -> & Hall).
      exists (None :: ptts).
      simpl. rewrite Hlen, <- (assoc_L (++)%list).
      split; [done|]. split; [done|]. constructor; [by left | done].
Qed.


(** X16. A file fetched within the last 30 days is not fetched again:
    after a transfer that ended normally with content, into a directory
    that is there, a later call for the same file whose clock reading is
    at most 30 days past the file's time sends no command, writes no file
    and logs nothing, and returns the same path. *)
Theorem refetch_is_served_from_cache
    (remote_dir filename target_dir : string) (w : world E)
    (now : Z) (e1 e2 e3 : E) (tmp_file : string) (blocks : list string)
    (later : E) (now' : Z) (later' : E) :
  let out_file := os_path_join target_dir filename in
  let after := (_download_genome_file remote_dir filename target_dir w).1 in
  time_time (outside w) = (now, e1) →
  mkstemp e1 (filename +:+ "_") = (tmp_file, e2) →
  retrbinary e2 ("RETR " +:+ remote_dir +:+ "/" +:+ filename)
    = (blocks, None, e3) →
  genome_file_outdated (files w) now out_file = true →
  tmp_file ≠ out_file →
  foldr String.append "" blocks ≠ "" →
  isdir (files w) out_file = false →
  parent_exists (files w) out_file = true →
  tmp_file ≠ os_path_dirname out_file →
  time_time later = (now', later') →
  (now' - 30 * 24 * 60 * 60 ≤ (time_time e3).1)%Z →
  _download_genome_file remote_dir filename target_dir
    (mk_world later (files after) (logged after))
  = (mk_world later' (files after) (logged after), Ok out_file).
Proof.
  intros out_file after Htime Htmp Hretr Hold Hne Hcontent Hdir Hparent Hne'
    Hlater Hyoung.
  assert (Hfile : files after !! out_file
                  = Some (File (foldr String.append "" blocks) (time_time e3).1)).
  { subst after. unfold _download_genome_file.
    rewrite Htime. fold out_file. rewrite Hold, Htmp, Hretr.
    rewrite isfile_insert_File. cbn [andb].
    assert ((0 <? getsize (File (foldr String.append "" blocks)
                             (time_time e3).1))%Z = true) as ->.
    { apply Z.ltb_lt. simpl. destruct (foldr String.append "" blocks); [done|].
      simpl. lia. }
    rewrite (shutil_move_onto _ _ _
               (File (foldr String.append "" blocks) (time_time e3).1)).
    - simpl. by rewrite lookup_insert_eq.
    - by rewrite lookup_insert_eq.
    - unfold isdir in *. by rewrite !lookup_insert_ne.
    - by rewrite !parent_exists_insert_File. }
  unfold _download_genome_file at 1. cbn [outside files logged].
  rewrite Hlater. fold out_file.
  assert (genome_file_outdated (files after) now' out_file = false) as ->; [|done].
  apply genome_file_outdated_false. eexists. split; [exact Hfile|].
  split; [|exact Hyoung]. simpl.
  destruct (foldr String.append "" blocks); [done|]. simpl. lia.
Qed.

End Retrieval_more.

Lemma one_triple_per_accession_witness :
  ∃ ptts : list (option string),
    length ptts = 2
    ∧ value_of [] (download_accessions "/genomes/Bacteria/none" "cache" "57779"
                     ["NC_1"; "NC_2"] [] demo_world).2
      = zip_with (λ acc ptt, ("57779", os_path_join "cache" (acc +:+ ".gbk"), ptt))
                 ["NC_1"; "NC_2"] ptts.
Proof.
  destruct (one_triple_per_accession "/genomes/Bacteria/none" "cache" "57779"
              ["NC_1"; "NC_2"] []
              (value_of [] (download_accessions "/genomes/Bacteria/none" "cache"
                              "57779" ["NC_1"; "NC_2"] [] demo_world).2)
              demo_world
              (download_accessions "/genomes/Bacteria/none" "cache" "57779"
                 ["NC_1"; "NC_2"] [] demo_world).1)
    as (ptts & Hlen & Hresult & _).
  - etrans; [apply surjective_pairing|].
    apply pair_equal_spec. split; [reflexivity|].
    apply is_ok_value_of. by_evaluation.
  - exists ptts. split; [exact Hlen | exact Hresult].
Defined.


Lemma refetch_is_served_from_cache_witness :
  (_download_genome_file "/genomes/Bacteria/x" "NC_1.gbk" "cache"
     (mk_world 5
        (files (_download_genome_file "/genomes/Bacteria/x" "NC_1.gbk" "cache"
                  demo_world).1)
        (logged (_download_genome_file "/genomes/Bacteria/x" "NC_1.gbk" "cache"
                   demo_world).1))).2
  = Ok "cache/NC_1.gbk".
Proof.
  rewrite (refetch_is_served_from_cache "/genomes/Bacteria/x" "NC_1.gbk" "cache"
             demo_world 2000000000 1 2 3 "/tmp/NC_1.gbk_1" ["LOCUS  "; "NC_1"]
             5 2000000005 6); try by_evaluation; try (vm_compute; discriminate).
Defined.

Section Retrieval_frame.

Context {E : Type} `{Outside E}.

(** X17. Fetching a file touches nothing else: whatever the outcome,
    every path other than the target and the temporary file is as it was
    (for a target that is not a directory), and the log only grows. *)
Theorem other_files_are_left_alone
    (remote_dir filename target_dir : string) (w : world E)
    (now : Z) (e1 e2 : E) (tmp_file : string) :
  let out_file := os_path_join target_dir filename in
  let after := (_download_genome_file remote_dir filename target_dir w).1 in
  time_time (outside w) = (now, e1) →
  mkstemp e1 (filename +:+ "_") = (tmp_file, e2) →
  isdir (files w) out_file = false →
  (∀ path, path ≠ out_file → path ≠ tmp_file →
     files after !! path = files w !! path)
  ∧ (∃ more, logged after = (logged w ++ more)%list).
Proof.
  intros out_file after Htime Htmp Hdir. subst after.
  unfold _download_genome_file. rewrite Htime. fold out_file.
  destruct (genome_file_outdated (files w) now out_file).
  2:{ split; [done|]. exists []. by rewrite app_nil_r. }
  rewrite Htmp.
  destruct (retrbinary e2 _) as [[blocks outcome] e3].
  set (written := File (foldr String.append "" blocks) (time_time e3).1).
  assert (Hother : ∀ path, path ≠ out_file → path ≠ tmp_file →
            (<[tmp_file := written]> (<[tmp_file := File "" now]> (files w)))
              !! path = files w !! path).
  { intros path _ Hp. by rewrite !lookup_insert_ne. }
  destruct outcome as [err|]; [by split; [|eauto]|].
  destruct (isfile _ tmp_file && _); [|by split; [|eauto]].
  unfold shutil_move. rewrite lookup_insert_eq.
  assert (isdir (<[tmp_file := written]> (<[tmp_file := File "" now]> (files w)))
                out_file = false) as ->.
  { unfold isdir in *. destruct (decide (tmp_file = out_file)) as [->|Hne].
    - by rewrite lookup_insert_eq.
    - by rewrite !lookup_insert_ne. }
  destruct (parent_exists _ out_file); [|by split; [|eauto]].
  split; [|by eauto]. intros path Hout Htmp'. cbn [fst files].
  rewrite lookup_insert_ne, lookup_delete_ne by done. by apply Hother.
Qed.

End Retrieval_frame.

Lemma other_files_are_left_alone_witness :
  files (_download_genome_file "/genomes/Bacteria/x" "NC_1.gbk" "cache"
           demo_world).1 !! "cache/NC_9.gbk"
  = files demo_world !! "cache/NC_9.gbk".
Proof.
  destruct (other_files_are_left_alone "/genomes/Bacteria/x" "NC_1.gbk" "cache"
              demo_world 2000000000 1 2 "/tmp/NC_1.gbk_1") as [Hother _];
    [by_evaluation | by_evaluation | by_evaluation |].
  apply Hother; vm_compute; discriminate.
Defined.

(** ** Finding the project directory *)

Lemma find_first {A} (p : A → bool) (l : list A) :
  match find p l with
  | Some x => ∃ pre post, l = (pre ++ x :: post)%list ∧ p x = true
                          ∧ Forall (λ y, p y = false) pre
  | None => Forall (λ y, p y = false) l
  end.
Proof.
  induction l as [|y l IH]; simpl; [constructor|].
  destruct (p y) eqn:Hy.
  - exists [], l. by repeat split.
  - destruct (find p l) as [x|].
    + destruct IH as (pre & post & -> & Hx & Hpre).
      exists (y :: pre), post. repeat split; [done|]. by constructor.
    + by constructor.
Qed.

(** X18. [_find_project_dir] returns the first entry of the listing that
    ends in [_uid] followed by the project ID, and [None] exactly when no
    entry does; an exception of the listing is passed on. *)
Theorem find_project_dir_first_match {E} `{Listing E}
    (base_dir projectid : string) (ftp : E) :
  (∀ listing ftp', nlst ftp base_dir = (Ok listing, ftp') →
     ∃ found, _find_project_dir base_dir projectid ftp = (Ok found, ftp')
     ∧ match found with
       | Some dir =>
           ∃ pre post, listing = (pre ++ dir :: post)%list
             ∧ Py.endswith dir ("_uid" +:+ projectid) = true
             ∧ Forall (λ f, Py.endswith f ("_uid" +:+ projectid) = false) pre
       | None =>
           Forall (λ f, Py.endswith f ("_uid" +:+ projectid) = false) listing
       end)
  ∧ (∀ err ftp', nlst ftp base_dir = (Raise err, ftp') →
       _find_project_dir base_dir projectid ftp = (Raise err, ftp')).
Proof.
  unfold _find_project_dir. split.
  - intros listing ftp' ->. eexists. split; [reflexivity|].
    apply (find_first (λ f, Py.endswith f ("_uid" +:+ projectid))).
  - by intros err ftp' ->.
Qed.

Lemma list_ascii_of_string_inj (a b : string) :
  list_ascii_of_string a = list_ascii_of_string b → a = b.
Proof.
  intros Hab. rewrite <- (string_of_list_ascii_of_string a),
                      <- (string_of_list_ascii_of_string b). by rewrite Hab.
Qed.

Lemma numeric_id_has_no_d (projectid : string) :
  is_numeric_id projectid = true →
  ¬ In "d"%char (list_ascii_of_string projectid).
Proof.
  unfold is_numeric_id. intros Hnum Hin. rewrite forallb_forall in Hnum.
  specialize (Hnum _ Hin). vm_compute in Hnum. discriminate Hnum.
Qed.

(** If two lists end in [d] followed by tails without any [d] and the whole
    lists are equal, the tails are equal. *)
Lemma tails_after_d (a b p q : list ascii) :
  ((a ++ ["d"%char]) ++ p = (b ++ ["d"%char]) ++ q)%list →
  ¬ In "d"%char p → ¬ In "d"%char q → p = q.
Proof.
  intros Heq Hp Hq. apply app_eq_app in Heq as [l [[Ha Hl]|[Hb Hl]]].
  - destruct l as [|c l _] using rev_ind; [done|]. exfalso.
    rewrite (assoc_L (++)%list) in Ha. apply app_inj_tail in Ha as [_ <-].
    apply Hq. rewrite Hl. apply in_or_app. left. apply in_or_app. right. by left.
  - destruct l as [|c l _] using rev_ind; [done|]. exfalso.
    rewrite (assoc_L (++)%list) in Hb. apply app_inj_tail in Hb as [_ <-].
    apply Hp. rewrite Hl. apply in_or_app. left. apply in_or_app. right. by left.
Qed.

(** X19. The suffix test cannot mistake one numeric project ID for
    another: a directory name that ends in [_uid] followed by one ID made
    of digits and dots does not end in [_uid] followed by a different such
    ID, so the directory found for project 225 is never that of project
    1225. *)
Theorem numeric_ids_do_not_cross_match (dir p q : string) :
  is_numeric_id p = true →
  is_numeric_id q = true →
  Py.endswith dir ("_uid" +:+ p) = true →
  Py.endswith dir ("_uid" +:+ q) = true →
  p = q.
Proof.
  intros Hp Hq [a Ha]%endswith_spec [b Hb]%endswith_spec.
  rewrite Ha in Hb. apply (f_equal list_ascii_of_string) in Hb.
  rewrite !append_as_list in Hb.
  change (list_ascii_of_string "_uid")
    with (list_ascii_of_string "_ui" ++ ["d"%char])%list in Hb.
  rewrite !(assoc_L (++)%list) in Hb.
  apply list_ascii_of_string_inj.
  eapply tails_after_d; [exact Hb | |]; by apply numeric_id_has_no_d.
Qed.

Lemma numeric_ids_do_not_cross_match_witness :
  (_find_project_dir "/genomes/Bacteria" "225" tt).1
    = Ok (Some "/genomes/Bacteria/Escherichia_coli_K_12_uid225")
  ∧ Py.endswith "/genomes/Bacteria/Escherichia_coli_K_12_uid225" "_uid225" = true
  ∧ "225" = "225".
Proof.
  split; [reflexivity|]. split; [reflexivity|].
  apply (numeric_ids_do_not_cross_match
           "/genomes/Bacteria/Escherichia_coli_K_12_uid225" "225" "225");
    reflexivity.
Defined.

Example binning_by_kingdom_and_group :
  (λ tree, lookup_bins (Bins tree) ["Bacteria"; "Gammaproteobacteria"]
           ≫= λ col, Some (map (.!! "Project ID") col))
    <$> returned (gs ← _parse_genomes_table kingdom_table false;
                  _bin_using_keyfunctions gs
                    [itemgetter "Super Kingdom"; itemgetter "Group"])
  = Some (Some [Some (VStr "225"); Some (VStr "302")]).
Proof. by_evaluation. Qed.

(** ** Binning *)

Lemma mapM_list_Ok {A B} (f : A → result B) (g : A → B) (l : list A) :
  (∀ x, x ∈ l → f x = Ok (g x)) → mapM_list f l = Ok (map g l).
Proof.
  induction l as [|x l IH]; intros Hf; [done|].
  simpl. rewrite (Hf x) by (apply elem_of_cons; by left).
  rewrite bind_Ok, IH; [done|]. intros y Hy. apply Hf, elem_of_cons. by right.
Qed.

Lemma mapM_list_Ok_inv {A B} (f : A → result B) (l : list A) (l' : list B) :
  mapM_list f l = Ok l' → Forall2 (λ x y, f x = Ok y) l l'.
Proof.
  revert l'. induction l as [|x l IH]; simpl; intros l' Hl.
  - inversion Hl. constructor.
  - apply bind_Ok_inv in Hl as (y & Hy & Hl).
    apply bind_Ok_inv in Hl as (ys & Hys & [= <-]).
    constructor; [done | by apply IH].
Qed.

Lemma mapM_map_Ok {A B} (f : A → result B) (g : A → B) (m : gmap string A) :
  (∀ k v, m !! k = Some v → f v = Ok (g v)) → mapM_map f m = Ok (g <$> m).
Proof.
  intros Hf. unfold mapM_map.
  rewrite (mapM_list_Ok _ (prod_map id g)).
  - rewrite bind_Ok. f_equal.
    change (map (prod_map id g) (map_to_list m))
      with (prod_map id g <$> map_to_list m).
    by rewrite list_to_map_fmap, list_to_map_to_list.
  - intros [k v] Hkv%elem_of_map_to_list. simpl. by rewrite (Hf k v Hkv).
Qed.

Lemma mapM_map_lookup {A B} (f : A → result B) (m : gmap string A)
    (m' : gmap string B) (k : string) :
  mapM_map f m = Ok m' →
  match m !! k with
  | Some v => ∃ v', f v = Ok v' ∧ m' !! k = Some v'
  | None => m' !! k = None
  end.
Proof.
  unfold mapM_map. intros Hm.
  apply bind_Ok_inv in Hm as (kvs & Hkvs & [= <-]).
  apply mapM_list_Ok_inv in Hkvs.
  assert (Hfst : kvs.*1 = (map_to_list m).*1).
  { clear -Hkvs. induction Hkvs as [|x y l l' Hx _ IH]; [done|].
    apply bind_Ok_inv in Hx as (w & _ & [= <-]).
    rewrite !fmap_cons. simpl. by rewrite IH. }
  destruct (m !! k) as [v|] eqn:Hk.
  - apply elem_of_map_to_list, list_elem_of_lookup in Hk as [i Hi].
    destruct (Forall2_lookup_l _ _ _ _ _ Hkvs Hi) as ([k' v'] & Hin & Hf).
    apply list_elem_of_lookup_2 in Hin. simpl in Hf. apply bind_Ok_inv in Hf as (w & Hw & [= <- <-]).
    exists w. split; [done|]. apply elem_of_list_to_map; [|done].
    rewrite Hfst. apply NoDup_fst_map_to_list.
  - apply not_elem_of_list_to_map. rewrite Hfst.
    intros ([k' v] & -> & Hin%elem_of_map_to_list)%list_elem_of_fmap.
    simpl in Hk. congruence.
Qed.

Lemma group_into_lookup (key_of : keyfunction) (genomes : list genome)
    (acc binned : gmap string (list genome)) (k : string) :
  group_into key_of acc genomes = Ok binned →
  (∀ k' l, acc !! k' = Some l → l ≠ []) →
  binned !! k
  = match (default [] (acc !! k) ++ filter (λ g, key_of g = Ok k) genomes)%list with
    | [] => None
    | col => Some col
    end.
Proof.
  revert acc. induction genomes as [|g rest IH]; simpl; intros acc Hg Hacc.
  - inversion Hg; subst. rewrite filter_nil, app_nil_r.
    destruct (binned !! k) as [[|x l]|] eqn:Hk; [|done..].
    by destruct (Hacc k [] Hk).
  - apply bind_Ok_inv in Hg as (key & Hkey & Hg).
    rewrite (IH _ Hg).
    2:{ intros k' l. rewrite lookup_insert. case_decide; [|by apply Hacc].
        intros [= <-]. by destruct (default [] (acc !! key)). }
    rewrite filter_cons. destruct (decide (key = k)) as [->|Hne].
    + rewrite lookup_insert_eq, decide_True by done. simpl.
      by rewrite <- (assoc_L (++)%list).
    + rewrite lookup_insert_ne, decide_False by congruence. done.
Qed.

Lemma leb_refl (s : string) : String.leb s s = true.
Proof. by destruct (String.leb_total s s). Qed.

(** Sorting a list whose elements all have the same key changes nothing. *)
Lemma sorted_by_key_constant (key_of : keyfunction) (col : list genome)
    (k : string) :
  (∀ g, g ∈ col → key_of g = Ok k) → sorted_by_key key_of col = Ok col.
Proof.
  intros Hk. unfold sorted_by_key.
  rewrite (mapM_list_Ok _ (λ g, (k, g))).
  2:{ intros g Hg. by rewrite (Hk g Hg). }
  rewrite bind_Ok. f_equal. clear Hk.
  assert (Hsame : foldr (λ kg acc, insert_by_key kg.1 kg.2 acc) []
                    (map (λ g, (k, g)) col) = map (λ g, (k, g)) col).
  { induction col as [|g col IH]; [done|]. cbn [map foldr]. rewrite IH.
    destruct col as [|g' col]; [done|].
    cbn [map insert_by_key fst snd]. by rewrite leb_refl. }
  rewrite Hsame, map_map. simpl. apply map_id.
Qed.

Lemma _bin_according_to_keyfunction_lookup (genomes : list genome)
    (key_of : keyfunction) (binned : gmap string (list genome)) (k : string) :
  _bin_according_to_keyfunction genomes key_of = Ok binned →
  binned !! k
  = match filter (λ g, key_of g = Ok k) genomes with
    | [] => None
    | col => Some col
    end.
Proof.
  unfold _bin_according_to_keyfunction. intros Hb.
  apply bind_Ok_inv in Hb as (grouped & Hgrouped & Hsorted).
  pose proof (λ k, group_into_lookup _ _ _ _ k Hgrouped
                     ltac:(intros ? ?; by rewrite lookup_empty)) as Hlookup.
  rewrite (mapM_map_Ok _ id) in Hsorted.
  - inversion Hsorted; subst. rewrite map_fmap_id, Hlookup, lookup_empty. done.
  - intros k' col Hcol. apply (sorted_by_key_constant _ _ k').
    intros g Hg. rewrite Hlookup, lookup_empty in Hcol. simpl in Hcol.
    destruct (filter _ genomes) as [|x l] eqn:Hf; [done|].
    inversion Hcol; subst col. rewrite <- Hf in Hg.
    by apply list_elem_of_filter in Hg as [? _].
Qed.

Lemma key_path_cons (key_of : keyfunction) (further : list keyfunction)
    (g : genome) (k : string) (path : list string) :
  key_path (key_of :: further) g = Ok (k :: path)
  ↔ key_of g = Ok k ∧ key_path further g = Ok path.
Proof.
  unfold key_path. simpl. split.
  - intros H. apply bind_Ok_inv in H as (k' & Hk & H).
    apply bind_Ok_inv in H as (path' & Hp & [= <- <-]). done.
  - intros [-> Hp]. rewrite bind_Ok. unfold key_path in Hp. by rewrite Hp.
Qed.

Lemma bins_lookup (keyfunctions : list keyfunction) (genomes : list genome)
    (tree : gmap string bins) (path : list string) :
  _bin_using_keyfunctions genomes keyfunctions = Ok tree →
  length path = length keyfunctions →
  lookup_bins (Bins tree) path
  = match filter (λ g, key_path keyfunctions g = Ok path) genomes with
    | [] => None
    | col => Some col
    end.
Proof.
  revert genomes tree path.
  induction keyfunctions as [|key_of further IH]; intros genomes tree path;
    [done|].
  cbn [_bin_using_keyfunctions]. intros Htree Hlen.
  apply bind_Ok_inv in Htree as (binned & Hbinned & Htree).
  destruct path as [|k path]; [done|]. simpl in Hlen.
  pose proof (_bin_according_to_keyfunction_lookup _ _ _ k Hbinned) as Hk.
  assert (Hfilter : filter (λ g, key_path (key_of :: further) g = Ok (k :: path))
                      genomes
                    = filter (λ g, key_path further g = Ok path)
                        (filter (λ g, key_of g = Ok k) genomes)).
  { rewrite list_filter_filter. apply list_filter_iff. intros g.
    rewrite key_path_cons. tauto. }
  rewrite Hfilter. cbn [lookup_bins].
  destruct further as [|key_of' further].
  - inversion Htree; subst tree. rewrite lookup_fmap, Hk.
    destruct path; [|done].
    assert (Hall : ∀ l : list genome,
              filter (λ g, key_path [] g = Ok []) l = l).
    { intros l. induction l as [|x l IHl]; [done|].
      by rewrite filter_cons_True, IHl. }
    rewrite Hall. by destruct (filter _ genomes).
  - pose proof (mapM_map_lookup _ _ _ k Htree) as Hsub. rewrite Hk in Hsub.
    destruct (filter (λ g, key_of g = Ok k) genomes) as [|x subset] eqn:Hsubset.
    + rewrite Hsub. done.
    + destruct Hsub as (child & Hchild & ->).
      apply bind_Ok_inv in Hchild as (sub & Hrec & [= <-]). simpl.
      apply (IH _ _ path Hrec). lia.
Qed.

(** X20. Binning is a stable partition: in the nested dictionaries that
    [_bin_using_keyfunctions] returns, the list found under a sequence of
    keys holds exactly the genomes that have these keys under the key
    functions, in the order in which they were passed in (so sorting each
    bin by its own key never moves anything), and a sequence of keys that no
    genome has is not in the dictionaries. *)
Theorem binning_is_a_stable_partition (keyfunctions : list keyfunction)
    (genomes : list genome) (tree : gmap string bins) (path : list string) :
  _bin_using_keyfunctions genomes keyfunctions = Ok tree →
  length path = length keyfunctions →
  lookup_bins (Bins tree) path
  = match filter (λ g, key_path keyfunctions g = Ok path) genomes with
    | [] => None
    | col => Some col
    end.
Proof. apply bins_lookup. Qed.

Lemma binning_is_a_stable_partition_witness :
  lookup_bins (Bins kingdom_bins) ["Bacteria"; "Gammaproteobacteria"]
  = match filter (λ g, key_path [itemgetter "Super Kingdom"; itemgetter "Group"] g
                       = Ok ["Bacteria"; "Gammaproteobacteria"])
                 kingdom_genomes with
    | [] => None
    | col => Some col
    end.
Proof.
  apply (binning_is_a_stable_partition
           [itemgetter "Super Kingdom"; itemgetter "Group"] kingdom_genomes).
  - apply is_ok_value_of. by_evaluation.
  - reflexivity.
Defined.

Lemma group_into_keys (key_of : keyfunction) (genomes : list genome)
    (acc binned : gmap string (list genome)) (g : genome) :
  group_into key_of acc genomes = Ok binned → g ∈ genomes →
  ∃ k, key_of g = Ok k.
Proof.
  revert acc. induction genomes as [|g' rest IH]; simpl; intros acc Hg Hin.
  - by apply elem_of_nil in Hin.
  - apply bind_Ok_inv in Hg as (key & Hkey & Hg).
    apply elem_of_cons in Hin as [->|Hin]; [eauto | by eapply IH].
Qed.

Lemma bins_keys (keyfunctions : list keyfunction) (genomes : list genome)
    (tree : gmap string bins) (g : genome) :
  _bin_using_keyfunctions genomes keyfunctions = Ok tree → g ∈ genomes →
  ∃ path, key_path keyfunctions g = Ok path.
Proof.
  revert genomes tree.
  induction keyfunctions as [|key_of further IH]; intros genomes tree; [done|].
  cbn [_bin_using_keyfunctions]. intros Htree Hin.
  apply bind_Ok_inv in Htree as (binned & Hbinned & Htree).
  assert (∃ k, key_of g = Ok k) as [k Hk].
  { unfold _bin_according_to_keyfunction in Hbinned.
    apply bind_Ok_inv in Hbinned as (grouped & Hgrouped & _).
    by eapply group_into_keys. }
  destruct further as [|key_of' further].
  - exists [k]. apply key_path_cons. by split.
  - pose proof (mapM_map_lookup _ _ _ k Htree) as Hsub.
    rewrite (_bin_according_to_keyfunction_lookup _ _ _ k Hbinned) in Hsub.
    assert (Hg : g ∈ filter (λ g, key_of g = Ok k) genomes)
      by by apply list_elem_of_filter.
    destruct (filter (λ g, key_of g = Ok k) genomes) as [|x subset] eqn:Hsubset.
    { by apply elem_of_nil in Hg. }
    destruct Hsub as (child & Hchild & _).
    apply bind_Ok_inv in Hchild as (sub & Hrec & _).
    destruct (IH _ _ Hrec Hg) as [path Hpath].
    exists (k :: path). apply key_path_cons. by split.
Qed.

Lemma key_path_length (keyfunctions : list keyfunction) (g : genome)
    (path : list string) :
  key_path keyfunctions g = Ok path → length path = length keyfunctions.
Proof.
  unfold key_path. intros H. apply mapM_list_Ok_inv in H.
  symmetry. by eapply Forall2_length.
Qed.

(** X21. Binning loses no genome: when [_bin_using_keyfunctions] returns,
    every genome passed in has a key under each key function and is in the
    list found under these keys. *)
Theorem binning_loses_no_genome (keyfunctions : list keyfunction)
    (genomes : list genome) (tree : gmap string bins) (g : genome) :
  _bin_using_keyfunctions genomes keyfunctions = Ok tree →
  g ∈ genomes →
  ∃ path col,
    key_path keyfunctions g = Ok path
    ∧ lookup_bins (Bins tree) path = Some col
    ∧ g ∈ col.
Proof.
  intros Htree Hin. destruct (bins_keys _ _ _ _ Htree Hin) as [path Hpath].
  pose proof (bins_lookup _ _ _ path Htree (key_path_length _ _ _ Hpath))
    as Hlookup.
  assert (Hg : g ∈ filter (λ g, key_path keyfunctions g = Ok path) genomes)
    by by apply list_elem_of_filter.
  exists path. destruct (filter _ genomes) as [|x col] eqn:Hcol.
  - by apply elem_of_nil in Hg.
  - by exists (x :: col).
Qed.

Lemma binning_loses_no_genome_witness :
  ∃ path col,
    key_path [itemgetter "Super Kingdom"; itemgetter "Group"]
      (make_genome ["Project ID"; "Super Kingdom"; "Group"] ∅
         ["300"; "Archaea"; "Crenarchaeota"]) = Ok path
    ∧ lookup_bins (Bins kingdom_bins) path = Some col
    ∧ make_genome ["Project ID"; "Super Kingdom"; "Group"] ∅
        ["300"; "Archaea"; "Crenarchaeota"] ∈ col.
Proof.
  apply (binning_loses_no_genome
           [itemgetter "Super Kingdom"; itemgetter "Group"] kingdom_genomes).
  - apply is_ok_value_of. by_evaluation.
  - unfold kingdom_genomes, kingdom_table.
    rewrite (parse_header_and_rows ["Project ID"; "Super Kingdom"; "Group"]);
      [|repeat constructor..].
    cbn [value_of map].
    assert (Hreg : register_columns ["Project ID"; "Super Kingdom"; "Group"] ∅
                   = (["Project ID"; "Super Kingdom"; "Group"], ∅))
      by by_evaluation.
    rewrite Hreg. apply elem_of_cons. right. apply elem_of_cons. by left.
Defined.

(** ** The cache directory *)

Lemma create_directory_existing (resource_filename : string → string)
    (makedirs makedirs' : filesystem → string → option exn * filesystem)
    (dirname inside_dir : string) (fs fs' : filesystem) (directory : string) :
  (create_directory resource_filename makedirs dirname inside_dir fs).1
    = Ok directory →
  isdir fs' directory = true →
  create_directory resource_filename makedirs' dirname inside_dir fs'
    = (Ok directory, fs').
Proof.
  unfold create_directory, isdir.
  destruct (os_path_join inside_dir dirname) as [|c rest]; [done|].
  set (filename := if negb (Ascii.eqb c "/")
                   then resource_filename (String c rest) else String c rest).
  intros Hdir Hthere.
  assert (directory = filename) as ->.
  { destruct (fs !! filename) as [[]|]; [done | by inversion Hdir |].
    destruct (makedirs fs filename) as [[err|] fs1]; by inversion Hdir. }
  by destruct (fs' !! filename) as [[]|].
Qed.

(** X22. [create_directory] makes the directory only if nothing is there.
    On a system where [os.makedirs] leaves a directory when it succeeds:
    when the call returns a path, a directory is there; if something was
    there before, the file system is untouched; and a second call returns
    the same path and changes nothing, whatever [os.makedirs] would do
    then.  When the call raises, the file system is untouched unless it was
    [os.makedirs] that raised: an empty path raises [IndexError], and a
    regular file at the path (which [resource_filename] resolves unless it
    starts with a slash) raises [IOError] with a message in which the
    placeholder [{0}] was never filled in. *)
Theorem create_directory_once (resource_filename : string → string)
    (makedirs makedirs' : filesystem → string → option exn * filesystem)
    (dirname inside_dir : string) (fs : filesystem) :
  let first := create_directory resource_filename makedirs dirname inside_dir fs in
  (∀ fs0 path fs1, makedirs fs0 path = (None, fs1) → isdir fs1 path = true) →
  (∀ path, first.1 = Ok path →
     isdir first.2 path = true
     ∧ (is_Some (fs !! path) → first.2 = fs)
     ∧ create_directory resource_filename makedirs' dirname inside_dir first.2
       = (Ok path, first.2))
  ∧ (∀ err, first.1 = Raise err →
       first.2 = fs
       ∨ ∃ path, fs !! path = None ∧ makedirs fs path = (Some err, first.2))
  ∧ (os_path_join inside_dir dirname = "" →
     first = (Raise (IndexError "string index out of range"), fs))
  ∧ (∀ c rest data mtime,
       os_path_join inside_dir dirname = String c rest →
       fs !! (if Ascii.eqb c "/" then String c rest
              else resource_filename (String c rest)) = Some (File data mtime) →
       first = (Raise (IOError ("Could not create directory {0}"
                                  +:+ String Py.newline
                                        "A file with that name already exists.")),
                fs)).
Proof.
  intros first Hmakedirs.
  assert (Hthere : ∀ path, first.1 = Ok path →
            isdir first.2 path = true ∧ (is_Some (fs !! path) → first.2 = fs)).
  { subst first. unfold create_directory.
    destruct (os_path_join inside_dir dirname) as [|c rest]; [done|].
    set (filename := if negb (Ascii.eqb c "/")
                     then resource_filename (String c rest) else String c rest).
    destruct (fs !! filename) as [[data t|sz t]|] eqn:Hfs; cbn [fst snd].
    - done.
    - intros path [= <-]. unfold isdir. by rewrite Hfs.
    - destruct (makedirs fs filename) as [[err|] fs1] eqn:Hmk; [done|].
      cbn [fst snd]. intros path [= <-]. split; [by eapply Hmakedirs|].
      rewrite Hfs. by intros [? [=]]. }
  split; [|split; [|split]].
  - intros path Hpath. destruct (Hthere path Hpath) as [Hdir Hsame].
    split; [done|]. split; [done|].
    by eapply create_directory_existing.
  - subst first. unfold create_directory.
    destruct (os_path_join inside_dir dirname) as [|c rest]; [by left|].
    set (filename := if negb (Ascii.eqb c "/")
                     then resource_filename (String c rest) else String c rest).
    destruct (fs !! filename) as [[data t|sz t]|] eqn:Hfs; cbn [fst snd];
      [by left | by left |].
    destruct (makedirs fs filename) as [[err|] fs1] eqn:Hmk; [|done].
    cbn [fst snd]. intros ? [= <-]. right. by exists filename.
  - intros Hjoin. subst first. unfold create_directory. by rewrite Hjoin.
  - intros c rest data mtime Hjoin Hfile. subst first. unfold create_directory.
    rewrite Hjoin. destruct (Ascii.eqb c "/"); cbn [negb]; by rewrite Hfile.
Qed.

Lemma create_directory_once_witness :
  (create_directory demo_resource_filename demo_makedirs "refseq/225"
     BASE_OUTPUT_PATH
     (create_directory demo_resource_filename demo_makedirs "refseq/225"
        BASE_OUTPUT_PATH ∅).2).1
  = Ok "/opt/divergence/../divergence-cache/refseq/225"
  ∧ (create_directory demo_resource_filename demo_makedirs "refseq/225"
       BASE_OUTPUT_PATH
       {[ "/opt/divergence/../divergence-cache/refseq/225"
            := File "in the way" 1990000000 ]}).1
    = Raise (IOError ("Could not create directory {0}"
                        +:+ String Py.newline
                              "A file with that name already exists.")).
Proof.
  split.
  - destruct (create_directory_once demo_resource_filename demo_makedirs
                demo_makedirs "refseq/225" BASE_OUTPUT_PATH ∅) as [Hok _].
    + intros fs0 path fs1 [= <-]. unfold isdir. by rewrite lookup_insert_eq.
    + destruct (Hok "/opt/divergence/../divergence-cache/refseq/225")
        as (_ & _ & Hagain); [by_evaluation|].
      by rewrite Hagain.
  - destruct (create_directory_once demo_resource_filename demo_makedirs
                demo_makedirs "refseq/225" BASE_OUTPUT_PATH
                {[ "/opt/divergence/../divergence-cache/refseq/225"
                     := File "in the way" 1990000000 ]})
      as (_ & _ & _ & Hfile).
    + intros fs0 path fs1 [= <-]. unfold isdir. by rewrite lookup_insert_eq.
    + rewrite (Hfile "."%char "./divergence-cache/refseq/225" "in the way"
                 1990000000%Z); [reflexivity | by_evaluation | by_evaluation].
Defined.

(** ** The catalog copy *)

Section Catalog_copy.

Context {E : Type} `{Outside E} `{Web E}.
Variable codec : codecs.
Variable resource_filename : string → string.
Variable makedirs : filesystem → string → option exn * filesystem.

(** X23. The catalog copy is served for 24 hours: when a call had to
    download, it returns the decoded body, and a later call whose clock
    reads at most 24 hours past the time of the copy returns the same text
    without any request and without touching a file, provided UTF-8
    decoding undoes UTF-8 encoding. *)
Theorem catalog_copy_round_trip (w : world E) (directory : string)
    (e1 e2 : E) (body : string) (later : E) (now' : Z) (later' : E) :
  let made := create_directory resource_filename makedirs "." BASE_OUTPUT_PATH
                (files w) in
  let genome_table := os_path_join directory "complete-genomes-table.tsv" in
  let first := _download_genomes_table codec resource_filename makedirs w in
  (∀ text, decode_utf_8 codec (encode_utf_8 codec text) = Ok text) →
  made.1 = Ok directory →
  isdir made.2 directory = true →
  table_needs_refresh made.2 genome_table (outside w) = (true, e1) →
  isdir made.2 genome_table = false →
  http_request e1 genomes_url = (Ok body, e2) →
  time_time later = (now', later') →
  (now' - 24 * 60 * 60 ≤ (time_time e2).1)%Z →
  first.2 = Ok (decode_iso_8859_1 codec body)
  ∧ _download_genomes_table codec resource_filename makedirs
      (mk_world later (files first.1) (logged first.1))
    = (mk_world later' (files first.1) (logged first.1),
       Ok (decode_iso_8859_1 codec body)).
Proof.
  intros made genome_table first Hcodec Hdir Hthere Hrefresh Hnotdir Hweb
    Hlater Hyoung.
  assert (Hfirst : first
            = (mk_world e2
                 (<[genome_table := File (encode_utf_8 codec
                                            (decode_iso_8859_1 codec body))
                                         (time_time e2).1]> made.2) (logged w),
               Ok (decode_iso_8859_1 codec body))).
  { subst first. unfold _download_genomes_table. fold made.
    rewrite (surjective_pairing made), Hdir. fold genome_table.
    by rewrite Hrefresh, Hweb, Hnotdir. }
  rewrite Hfirst. cbn [fst snd files logged]. split; [done|].
  unfold _download_genomes_table. cbn [outside files logged].
  rewrite (create_directory_existing _ makedirs makedirs _ _ (files w) _ directory);
    [|done|].
  2:{ unfold isdir in *. destruct (decide (genome_table = directory)) as [Heq|Hne].
      - rewrite Heq in Hnotdir. congruence.
      - by rewrite lookup_insert_ne. }
  fold genome_table. unfold table_needs_refresh.
  rewrite isfile_insert_File. cbn [negb]. rewrite Hlater.
  unfold genomes_table_outdated. rewrite lookup_insert_eq.
  assert (((time_time e2).1 <? now' - time_between_downloads)%Z = false) as ->.
  { apply Z.ltb_ge. unfold time_between_downloads. lia. }
  by rewrite Hcodec.
Qed.

(** X24. A refresh that fails is fatal even with an old copy at hand: when
    the copy is missing or older than 24 hours and the request raises, the
    call raises the same exception instead of reading the old copy, and the
    files are as [create_directory] left them. *)
Theorem failed_refresh_is_fatal (w : world E) (directory : string)
    (e1 e2 : E) (err : exn) :
  let made := create_directory resource_filename makedirs "." BASE_OUTPUT_PATH
                (files w) in
  let genome_table := os_path_join directory "complete-genomes-table.tsv" in
  made.1 = Ok directory →
  table_needs_refresh made.2 genome_table (outside w) = (true, e1) →
  http_request e1 genomes_url = (Raise err, e2) →
  _download_genomes_table codec resource_filename makedirs w
  = (mk_world e2 made.2 (logged w), Raise err).
Proof.
  intros made genome_table Hdir Hrefresh Hweb.
  unfold _download_genomes_table. fold made.
  rewrite (surjective_pairing made), Hdir. fold genome_table.
  by rewrite Hrefresh, Hweb.
Qed.

End Catalog_copy.

Lemma catalog_copy_round_trip_witness :
  let first := _download_genomes_table ascii_codecs demo_resource_filename
                 demo_makedirs demo_world in
  first.2 = Ok sample_table
  ∧ (_download_genomes_table ascii_codecs demo_resource_filename demo_makedirs
       (mk_world 5 (files first.1) (logged first.1))).2 = Ok sample_table.
Proof.
  intros first.
  destruct (catalog_copy_round_trip ascii_codecs demo_resource_filename
              demo_makedirs demo_world "/opt/divergence/../divergence-cache/."
              0%nat 1%nat sample_table 5%nat 2000000005 6%nat)
    as [Hfirst Hsecond];
    [done | by_evaluation | by_evaluation | by_evaluation | by_evaluation
    | by_evaluation | by_evaluation | vm_compute; discriminate |].
  split; [exact Hfirst|]. fold first in Hsecond. by rewrite Hsecond.
Defined.

Lemma failed_refresh_is_fatal_witness :
  (_download_genomes_table ascii_codecs demo_resource_filename demo_makedirs
     (mk_world 100 (files demo_world) [])).2
  = Raise (socket_error "Connection refused").
Proof.
  rewrite (failed_refresh_is_fatal ascii_codecs demo_resource_filename
             demo_makedirs (mk_world 100 (files demo_world) [])
             "/opt/divergence/../divergence-cache/." 100%nat 101%nat
             (socket_error "Connection refused")); by_evaluation.
Defined.

(** ** Finding and fetching a genome *)

Lemma append_nil_r (s : string) : s +:+ "" = s.
Proof.
  induction s as [|c s IH]; [done|].
  change (String c s +:+ "") with (String c (s +:+ "")). by rewrite IH.
Qed.

Lemma endswith_nonempty (s p : string) :
  Py.endswith s p = true → p ≠ "" → s ≠ "".
Proof.
  intros Hs Hp ->. destruct p as [|c p]; [done|].
  unfold Py.endswith in Hs. by cbn in Hs.
Qed.

Section Download_more.

Context {E : Type} `{Outside E} `{Listing E} `{Session E}.
Variable repr : list string → string.
Variable resource_filename : string → string.
Variable makedirs : filesystem → string → option exn * filesystem.

Lemma look_under_other_key (base_dir subdir accessions_key key : string)
    (g : genome) (v : value) (id : value) (w : world E) :
  key ≠ accessions_key →
  look_under repr resource_filename makedirs base_dir subdir accessions_key
    (<[key := v]> g) id w
  = look_under repr resource_filename makedirs base_dir subdir accessions_key g id w.
Proof.
  intros Hne. unfold look_under, genome_item. by rewrite lookup_insert_ne.
Qed.

Lemma write_provenance_agree (download_log : option string) (g g' : genome)
    (p : project) (w : world E) :
  g' !! "Organism Name" = g !! "Organism Name" →
  write_provenance repr download_log g' p w
  = write_provenance repr download_log g p w.
Proof. intros Hsame. unfold write_provenance, genome_item. by rewrite Hsame. Qed.

Lemma write_provenance_other_key (download_log : option string) (key : string)
    (g : genome) (v : value) (p : project) (w : world E) :
  key ≠ "Organism Name" →
  write_provenance repr download_log (<[key := v]> g) p w
  = write_provenance repr download_log g p w.
Proof. intros Hne. apply write_provenance_agree. by rewrite lookup_insert_ne. Qed.

Lemma genome_item_agree (g g' : genome) (key : string) :
  g' !! key = g !! key → genome_item g' key = genome_item g key.
Proof. intros Hsame. unfold genome_item. by rewrite Hsame. Qed.

Lemma look_under_found (base_dir : string) (id : value) (w : world E)
    (listing : list string) (e1 : E) (dir : string) :
  nlst (outside w) base_dir = (Ok listing, e1) →
  dir ∈ listing →
  Py.endswith dir ("_uid" +:+ format_value repr id) = true →
  ∃ first,
    first ≠ ""
    ∧ ∀ subdir accessions_key g,
        look_under repr resource_filename makedirs base_dir subdir
          accessions_key g id w
        = match genome_item g accessions_key with
          | Raise err => (mk_world e1 (files w) (logged w), Raise err)
          | Ok codes =>
              match id with
              | VList _ =>
                  (mk_world e1 (files w) (logged w),
                   Raise (TypeError "cannot concatenate 'str' and 'list' objects"))
              | VStr s =>
                  match create_directory resource_filename makedirs
                          (subdir +:+ s) BASE_OUTPUT_PATH (files w) with
                  | (Raise err, fs) => (mk_world e1 fs (logged w), Raise err)
                  | (Ok dirname, fs) =>
                      (mk_world e1 fs (logged w),
                       Ok (Some (mk_project s first codes dirname)))
                  end
              end
          end.
Proof.
  intros Hnlst Hin Hends.
  destruct (find (λ ftp_file, Py.endswith ftp_file
                                ("_uid" +:+ format_value repr id)) listing)
    as [first|] eqn:Hfind.
  - pose proof Hfind as [_ Hfirst]%find_some.
    assert (Hne : first ≠ "").
    { eapply endswith_nonempty; [exact Hfirst|].
      by change ("_uid" +:+ format_value repr id)
           with (String "_" ("uid" +:+ format_value repr id)). }
    exists first. split; [done|]. intros subdir accessions_key g.
    unfold look_under, _find_project_dir.
    rewrite Hnlst. cbn [mbind result_bind]. rewrite Hfind.
    by destruct (String.eqb_spec first "").
  - apply list_elem_of_In in Hin. apply (find_none _ _ Hfind) in Hin. congruence.
Qed.

Lemma look_under_missing (base_dir subdir accessions_key : string) (g : genome)
    (id : value) (w : world E) (listing : list string) (e1 : E) :
  nlst (outside w) base_dir = (Ok listing, e1) →
  (∀ dir, dir ∈ listing →
     Py.endswith dir ("_uid" +:+ format_value repr id) = false) →
  look_under repr resource_filename makedirs base_dir subdir accessions_key g id w
  = (mk_world e1 (files w) (logged w), Ok None).
Proof.
  intros Hnlst Hnone. unfold look_under, _find_project_dir.
  rewrite Hnlst. cbn [mbind result_bind].
  destruct (find _ listing) as [first|] eqn:Hfind; [|done].
  apply find_some in Hfind as [Hin Hfirst].
  apply list_elem_of_In, Hnone in Hin. congruence.
Qed.

(** X25. An accession column that the header of the catalog did not
    declare comma separated is read character by character:
    [download_genome_files] does on a genome whose accession cell is a
    string exactly what it does on the genome whose cell is the list of the
    characters of that string.  This holds for the RefSeq and for the
    GenBank accessions. *)
Theorem undeclared_accession_column_is_read_by_character
    (g : genome) (codes : string) (download_log : option string) (w : world E) :
  download_genome_files repr resource_filename makedirs
    (<["List of RefSeq accessions" := VStr codes]> g) download_log w
  = download_genome_files repr resource_filename makedirs
      (<["List of RefSeq accessions"
           := VList ((λ c, String c "") <$> list_ascii_of_string codes)]> g)
      download_log w
  ∧ download_genome_files repr resource_filename makedirs
      (<["List of GenBank accessions" := VStr codes]> g) download_log w
    = download_genome_files repr resource_filename makedirs
        (<["List of GenBank accessions"
             := VList ((λ c, String c "") <$> list_ascii_of_string codes)]> g)
        download_log w.
Proof.
  split.
  - unfold download_genome_files.
    destruct (ftp_connect (outside w) ftp_host) as [[err|] e1]; [done|].
    destruct (ftp_login e1) as [[err|] e2]; [done|].
    unfold locate_project, genome_item.
    rewrite !lookup_insert_ne by done.
    destruct (g !! "RefSeq project ID") as [refseq_id|]; [|done].
    unfold look_under at 1 3. cbn [outside files logged].
    destruct (_find_project_dir _ _ e2) as [[[dir|]|err] e3]; [| |done].
    + destruct (String.eqb dir "").
      * destruct (g !! "Project ID") as [genbank_id|]; [|done].
        rewrite !look_under_other_key by done.
        destruct (look_under _ _ _ _ _ _ _ _ _) as [w3 [[p|]|err]];
          [| by destruct (g !! "Organism Name") | done].
        by rewrite !write_provenance_other_key by done.
      * unfold genome_item. rewrite !lookup_insert_eq.
        destruct refseq_id as [s|l]; [|done].
        destruct (create_directory _ _ _ _ _) as [[dirname|err] fs]; [|done].
        by rewrite !write_provenance_other_key by done.
    + destruct (g !! "Project ID") as [genbank_id|]; [|done].
      rewrite !look_under_other_key by done.
      destruct (look_under _ _ _ _ _ _ _ _ _) as [w3 [[p|]|err]];
          [| by destruct (g !! "Organism Name") | done].
      by rewrite !write_provenance_other_key by done.
  - unfold download_genome_files.
    destruct (ftp_connect (outside w) ftp_host) as [[err|] e1]; [done|].
    destruct (ftp_login e1) as [[err|] e2]; [done|].
    unfold locate_project, genome_item.
    rewrite !lookup_insert_ne by done.
    destruct (g !! "RefSeq project ID") as [refseq_id|]; [|done].
    rewrite !look_under_other_key by done.
    destruct (look_under _ _ _ _ _ _ _ _ _) as [w1 [[p|]|err]]; [| |done].
    + by rewrite !write_provenance_other_key by done.
    + destruct (g !! "Project ID") as [genbank_id|]; [|done].
      unfold look_under.
      destruct (_find_project_dir _ _ _) as [[[dir|]|err] e3]; [| |done].
      * destruct (String.eqb dir ""); [by destruct (g !! "Organism Name")|].
        unfold genome_item. rewrite !lookup_insert_eq.
        destruct genbank_id as [s|l]; [|done].
        destruct (create_directory _ _ _ _ _) as [[dirname|err] fs]; [|done].
        by rewrite !write_provenance_other_key by done.
      * by destruct (g !! "Organism Name").
Qed.

(** X26. RefSeq comes first: when the RefSeq listing has a directory for
    the RefSeq project ID of the genome, nothing else of the genome is
    consulted than that ID, the RefSeq accessions and the organism name.  A
    genome that agrees on these three cells gives the same run, whatever
    its GenBank project ID and accessions are. *)
Theorem refseq_listing_comes_first (g g' : genome) (download_log : option string)
    (w : world E) (e1 e2 e3 : E) (refseq_id : value) (listing : list string)
    (dir : string) :
  ftp_connect (outside w) ftp_host = (None, e1) →
  ftp_login e1 = (None, e2) →
  g !! "RefSeq project ID" = Some refseq_id →
  nlst e2 "/genomes/Bacteria" = (Ok listing, e3) →
  dir ∈ listing →
  Py.endswith dir ("_uid" +:+ format_value repr refseq_id) = true →
  g' !! "RefSeq project ID" = g !! "RefSeq project ID" →
  g' !! "List of RefSeq accessions" = g !! "List of RefSeq accessions" →
  g' !! "Organism Name" = g !! "Organism Name" →
  download_genome_files repr resource_filename makedirs g' download_log w
  = download_genome_files repr resource_filename makedirs g download_log w.
Proof.
  intros Hconnect Hlogin Hid Hnlst Hin Hends Hsame_id Hsame_codes Hsame_name.
  unfold download_genome_files. rewrite Hconnect, Hlogin.
  unfold locate_project.
  rewrite (genome_item_agree g g' "RefSeq project ID") by done.
  assert (genome_item g "RefSeq project ID" = Ok refseq_id) as ->
    by (unfold genome_item; by rewrite Hid).
  destruct (look_under_found "/genomes/Bacteria" refseq_id
              (mk_world e2 (files w) (logged w)) listing e3 dir)
    as (first & _ & Hlook); [done..|].
  rewrite !Hlook.
  rewrite (genome_item_agree g g' "List of RefSeq accessions") by done.
  destruct (genome_item g "List of RefSeq accessions") as [codes|err]; [|done].
  destruct refseq_id as [s|l]; [|done]. cbn [files logged].
  destruct (create_directory _ _ _ _ _) as [[dirname|err] fs]; [|done].
  by rewrite (write_provenance_agree _ g g').
Qed.

(** X27. A project that neither listing has changes nothing: no directory
    is made, no provenance line is written and no file is asked for.  The
    call logs a warning (for a RefSeq project ID that is not empty) and an
    error, and raises [AssertionError], or [KeyError] when the genome has no
    organism name for the message. *)
Theorem project_not_found_changes_nothing (g : genome)
    (download_log : option string) (w : world E) (e1 e2 e3 e4 : E)
    (refseq_id genbank_id : value) (refseq_listing genbank_listing : list string) :
  let after := download_genome_files repr resource_filename makedirs g
                 download_log w in
  ftp_connect (outside w) ftp_host = (None, e1) →
  ftp_login e1 = (None, e2) →
  g !! "RefSeq project ID" = Some refseq_id →
  nlst e2 "/genomes/Bacteria" = (Ok refseq_listing, e3) →
  (∀ dir, dir ∈ refseq_listing →
     Py.endswith dir ("_uid" +:+ format_value repr refseq_id) = false) →
  g !! "Project ID" = Some genbank_id →
  nlst e3 "/genbank/genomes/Bacteria" = (Ok genbank_listing, e4) →
  (∀ dir, dir ∈ genbank_listing →
     Py.endswith dir ("_uid" +:+ format_value repr genbank_id) = false) →
  files after.1 = files w
  ∧ outside after.1 = e4
  ∧ logged after.1
    = (logged w
       ++ (if truthy refseq_id
           then [(WARNING, not_found_under_msg "/genomes/Bacteria"
                             (format_value repr refseq_id))]
           else [])
       ++ [(ERROR, not_found_under_msg "/genbank/genomes/Bacteria"
                     (format_value repr genbank_id))])%list
  ∧ after.2
    = match g !! "Organism Name" with
      | Some organism =>
          Raise (AssertionError
                   (failed_to_find_msg (format_value repr refseq_id)
                      (format_value repr organism)))
      | None => Raise (KeyError "Organism Name")
      end.
Proof.
  intros after Hconnect Hlogin Hid Hnlst Hnone Hid' Hnlst' Hnone'. subst after.
  unfold download_genome_files. rewrite Hconnect, Hlogin.
  unfold locate_project, genome_item. rewrite Hid.
  rewrite (look_under_missing _ _ _ _ _ _ refseq_listing e3) by done.
  rewrite Hid'.
  rewrite (look_under_missing _ _ _ _ _ _ genbank_listing e4);
    [|by destruct (truthy refseq_id)..].
  destruct (g !! "Organism Name") as [organism|]; cbn [mbind result_bind fst snd];
    destruct (truthy refseq_id); cbn [log_at files outside logged];
    by rewrite <- ?app_assoc.
Qed.

(** X28. The provenance step only appends: whatever was in a file is
    still there afterwards, at the start of the file.  A file grows only if
    it is the provenance file and the step ended normally. *)
Theorem provenance_only_appends (download_log : option string) (g : genome)
    (p : project) (w : world E) (path old : string) (mtime : Z) :
  let after := write_provenance repr download_log g p w in
  files w !! path = Some (File old mtime) →
  ∃ more mtime',
    files after.1 !! path = Some (File (old +:+ more) mtime')
    ∧ (more ≠ "" → download_log = Some path ∧ after.2 = Ok ()).
Proof.
  intros after Hfile. subst after. unfold write_provenance.
  assert (Hkeep : ∀ r : result unit,
            ∃ more mtime',
              files w !! path = Some (File (old +:+ more) mtime')
              ∧ (more ≠ "" → download_log = Some path ∧ r = Ok ())).
  { intros r. exists "", mtime. by rewrite append_nil_r. }
  destruct download_log as [log|]; [|apply Hkeep].
  destruct (String.eqb log ""); [apply Hkeep|].
  destruct (decide (log = path)) as [->|Hother].
  - rewrite Hfile. destruct (genome_item g "Organism Name") as [organism|err].
    + eexists _, _. cbn [fst snd files]. by rewrite lookup_insert_eq.
    + exists "", mtime. by rewrite append_nil_r.
  - exists "", mtime. rewrite append_nil_r. split; [|done].
    destruct (files w !! log) as [[data t|sz t]|] eqn:Hlog; [| done |].
    + destruct (genome_item g "Organism Name"); cbn [fst files]; [|done].
      by rewrite lookup_insert_ne.
    + destruct (genome_item g "Organism Name"); cbn [fst files];
        by rewrite lookup_insert_ne.
Qed.

End Download_more.

Lemma refseq_listing_comes_first_witness :
  (download_genome_files demo_repr demo_resource_filename demo_makedirs
     (demo_genome "225" "999") None demo_world).2
  = (download_genome_files demo_repr demo_resource_filename demo_makedirs
       (demo_genome "225" "18871") None demo_world).2.
Proof.
  rewrite (refseq_listing_comes_first demo_repr demo_resource_filename
             demo_makedirs (demo_genome "225" "18871") (demo_genome "225" "999")
             None demo_world 1%nat 2%nat 3%nat (VStr "225") demo_listing
             "/genomes/Bacteria/Escherichia_coli_K_12_uid225");
    [reflexivity | by_evaluation | by_evaluation | by_evaluation | by_evaluation
    | decide_by_evaluation | by_evaluation | by_evaluation | by_evaluation
    | by_evaluation].
Defined.

Lemma project_not_found_changes_nothing_witness :
  (download_genome_files demo_repr demo_resource_filename demo_makedirs
     (demo_genome "999" "888") None demo_world).2
  = Raise (AssertionError
             "Failed to find folder for genome 999: Escherichia coli").
Proof.
  destruct (project_not_found_changes_nothing demo_repr demo_resource_filename
              demo_makedirs (demo_genome "999" "888") None demo_world
              1%nat 2%nat 3%nat 4%nat (VStr "999") (VStr "888") demo_listing
              ["/genbank/genomes/Bacteria/Sulfolobus_islandicus_M_14_25_uid18871"])
    as (_ & _ & _ & Hraised);
    [by_evaluation | by_evaluation | by_evaluation | by_evaluation
    | | by_evaluation | by_evaluation | |].
  - intros dir Hin. apply list_elem_of_In in Hin. vm_compute in Hin.
    repeat destruct Hin as [<-|Hin]; try by_evaluation. done.
  - intros dir Hin. apply list_elem_of_In in Hin. vm_compute in Hin.
    repeat destruct Hin as [<-|Hin]; try by_evaluation. done.
  - rewrite Hraised. by_evaluation.
Defined.

Lemma provenance_only_appends_witness :
  ∃ more mtime',
    files (write_provenance (E := nat) demo_repr (Some "ids.tsv")
             (demo_genome "225" "")
             (mk_project "225" "/genomes/Bacteria/Escherichia_coli_K_12_uid225"
                (VList ["NC_1"]) "cache")
             (mk_world 0%nat {[ "ids.tsv" := File "# genomes" 1990000000 ]} [])).1
      !! "ids.tsv"
    = Some (File ("# genomes" +:+ more) mtime')
    ∧ (more ≠ "" →
       Some "ids.tsv" = Some "ids.tsv"
       ∧ (write_provenance (E := nat) demo_repr (Some "ids.tsv")
            (demo_genome "225" "")
            (mk_project "225" "/genomes/Bacteria/Escherichia_coli_K_12_uid225"
               (VList ["NC_1"]) "cache")
            (mk_world 0%nat {[ "ids.tsv" := File "# genomes" 1990000000 ]} [])).2
         = Ok ()).
Proof.
  apply (provenance_only_appends demo_repr (Some "ids.tsv") (demo_genome "225" "")
           (mk_project "225" "/genomes/Bacteria/Escherichia_coli_K_12_uid225"
              (VList ["NC_1"]) "cache")
           (mk_world 0%nat {[ "ids.tsv" := File "# genomes" 1990000000 ]} [])
           "ids.tsv" "# genomes" 1990000000).
  by_evaluation.
Defined.

(** A cell that is the string [NC] makes the loop ask for [N] and [C]. *)
Example accession_string_is_iterated :
  (download_genome_files demo_repr demo_resource_filename demo_makedirs
     (<["List of RefSeq accessions" := VStr "NC"]> (demo_genome "225" ""))
     None demo_world).2
  = Ok [ ("225", "/opt/divergence/../divergence-cache/refseq/225/N.gbk",
          Some "/opt/divergence/../divergence-cache/refseq/225/N.ptt");
         ("225", "/opt/divergence/../divergence-cache/refseq/225/C.gbk",
          Some "/opt/divergence/../divergence-cache/refseq/225/C.ptt") ].
Proof. by_evaluation. Qed.
